(** * Reliability engine of flask-sre-challenge

    A shallow embedding of [sre/circuit_breaker.py] (the circuit breaker
    and its manager) and of [sre/slo_sli.py] (request recorder, SLI
    calculators, error budgets, SLO evaluation and the dashboard), with
    the properties of the specification stated over it; and of the code
    that uses them in [sre/dashboard.py] and [app.py].

    Conventions of the embedding.
    - Python [int] is [Z].  Python [float] (clock readings, response
      times, percentages) is idealised as an exact rational [Q]; no
      statement below depends on rounding.  The one exception is the
      [percentile] argument of the latency SLI, which is a binary64
      value with the arithmetic of IEEE 754: what the source computes
      from it can round, overflow or be a NaN.
    - A Python [dict] keyed by strings is a [gmap string _]; where the
      iteration order of a dict is observable it is an association list.
    - Methods that mutate [self] return the new object. *)

From Stdlib Require Import ZArith QArith Qround Lia Lqa Bool Ascii String.
From Stdlib Require SpecFloat.
From stdpp Require Import base gmap strings list.

Local Open Scope Z_scope.

(* ===================================================================== *)
(** * sre/circuit_breaker.py                                              *)
(* ===================================================================== *)

(** [class CircuitState(Enum)] *)
Inductive CircuitState := CLOSED | OPEN | HALF_OPEN.

Definition CircuitState_eqb (a b : CircuitState) : bool :=
  match a, b with
  | CLOSED, CLOSED | OPEN, OPEN | HALF_OPEN, HALF_OPEN => true
  | _, _ => false
  end.

(** Exceptions that can travel out of [CircuitBreaker.call]: the module's
    own [CircuitBreakerError], or an exception of any other class raised by
    the guarded function ([cls] is the name of its class). *)
Inductive exception :=
| CircuitBreakerError (msg : string)
| OtherException (cls : string) (msg : string).

(** The fields of a [CircuitBreaker] object (the lock is left out: [call]
    holds it from its first to its last statement, so a call is one atomic
    step).  [expected_exception] is a class in the source; it is used only
    in [except self.expected_exception], that is as the test
    [isinstance(e, self.expected_exception)], which is what the field holds
    here. *)
Record CircuitBreaker := mkCircuitBreaker {
  failure_threshold : Z;
  recovery_timeout : Z;
  expected_exception : exception -> bool;
  name : string;
  failure_count : Z;
  last_failure_time : option Q;
  state : CircuitState
}.

Definition set_state (b : CircuitBreaker) (s : CircuitState) : CircuitBreaker :=
  mkCircuitBreaker (failure_threshold b) (recovery_timeout b)
    (expected_exception b) (name b) (failure_count b) (last_failure_time b) s.

Definition set_failure_count (b : CircuitBreaker) (n : Z) : CircuitBreaker :=
  mkCircuitBreaker (failure_threshold b) (recovery_timeout b)
    (expected_exception b) (name b) n (last_failure_time b) (state b).

Definition set_last_failure_time (b : CircuitBreaker) (t : option Q) : CircuitBreaker :=
  mkCircuitBreaker (failure_threshold b) (recovery_timeout b)
    (expected_exception b) (name b) (failure_count b) t (state b).

(** [isinstance(e, Exception)], the default of [expected_exception]: the
    guarded functions of this repository raise subclasses of [Exception]. *)
Definition Exception (e : exception) : bool := true.

(** [CircuitBreaker.__init__] *)
Definition CircuitBreaker_init (failure_threshold recovery_timeout : Z)
    (expected_exception : exception -> bool) (name : string) : CircuitBreaker :=
  mkCircuitBreaker failure_threshold recovery_timeout expected_exception name
    0 None CLOSED.

(** The world outside the breaker: whatever the guarded function reads and
    writes, and the clock.  [time w] is the value [time.time()] returns in
    world [w]. *)
Class Clock (W : Type) := time : W -> Q.

(** What one run of the guarded function does: it returns a value or
    raises. *)
Inductive execution (V : Type) :=
| Returns (v : V)
| Raises (e : exception).
Arguments Returns {V} v.
Arguments Raises {V} e.

Section CircuitBreaker_methods.
Context {W V : Type} `{Clock W}.

(** The guarded function with its arguments already supplied: a run of
    it takes the world to a new world. *)
Definition callable : Type := W -> execution V * W.

(** [CircuitBreaker._should_attempt_reset] *)
Definition _should_attempt_reset (b : CircuitBreaker) (w : W) : bool :=
  match last_failure_time b with
  | None => true
  | Some t => Qle_bool (inject_Z (recovery_timeout b)) (time w - t)
  end.

(** [CircuitBreaker._on_success] *)
Definition _on_success (b : CircuitBreaker) : CircuitBreaker :=
  let b := set_failure_count b 0 in
  if CircuitState_eqb (state b) HALF_OPEN then set_state b CLOSED else b.

(** [CircuitBreaker._on_failure]; [w] is the world in which
    [time.time()] is read. *)
Definition _on_failure (b : CircuitBreaker) (w : W) : CircuitBreaker :=
  let b := set_failure_count b (failure_count b + 1) in
  let b := set_last_failure_time b (Some (time w)) in
  if failure_threshold b <=? failure_count b then set_state b OPEN else b.

(** Lines 44-49 of [call]: the decision taken before the guarded function
    may run.  [inr b'] lets the call through with the breaker now [b'];
    [inl e] rejects it with exception [e]. *)
Definition admission (b : CircuitBreaker) (w : W) : exception + CircuitBreaker :=
  if CircuitState_eqb (state b) OPEN then
    if _should_attempt_reset b w then inr (set_state b HALF_OPEN)
    else inl (CircuitBreakerError
                ("Circuit breaker '" +:+ name b +:+ "' is OPEN"))
  else inr b.

(** Lines 51-57 of [call]: the [try] block. *)
Definition guarded_run (b : CircuitBreaker) (func : callable) (w : W)
    : CircuitBreaker * execution V * W :=
  let '(r, w') := func w in
  match r with
  | Returns v => (_on_success b, Returns v, w')
  | Raises e =>
      if expected_exception b e then (_on_failure b w', Raises e, w')
      else (b, Raises e, w')
  end.

(** [CircuitBreaker.call]: the breaker after the call, what the call
    returns or raises, and the world after it. *)
Definition call (b : CircuitBreaker) (func : callable) (w : W)
    : CircuitBreaker * execution V * W :=
  match admission b w with
  | inl e => (b, Raises e, w)
  | inr b' => guarded_run b' func w
  end.

(** The breakers a program can hold: made by the constructor and changed
    only through [call]. *)
Inductive reachable : CircuitBreaker -> Prop :=
| reachable_init th to ex nm :
    reachable (CircuitBreaker_init th to ex nm)
| reachable_call b func w :
    reachable b -> reachable (fst (fst (call b func w))).

(** [n] calls in a row, each of which ran the guarded function and saw it
    fail with an exception the breaker counts; the worlds in which the
    calls are made are arbitrary (time passes between calls). *)
Inductive consecutive_failures : CircuitBreaker -> nat -> CircuitBreaker -> Prop :=
| failures_none b : consecutive_failures b 0 b
| failures_more b n b1 b2 func w e w' :
    consecutive_failures b n b1 ->
    admission b1 w = inr b2 ->
    func w = (Raises e, w') ->
    expected_exception b1 e = true ->
    consecutive_failures b (S n) (fst (fst (call b1 func w))).

(** [class CircuitBreakerManager].  [self.breakers] is a dict from names
    to breaker objects; its iteration order (insertion order) decides the
    order of the lists returned below, so it is an association list.  The
    manager only reads the breakers: each entry holds the fields the
    referenced breaker has at the time of the query. *)
Definition CircuitBreakerManager : Type := list (string * CircuitBreaker).

Definition CircuitBreakerManager_init : CircuitBreakerManager := [].

(** [self.breakers[name] = breaker]: an existing key keeps its place. *)
Fixpoint register_breaker (m : CircuitBreakerManager) (nm : string)
    (b : CircuitBreaker) : CircuitBreakerManager :=
  match m with
  | [] => [(nm, b)]
  | (k, b') :: m' =>
      if String.eqb k nm then (k, b) :: m'
      else (k, b') :: register_breaker m' nm b
  end.

(** [CircuitBreakerManager.get_open_circuits] *)
Definition get_open_circuits (m : CircuitBreakerManager) : list string :=
  map fst (filter (fun kb => CircuitState_eqb (state (snd kb)) OPEN = true) m).

(** [if breaker.last_failure_time:] is false for [None] and for [0.0]. *)
Definition truthy (t : option Q) : bool :=
  match t with
  | None => false
  | Some t => negb (Qeq_bool t 0)
  end.

(** [CircuitBreakerManager.get_critical_circuits] *)
Definition get_critical_circuits (m : CircuitBreakerManager) (w : W) : list string :=
  map fst
    (filter (fun kb =>
               let breaker := snd kb in
               (CircuitState_eqb (state breaker) OPEN
                && truthy (last_failure_time breaker)
                && match last_failure_time breaker with
                   | Some t =>
                       let time_open := (time w - t)%Q in
                       negb (Qle_bool time_open
                               (inject_Z (recovery_timeout breaker * 2)))
                   | None => false
                   end) = true) m).
End CircuitBreaker_methods.

(** What holds of every breaker a program can hold. *)
Definition breaker_inv (b : CircuitBreaker) : Prop :=
  0 <= failure_count b
  /\ (state b = OPEN ->
      failure_threshold b <= failure_count b /\ last_failure_time b <> None)
  /\ (state b = HALF_OPEN -> failure_threshold b <= failure_count b).

(* ===================================================================== *)
(** * sre/slo_sli.py                                                      *)
(* ===================================================================== *)

(** ** [datetime]

    A naive [datetime] is its number of microseconds since
    1970-01-01T00:00:00: comparison of datetimes is comparison of these
    counts and adding a [timedelta] adds to the count.  The limits of the
    type (years 1 to 9999) are not modelled. *)
Definition datetime : Type := Z.

Definition timedelta (days hours : Z) : Z :=
  days * 86400000000 + hours * 3600000000.

(** Year, month and day of the day that lies [z] days after 1970-01-01 in
    the proleptic Gregorian calendar. *)
Definition civil_from_days (z : Z) : Z * Z * Z :=
  let z := z + 719468 in
  let era := z / 146097 in
  let doe := z mod 146097 in
  let yoe := (doe - doe / 1460 + doe / 36524 - doe / 146096) / 365 in
  let doy := doe - (365 * yoe + yoe / 4 - yoe / 100) in
  let mp := (5 * doy + 2) / 153 in
  let d := doy - (153 * mp + 2) / 5 + 1 in
  let m := if mp <? 10 then mp + 3 else mp - 9 in
  let y := yoe + era * 400 + (if m <=? 2 then 1 else 0) in
  (y, m, d).

Definition digit (n : Z) : ascii :=
  ascii_of_nat (48 + Z.to_nat (n mod 10)).

(** [%m], [%d], [%H]: two digits; [%Y]: four digits. *)
Definition two_digits (n : Z) (rest : string) : string :=
  String (digit (n / 10)) (String (digit n) rest).

Definition four_digits (n : Z) (rest : string) : string :=
  String (digit (n / 1000)) (String (digit (n / 100)) (two_digits n rest)).

(** [t.strftime('%Y-%m-%d-%H')] *)
Definition strftime_hour (t : datetime) : string :=
  let h := t / 3600000000 in
  let '(y, m, d) := civil_from_days (h / 24) in
  four_digits y
    (String "-" (two_digits m
       (String "-" (two_digits d
          (String "-" (two_digits (h mod 24) ""))))))%char.

(** ** Errors raised inside [slo_sli.py] *)
Inductive error :=
| IndexError
| OverflowError
| ValueError
| KeyError (key : string).

Inductive result (A : Type) :=
| Ok (a : A)
| Err (e : error).
Arguments Ok {A} a.
Arguments Err {A} e.

#[global] Instance result_bind : MBind result :=
  fun A B (k : A -> result B) (r : result A) =>
    match r with
    | Ok a => k a
    | Err e => Err e
    end.

(** ** Numbers *)

(** [a < b] on floats. *)
Definition Qlt_bool (a b : Q) : bool := negb (Qle_bool b a).

(** A Python [float] where its being a double matters: an IEEE 754
    binary64 value (53 bits of precision, exponents below 1024), with the
    arithmetic of the standard, round to nearest and ties to even, as
    [SpecFloat] defines it. *)
Definition float : Type := SpecFloat.spec_float.

(** [float(n)] for an int [n] that has a nearest double. *)
Definition float_of_Z (n : Z) : float :=
  SpecFloat.binary_normalize 53 1024 n 0 false.

(** [x * y] and [x / y] on floats; where the source divides, the divisor
    is not a zero. *)
Definition float_mul (x y : float) : float := SpecFloat.SFmul 53 1024 x y.
Definition float_div (x y : float) : float := SpecFloat.SFdiv 53 1024 x y.

(** [int(x)] on a float: truncation towards zero; [int] of a NaN raises
    [ValueError] and [int] of an infinity raises [OverflowError]. *)
Definition int (x : float) : result Z :=
  match x with
  | SpecFloat.S754_nan => Err ValueError
  | SpecFloat.S754_infinity _ => Err OverflowError
  | SpecFloat.S754_zero _ => Ok 0
  | SpecFloat.S754_finite s m e =>
      let a := Z.shiftl (Z.pos m) e in Ok (if s then - a else a)
  end.

(** [sys.maxsize]: no list of the source is longer. *)
Definition sys_maxsize : Z := 2 ^ 63 - 1.

(** [max(0, x)]: the second argument when it is greater, else the first. *)
Definition max0 (x : Q) : Q := if Qlt_bool 0 x then x else 0%Q.

(** [l[i]] on a Python list: negative indices count from the end, and an
    index outside [-len(l), len(l)) raises [IndexError]. *)
Definition getitem {A : Type} (l : list A) (i : Z) : result A :=
  let n := Z.of_nat (length l) in
  let j := if i <? 0 then i + n else i in
  if (0 <=? j) && (j <? n) then
    match nth_error l (Z.to_nat j) with
    | Some x => Ok x
    | None => Err IndexError
    end
  else Err IndexError.

(** [sorted(l)] on floats: a stable sort by [<]. *)
Fixpoint insert_sorted (x : Q) (l : list Q) : list Q :=
  match l with
  | [] => [x]
  | y :: l' => if Qlt_bool x y then x :: y :: l' else y :: insert_sorted x l'
  end.

Definition sorted (l : list Q) : list Q :=
  fold_left (fun acc x => insert_sorted x acc) l [].

(** ** [class SLODefinition]

    The [description] field, a formatted text read nowhere, is left out. *)
Record SLODefinition := mkSLODefinition {
  slo_name : string;
  sli_name : string;
  target : Q;
  window_days : Z
}.

(** [SLO_DEFINITIONS], in the order of the dict literal. *)
Definition SLO_DEFINITIONS : list (string * SLODefinition) :=
  [ ("availability", mkSLODefinition "Availability" "availability_sli" (999 # 10) 30);
    ("latency_p95", mkSLODefinition "Latency P95" "latency_p95_sli" 95 30);
    ("error_rate", mkSLODefinition "Error Rate" "error_rate_sli" 99 30);
    ("freshness", mkSLODefinition "Data Freshness" "freshness_sli" (995 # 10) 7) ].

(** ** [class SLICalculator] *)

(** One value of [metrics_store]. *)
Record Metrics := mkMetrics {
  total_requests : Z;
  successful_requests : Z;
  response_times : list Q;
  errors : Z
}.

(** [self.metrics_store] *)
Abbreviation metrics_store := (gmap string Metrics).

Definition SLICalculator_init : metrics_store := ∅.

(** The f-string [f"{scope}_{t.strftime('%Y-%m-%d-%H')}"]. *)
Definition bucket_key (scope : string) (t : datetime) : string :=
  scope +:+ "_" +:+ strftime_hour t.

(** [SLICalculator.record_request]; [utcnow] is what [datetime.utcnow()]
    returns when the call is made. *)
Definition record_request (store : metrics_store) (endpoint : string)
    (status_code : Z) (response_time : Q) (timestamp : option datetime)
    (utcnow : datetime) : metrics_store :=
  let timestamp := match timestamp with
                   | None => utcnow
                   | Some t => t
                   end in
  let key := bucket_key endpoint timestamp in
  let store := match store !! key with
               | None => <[key := mkMetrics 0 0 [] 0]> store
               | Some _ => store
               end in
  match store !! key with
  | None => store
  | Some metrics =>
      let total := total_requests metrics + 1 in
      let '(successful, errs) :=
        if (200 <=? status_code) && (status_code <? 400)
        then (successful_requests metrics + 1, errors metrics)
        else (successful_requests metrics, errors metrics + 1) in
      <[key := mkMetrics total successful
                 (response_times metrics ++ [response_time]) errs]> store
  end.

(** The instants at which the body of
    [while current_time <= end_time: ...; current_time += timedelta(hours=1)]
    runs, in order; [n] bounds the number of iterations. *)
Fixpoint hourly (n : nat) (current_time end_time : datetime) : list datetime :=
  match n with
  | O => []
  | S n' =>
      if current_time <=? end_time
      then current_time :: hourly n' (current_time + timedelta 0 1) end_time
      else []
  end.

(** A bound the loop over [start_time, end_time] never reaches (see
    [hourly_stable]). *)
Definition window_bound (start_time end_time : datetime) : nat :=
  Z.to_nat ((end_time - start_time) / timedelta 0 1 + 1).

Definition window (start_time end_time : datetime) : list datetime :=
  hourly (window_bound start_time end_time) start_time end_time.

(** [SLICalculator.calculate_availability_sli] *)
Definition calculate_availability_sli (store : metrics_store)
    (start_time end_time : datetime) : Q :=
  let '(total, successful) :=
    fold_left
      (fun '(total, successful) current_time =>
         let key := bucket_key "all" current_time in
         match store !! key with
         | Some metrics =>
             (total + total_requests metrics,
              successful + successful_requests metrics)
         | None => (total, successful)
         end)
      (window start_time end_time) (0, 0) in
  if total =? 0 then 100%Q
  else (inject_Z successful / inject_Z total * 100)%Q.

(** The first loop of [calculate_latency_sli]. *)
Definition all_response_times (store : metrics_store)
    (start_time end_time : datetime) : list Q :=
  fold_left
    (fun acc current_time =>
       let key := bucket_key "all" current_time in
       match store !! key with
       | Some metrics => acc ++ response_times metrics
       | None => acc
       end)
    (window start_time end_time) [].

(** The default of the parameter [percentile], [95.0]. *)
Definition default_percentile : float := float_of_Z 95.

(** [int((percentile / 100) * len(sorted_times))], with [n] the length:
    the int [100] and the length are converted to doubles, the quotient
    and the product are rounded, and [int] raises on a NaN and on an
    infinity.  The length of a list of the source is at most
    [sys.maxsize]. *)
Definition percentile_index (percentile : float) (n : Z) : result Z :=
  int (float_mul (float_div percentile (float_of_Z 100))
                 (float_of_Z (Z.min n sys_maxsize))).

(** [SLICalculator.calculate_latency_sli] *)
Definition calculate_latency_sli (store : metrics_store)
    (start_time end_time : datetime) (percentile : float) : result Q :=
  let times := all_response_times store start_time end_time in
  match times with
  | [] => Ok 100%Q
  | _ =>
      let sorted_times := sorted times in
      let n := Z.of_nat (length sorted_times) in
      index ← percentile_index percentile n;
      p95_latency ← getitem sorted_times (Z.min index (n - 1));
      let under_threshold :=
        Z.of_nat (length (filter (fun t => Qlt_bool t (2 # 10) = true) times)) in
      Ok (inject_Z under_threshold / inject_Z (Z.of_nat (length times)) * 100)%Q
  end.

(** [SLICalculator.calculate_error_rate_sli] *)
Definition calculate_error_rate_sli (store : metrics_store)
    (start_time end_time : datetime) : Q :=
  let '(total, errs) :=
    fold_left
      (fun '(total, errs) current_time =>
         let key := bucket_key "all" current_time in
         match store !! key with
         | Some metrics =>
             (total + total_requests metrics, errs + errors metrics)
         | None => (total, errs)
         end)
      (window start_time end_time) (0, 0) in
  if total =? 0 then 100%Q
  else (inject_Z (total - errs) / inject_Z total * 100)%Q.

(** [SLICalculator.calculate_freshness_sli] *)
Definition calculate_freshness_sli (store : metrics_store)
    (start_time end_time : datetime) : Q := 995 # 10.

(** ** [class ErrorBudget] *)
Record ErrorBudget := mkErrorBudget {
  slo : SLODefinition;
  budget_consumed : Q;
  budget_total : Q
}.

(** [ErrorBudget.__init__] *)
Definition ErrorBudget_init (slo : SLODefinition) : ErrorBudget :=
  mkErrorBudget slo 0 (100 - target slo).

(** [ErrorBudget.consume_budget]: the budget after the call and the value
    returned. *)
Definition consume_budget (eb : ErrorBudget) (sli_value : Q) : ErrorBudget * Q :=
  if Qlt_bool sli_value (target (slo eb)) then
    let consumed := (target (slo eb) - sli_value)%Q in
    (mkErrorBudget (slo eb) (budget_consumed eb + consumed) (budget_total eb),
     consumed)
  else (eb, 0%Q).

(** [ErrorBudget.get_budget_remaining] *)
Definition get_budget_remaining (eb : ErrorBudget) : Q :=
  max0 (budget_total eb - budget_consumed eb).

(** [ErrorBudget.is_budget_critical]; the default [threshold] is [0.5]. *)
Definition is_budget_critical (eb : ErrorBudget) (threshold : Q) : bool :=
  Qlt_bool (get_budget_remaining eb) (budget_total eb * threshold).

(** ** [class SREAlerting] *)
Record SREAlerting := mkSREAlerting {
  sli_calculator : metrics_store;
  error_budgets : gmap string ErrorBudget
}.

(** [SREAlerting.__init__] *)
Definition SREAlerting_init : SREAlerting :=
  mkSREAlerting SLICalculator_init
    (list_to_map (map (fun '(name, slo) => (name, ErrorBudget_init slo))
                      SLO_DEFINITIONS)).

Inductive slo_status := PASS | FAIL.

(** One value of the dict [evaluate_slos] returns. *)
Record SLOResult := mkSLOResult {
  slo_target : Q;
  sli_value : Q;
  status : slo_status;
  budget_consumed_now : Q;
  budget_remaining : Q;
  is_critical : bool
}.

(** The [if]/[elif] chain of [evaluate_slos]: [None] is the [continue]
    branch. *)
Definition sli_for (store : metrics_store) (name : string)
    (start_time end_time : datetime) : result (option Q) :=
  if String.eqb name "availability" then
    Ok (Some (calculate_availability_sli store start_time end_time))
  else if String.eqb name "latency_p95" then
    v ← calculate_latency_sli store start_time end_time default_percentile;
    Ok (Some v)
  else if String.eqb name "error_rate" then
    Ok (Some (calculate_error_rate_sli store start_time end_time))
  else if String.eqb name "freshness" then
    Ok (Some (calculate_freshness_sli store start_time end_time))
  else Ok None.

(** The body of the loop of [evaluate_slos] for one SLO, over the
    alerting object and the results gathered so far. *)
Definition evaluate_slo (start_time end_time : datetime)
    (acc : SREAlerting * list (string * SLOResult))
    (entry : string * SLODefinition)
    : result (SREAlerting * list (string * SLOResult)) :=
  let '(a, results) := acc in
  let '(name, slo) := entry in
  v ← sli_for (sli_calculator a) name start_time end_time;
  match v with
  | None => Ok (a, results)
  | Some sli_value =>
      match error_budgets a !! name with
      | None => Err (KeyError name)
      | Some eb =>
          let '(eb', consumed) := consume_budget eb sli_value in
          let a' := mkSREAlerting (sli_calculator a)
                      (<[name := eb']> (error_budgets a)) in
          Ok (a',
              results ++
              [(name,
                mkSLOResult (target slo) sli_value
                  (if Qle_bool (target slo) sli_value then PASS else FAIL)
                  consumed (get_budget_remaining eb')
                  (is_budget_critical eb' (1 # 2)))])
      end
  end.

(** [SREAlerting.evaluate_slos] *)
Definition evaluate_slos (a : SREAlerting) (start_time end_time : datetime)
    : result (SREAlerting * list (string * SLOResult)) :=
  foldl (fun acc entry => acc ← acc; evaluate_slo start_time end_time acc entry)
        (Ok (a, [])) SLO_DEFINITIONS.

(** The alerts of [should_alert].  The source renders each as a line of
    text; the values the text is made of are kept instead
    ("SLO VIOLATION: name - sli% < target%" and
    "ERROR BUDGET CRITICAL: name - remaining% remaining"). *)
Inductive alert :=
| SLO_VIOLATION (name : string) (sli_value slo_target : Q)
| ERROR_BUDGET_CRITICAL (name : string) (budget_remaining : Q).

(** [SREAlerting.should_alert] *)
Definition should_alert (results : list (string * SLOResult)) : list alert :=
  flat_map
    (fun '(name, r) =>
       (match status r with
        | FAIL => [SLO_VIOLATION name (sli_value r) (slo_target r)]
        | PASS => []
        end)
       ++ (if is_critical r
           then [ERROR_BUDGET_CRITICAL name (budget_remaining r)] else []))
    results.

(** ** [class SREDashboard] *)

(** [SREDashboard._get_recommendations] *)
Definition _get_recommendations (slo_results : list (string * SLOResult))
    : list string :=
  flat_map
    (fun '(name, r) =>
       match status r with
       | FAIL =>
           if String.eqb name "availability" then
             ["Investigate infrastructure issues and implement redundancy"]
           else if String.eqb name "latency_p95" then
             ["Optimize database queries and implement caching"]
           else if String.eqb name "error_rate" then
             ["Review error logs and implement better error handling"]
           else if String.eqb name "freshness" then
             ["Check database replication lag and query performance"]
           else []
       | PASS => []
       end)
    slo_results.

(** The dict [get_dashboard_data] returns ([timestamp] is kept as the
    datetime rather than as its ISO text). *)
Record DashboardData := mkDashboardData {
  dd_timestamp : datetime;
  dd_window : string;
  slos : list (string * SLOResult);
  alerts : list alert;
  overall_status : string;
  recommendations : list string
}.

(** [SREDashboard.get_dashboard_data]; the dashboard's only field is its
    [SREAlerting] object. *)
Definition get_dashboard_data (alerting : SREAlerting) (utcnow : datetime)
    : result (SREAlerting * DashboardData) :=
  let end_time := utcnow in
  let start_time := end_time - timedelta 30 0 in
  '(alerting', slo_results) ← evaluate_slos alerting start_time end_time;
  let alerts := should_alert slo_results in
  Ok (alerting',
      mkDashboardData end_time "30 days" slo_results alerts
        (match alerts with [] => "HEALTHY" | _ => "DEGRADED" end)
        (_get_recommendations slo_results)).

(** ** The overall status as the specification words it

    "CRITICAL if any breaker is critical-stuck-open or exists an SLO with
    isCritical; else DEGRADED if any breaker is open or any SLO FAILs; else
    HEALTHY", over the manager's two lists and the SLO results. *)
Definition spec_overall_status (open_circuits critical_circuits : list string)
    (slo_results : list (string * SLOResult)) : string :=
  if negb (bool_decide (critical_circuits = []))
     || existsb (fun nr => is_critical (snd nr)) slo_results
  then "CRITICAL"
  else if negb (bool_decide (open_circuits = []))
          || existsb (fun nr => match status (snd nr) with
                                | FAIL => true | PASS => false end) slo_results
  then "DEGRADED"
  else "HEALTHY".

(* ===================================================================== *)
(** * Notions used to state the properties                                *)
(* ===================================================================== *)

(** The aggregate buckets the loops of the calculators find in the window,
    in the order visited. *)
Definition window_buckets (store : metrics_store)
    (start_time end_time : datetime) : list Metrics :=
  omap (fun t => store !! bucket_key "all" t) (window start_time end_time).

Definition Zsum (l : list Z) : Z := foldr Z.add 0 l.

(** The bucket [record_request] leaves under its key, from the bucket it
    found there. *)
Definition recorded (found : option Metrics) (status_code : Z)
    (response_time : Q) : Metrics :=
  let metrics := default (mkMetrics 0 0 [] 0) found in
  mkMetrics (total_requests metrics + 1)
    (if (200 <=? status_code) && (status_code <? 400)
     then successful_requests metrics + 1 else successful_requests metrics)
    (response_times metrics ++ [response_time])
    (if (200 <=? status_code) && (status_code <? 400)
     then errors metrics else errors metrics + 1).

(** Two stores that hold the same aggregate buckets. *)
Definition agree_all (s1 s2 : metrics_store) : Prop :=
  forall t, s1 !! bucket_key "all" t = s2 !! bucket_key "all" t.

(** "The percentage of recorded latency samples below a fixed threshold;
    100 if no samples": the threshold is the constant [0.2] of the
    source. *)
Definition threshold_compliance (times : list Q) : Q :=
  match times with
  | [] => 100%Q
  | _ =>
      (inject_Z (Z.of_nat (length (filter (fun t => Qlt_bool t (2 # 10) = true) times)))
       / inject_Z (Z.of_nat (length times)) * 100)%Q
  end.

(** A percentile that is a zero or a positive double below [2^903]; every
    percentile from 0 to 100 is one. *)
Definition ordinary_percentile (percentile : float) : bool :=
  match percentile with
  | SpecFloat.S754_zero _ => true
  | SpecFloat.S754_finite false m e => (Z.pos m <? 2 ^ 53) && (e <=? 850)
  | _ => false
  end.

(** One call of [record_request]: its arguments, and the clock reading
    that stands in for an omitted [timestamp]. *)
Record request := mkRequest {
  req_endpoint : string;
  req_status_code : Z;
  req_response_time : Q;
  req_timestamp : option datetime;
  req_utcnow : datetime
}.

(** A recording history played on a store, oldest call first. *)
Definition replay (store : metrics_store) (history : list request) : metrics_store :=
  foldl (fun store r =>
           record_request store (req_endpoint r) (req_status_code r)
             (req_response_time r) (req_timestamp r) (req_utcnow r))
        store history.

Definition to_all (r : request) : bool := String.eqb (req_endpoint r) "all".

(** An SLO result that makes [should_alert] speak: a FAIL or a critical
    budget. *)
Definition slo_alerting (r : SLOResult) : bool :=
  match status r with FAIL => true | PASS => false end || is_critical r.

(** Every SLO of [SLO_DEFINITIONS] has its budget, as [__init__] makes
    them. *)
Definition budgets_complete (a : SREAlerting) : Prop :=
  forall name, name ∈ SLO_DEFINITIONS.*1 -> is_Some (error_budgets a !! name).

(* ===================================================================== *)
(** * Scenarios                                                           *)
(* ===================================================================== *)

(** A world for the scenarios: the clock reading, and how many times the
    guarded function has run. *)
Record World := mkWorld { clock : Q; runs : nat }.

#[global] Instance World_clock : Clock World := clock.

(** A database query that fails, and one that works; each run takes a
    second. *)
Definition failing_query : @callable World unit :=
  fun w => (Raises (OtherException "OperationalError" "connection refused"),
            mkWorld (clock w + 1) (S (runs w))).

Definition working_query : @callable World unit :=
  fun w => (Returns tt, mkWorld (clock w + 1) (S (runs w))).

(** The breaker of [DatabaseCircuitBreaker.__init__]. *)
Definition database_breaker : CircuitBreaker :=
  CircuitBreaker_init 3 30 Exception "database".

(** The same breaker after one, two and three failed queries. *)
Definition failed_once : CircuitBreaker :=
  fst (fst (call database_breaker failing_query (mkWorld 0 0))).

Definition failed_twice : CircuitBreaker :=
  fst (fst (call failed_once failing_query (mkWorld 1 1))).

Definition tripped : CircuitBreaker :=
  fst (fst (call failed_twice failing_query (mkWorld 2 2))).

(** 2024-01-15 10:00:01.234567 *)
Definition ts : datetime := timedelta 19737 10 + 1234567.

(** Nine requests answered 200 and one answered 500, all in the hour of
    [ts], recorded under [endpoint] with response time [response_time]. *)
Definition ten_requests (endpoint : string) (response_time : Q) : list request :=
  replicate 9 (mkRequest endpoint 200 response_time (Some ts) ts)
  ++ [mkRequest endpoint 500 response_time (Some ts) ts].

(** An alerting object whose calculator has seen one failed request in
    the aggregate scope. *)
Definition alerting_after_outage : SREAlerting :=
  mkSREAlerting (record_request SLICalculator_init "all" 500 1 (Some ts) ts)
                (error_budgets SREAlerting_init).

(* ===================================================================== *)
(** * More of sre/circuit_breaker.py                                      *)
(* ===================================================================== *)

(** [CircuitState.value] *)
Definition CircuitState_value (s : CircuitState) : string :=
  match s with
  | CLOSED => "closed"
  | OPEN => "open"
  | HALF_OPEN => "half_open"
  end.

(** The dict [CircuitBreaker.get_state] returns. *)
Record StateSnapshot := mkStateSnapshot {
  snap_name : string;
  snap_state : string;
  snap_failure_count : Z;
  snap_last_failure_time : option Q;
  snap_threshold : Z;
  snap_timeout : Z
}.

(** [CircuitBreaker.get_state] *)
Definition get_state (b : CircuitBreaker) : StateSnapshot :=
  mkStateSnapshot (name b) (CircuitState_value (state b)) (failure_count b)
    (last_failure_time b) (failure_threshold b) (recovery_timeout b).

(** [CircuitBreakerManager.get_all_states] *)
Definition get_all_states (m : CircuitBreakerManager)
    : list (string * StateSnapshot) :=
  map (fun kb => (fst kb, get_state (snd kb))) m.

(** The values found in the fallback dicts. *)
#[warnings="-register-all"] Inductive pyvalue :=
| PyStr (s : string)
| PyBool (b : bool)
| PyList (l : list pyvalue).

(** What [execute_query] and [call_service] hand back: the value the
    guarded function returned, or a fallback dict. *)
Inductive answer (V : Type) :=
| Answer (v : V)
| FallbackAnswer (d : list (string * pyvalue)).
Arguments Answer {V} v.
Arguments FallbackAnswer {V} d.

(** [DatabaseCircuitBreaker.__init__]: the object's only field. *)
Definition DatabaseCircuitBreaker_init : CircuitBreaker :=
  CircuitBreaker_init 3 30 Exception "database".

(** [DatabaseCircuitBreaker._get_fallback_data] *)
Definition _get_fallback_data : list (string * pyvalue) :=
  [("users", PyList []);
   ("error", PyStr "Database temporarily unavailable");
   ("fallback", PyBool true)].

(** [ExternalServiceCircuitBreaker.__init__]: the breaker it makes. *)
Definition ExternalServiceCircuitBreaker_init (service_name : string)
    : CircuitBreaker :=
  CircuitBreaker_init 5 60 Exception ("external_" +:+ service_name).

(** [ExternalServiceCircuitBreaker._get_service_fallback] *)
Definition _get_service_fallback (service_name : string)
    : list (string * pyvalue) :=
  [("error", PyStr ("Service " +:+ service_name +:+ " temporarily unavailable"));
   ("fallback", PyBool true)].

(** [isinstance(e, CircuitBreakerError)] *)
Definition is_CircuitBreakerError (e : exception) : bool :=
  match e with
  | CircuitBreakerError _ => true
  | OtherException _ _ => false
  end.

Section CircuitBreaker_wrappers.
Context {W V : Type} `{Clock W}.

(** [DatabaseCircuitBreaker.execute_query]: [try: return self.breaker.call(..)
    except CircuitBreakerError: return self._get_fallback_data()]. *)
Definition execute_query (breaker : CircuitBreaker) (query_func : @callable W V)
    (w : W) : CircuitBreaker * execution (answer V) * W :=
  let '(breaker', r, w') := call breaker query_func w in
  match r with
  | Returns v => (breaker', Returns (Answer v), w')
  | Raises e =>
      if is_CircuitBreakerError e
      then (breaker', Returns (FallbackAnswer _get_fallback_data), w')
      else (breaker', Raises e, w')
  end.

(** [ExternalServiceCircuitBreaker.call_service] *)
Definition call_service (service_name : string) (breaker : CircuitBreaker)
    (service_func : @callable W V) (w : W)
    : CircuitBreaker * execution (answer V) * W :=
  let '(breaker', r, w') := call breaker service_func w in
  match r with
  | Returns v => (breaker', Returns (Answer v), w')
  | Raises e =>
      if is_CircuitBreakerError e
      then (breaker', Returns (FallbackAnswer (_get_service_fallback service_name)), w')
      else (breaker', Raises e, w')
  end.

(** A breaker followed through any number of calls. *)
Inductive evolves : CircuitBreaker -> CircuitBreaker -> Prop :=
| evolves_refl b : evolves b b
| evolves_call b0 b (func : @callable W V) w :
    evolves b0 b -> evolves b0 (fst (fst (call b func w))).
End CircuitBreaker_wrappers.

(** What a breaker made with a positive threshold satisfies for as long as
    it is only used through [call]. *)
Definition fresh_inv (th to : Z) (ex : exception -> bool) (nm : string)
    (b : CircuitBreaker) : Prop :=
  failure_threshold b = th /\ recovery_timeout b = to
  /\ expected_exception b = ex /\ name b = nm
  /\ 0 <= failure_count b
  /\ (state b = CLOSED <-> failure_count b < th)
  /\ (state b <> CLOSED -> last_failure_time b <> None).

(* ===================================================================== *)
(** * More notions used to state properties of sre/slo_sli.py             *)
(* ===================================================================== *)

(** The key under which a call of [record_request] files its request. *)
Definition request_key (r : request) : string :=
  bucket_key (req_endpoint r) (default (req_utcnow r) (req_timestamp r)).

(** [200 <= status_code < 400] *)
Definition is_success (status_code : Z) : bool :=
  (200 <=? status_code) && (status_code <? 400).

(** The bucket that holds exactly the requests [hits], in order. *)
Definition bucket_of (hits : list request) : option Metrics :=
  match hits with
  | [] => None
  | _ =>
      Some (mkMetrics
              (Z.of_nat (length hits))
              (Z.of_nat (length (List.filter
                                   (fun r => is_success (req_status_code r)) hits)))
              (map req_response_time hits)
              (Z.of_nat (length (List.filter
                                   (fun r => negb (is_success (req_status_code r)))
                                   hits))))
  end.

(** Every bucket of the store counts each of its requests once, as a
    success or as an error, and keeps one response time per request. *)
Definition store_inv (store : metrics_store) : Prop :=
  forall k m, store !! k = Some m ->
    total_requests m = successful_requests m + errors m
    /\ 0 <= successful_requests m /\ 0 <= errors m
    /\ Z.of_nat (length (response_times m)) = total_requests m.

(** A run of [consume_budget] calls, oldest first. *)
Definition consume_all (eb : ErrorBudget) (sli_values : list Q) : ErrorBudget :=
  foldl (fun eb v => fst (consume_budget eb v)) eb sli_values.

(** The budgets an alerting object holds are those of [SLO_DEFINITIONS],
    each under its SLO's key, as [__init__] makes them. *)
Definition budgets_aligned (a : SREAlerting) : Prop :=
  forall name eb, error_budgets a !! name = Some eb ->
    (name, slo eb) ∈ SLO_DEFINITIONS.

(** A result with [status == 'FAIL']. *)
Definition failed (r : SLOResult) : bool :=
  match status r with
  | FAIL => true
  | PASS => false
  end.

(** What [evaluate_slos] records for an SLO whose SLI is [v] and whose
    budget was [eb]. *)
Definition slo_result_of (slo : SLODefinition) (eb : ErrorBudget) (v : Q)
    : SLOResult :=
  mkSLOResult (target slo) v
    (if Qle_bool (target slo) v then PASS else FAIL)
    (snd (consume_budget eb v))
    (get_budget_remaining (fst (consume_budget eb v)))
    (is_budget_critical (fst (consume_budget eb v)) (1 # 2)).

(* ===================================================================== *)
(** * sre/dashboard.py: the health checks and the alert summary           *)
(* ===================================================================== *)

(** What the AWS calls of the health checks answered.  [None] stands for a
    call that raised; of each answer only the fields the status is
    computed from are kept, the other fields the checks copy into their
    dict (['pendingCount'], ['deployments'], ['State']['Code'], ...) being
    taken as present, as boto3 documents them. *)
Record EcsService := mkEcsService {
  desiredCount : Z;
  runningCount : Z
}.

Record AwsAnswers := mkAwsAnswers {
  (** [describe_services(...)['services']] *)
  ecs_services : option (list EcsService);
  (** [DBInstanceStatus] of [describe_db_instances(...)['DBInstances']] *)
  rds_instances : option (list string);
  (** [State.Code] of [describe_load_balancers(...)['LoadBalancers']] *)
  alb_load_balancers : option (list string);
  (** [TargetGroupArn] of [describe_target_groups(...)['TargetGroups']] *)
  alb_target_groups : option (list string);
  (** [TargetHealth.State] of
      [describe_target_health(...)['TargetHealthDescriptions']] *)
  alb_target_health : option (list string)
}.

(** The value under ['status'] of the dict [_check_ecs_health] returns: an
    exception anywhere in the [try] block, so also [services[0]] on an
    empty list, gives ['ERROR']. *)
Definition _check_ecs_health (aws : AwsAnswers) : string :=
  match ecs_services aws with
  | None | Some [] => "ERROR"
  | Some (service :: _) =>
      let status := "HEALTHY" in
      let status := if runningCount service <? desiredCount service
                    then "DEGRADED" else status in
      let status := if runningCount service =? 0 then "CRITICAL" else status in
      status
  end.

(** The value under ['status'] of the dict [_check_rds_health] returns. *)
Definition _check_rds_health (aws : AwsAnswers) : string :=
  match rds_instances aws with
  | None | Some [] => "ERROR"
  | Some (db_status :: _) =>
      if String.eqb db_status "available" then "HEALTHY" else "DEGRADED"
  end.

(** The value under ['status'] of the dict [_check_alb_health] returns. *)
Definition _check_alb_health (aws : AwsAnswers) : string :=
  match alb_load_balancers aws with
  | None | Some [] => "ERROR"
  | Some (_ :: _) =>
      match alb_target_groups aws with
      | None | Some [] => "ERROR"
      | Some (_ :: _) =>
          match alb_target_health aws with
          | None => "ERROR"
          | Some targets =>
              let healthy_targets :=
                Z.of_nat (length (List.filter
                                    (fun state => String.eqb state "healthy")
                                    targets)) in
              let total_targets := Z.of_nat (length targets) in
              let status := "HEALTHY" in
              let status := if healthy_targets <? total_targets
                            then "DEGRADED" else status in
              let status := if healthy_targets =? 0 then "CRITICAL" else status in
              status
          end
      end
  end.

(** The dict [_check_circuit_breakers] returns. *)
Record CircuitHealth := mkCircuitHealth {
  ch_status : string;
  ch_total_circuits : Z;
  ch_open_circuits : Z;
  ch_critical_circuits : Z;
  ch_circuit_states : list (string * StateSnapshot)
}.

(** An alert of [_collect_alerts] or of [sre_alerts]; the message is a
    text for a component and an SLO alert for an SLO.  The timestamp of a
    component alert is left out. *)
Inductive alert_message :=
| ComponentMessage (text : string)
| SLOMessage (a : alert).

Record HealthAlert := mkHealthAlert {
  severity : string;
  component : string;
  message : alert_message
}.

(** The dict [get_system_health] returns, without its timestamp and its
    empty ['metrics']; [components] holds each component's name and the
    value under its ['status']. *)
Record SystemHealth := mkSystemHealth {
  sh_overall_status : string;
  sh_components : list (string * string);
  sh_alerts : list HealthAlert
}.

(** [SREDashboardMetrics._collect_alerts] *)
Definition _collect_alerts (components : list (string * string))
    : list HealthAlert :=
  flat_map
    (fun '(component_name, status) =>
       if String.eqb status "CRITICAL" then
         [mkHealthAlert "CRITICAL" component_name
            (ComponentMessage (component_name +:+ " is in CRITICAL state"))]
       else if String.eqb status "DEGRADED" then
         [mkHealthAlert "WARNING" component_name
            (ComponentMessage (component_name +:+ " is in DEGRADED state"))]
       else [])
    components.

(** The JSON of the [/sre/circuit-breakers] endpoint. *)
Record CircuitBreakersStatus := mkCircuitBreakersStatus {
  cbs_circuit_breakers : list (string * StateSnapshot);
  cbs_open_circuits : list string;
  cbs_critical_circuits : list string;
  cbs_total : Z;
  cbs_open : Z;
  cbs_critical : Z
}.

(** The JSON of the [/sre/alerts] endpoint. *)
Record AlertsPayload := mkAlertsPayload {
  ap_alerts : list HealthAlert;
  ap_total_alerts : Z;
  ap_critical_alerts : Z;
  ap_warning_alerts : Z
}.

Section Dashboard_health.
Context {W : Type} `{Clock W}.

(** [SREDashboardMetrics._check_circuit_breakers]; nothing in its [try]
    block raises. *)
Definition _check_circuit_breakers (manager : CircuitBreakerManager) (w : W)
    : CircuitHealth :=
  let states := get_all_states manager in
  let open_circuits := get_open_circuits manager in
  let critical_circuits := get_critical_circuits manager w in
  let status := "HEALTHY" in
  let status :=
    match critical_circuits with
    | _ :: _ => "CRITICAL"
    | [] => match open_circuits with
            | _ :: _ => "DEGRADED"
            | [] => status
            end
    end in
  mkCircuitHealth status (Z.of_nat (length states))
    (Z.of_nat (length open_circuits)) (Z.of_nat (length critical_circuits))
    states.

(** [SREDashboardMetrics.get_system_health]; the four checks catch their
    own exceptions, so the outer [except] is not reached. *)
Definition get_system_health (aws : AwsAnswers)
    (manager : CircuitBreakerManager) (w : W) : SystemHealth :=
  let components :=
    [("ecs", _check_ecs_health aws);
     ("rds", _check_rds_health aws);
     ("alb", _check_alb_health aws);
     ("circuit_breakers", ch_status (_check_circuit_breakers manager w))] in
  let component_statuses := map snd components in
  let overall_status :=
    if bool_decide ("CRITICAL" ∈ component_statuses) then "CRITICAL"
    else if bool_decide ("DEGRADED" ∈ component_statuses) then "DEGRADED"
    else "HEALTHY" in
  mkSystemHealth overall_status components (_collect_alerts components).

(** [circuit_breakers_status] *)
Definition circuit_breakers_status (manager : CircuitBreakerManager) (w : W)
    : CircuitBreakersStatus :=
  let states := get_all_states manager in
  let open_circuits := get_open_circuits manager in
  let critical_circuits := get_critical_circuits manager w in
  mkCircuitBreakersStatus states open_circuits critical_circuits
    (Z.of_nat (length states)) (Z.of_nat (length open_circuits))
    (Z.of_nat (length critical_circuits)).

(** [sre_alerts]: the system's alerts, then one INFO alert per SLO alert
    of the dashboard; evaluating the dashboard charges the budgets. *)
Definition sre_alerts (aws : AwsAnswers) (manager : CircuitBreakerManager)
    (w : W) (alerting : SREAlerting) (utcnow : datetime)
    : result (SREAlerting * AlertsPayload) :=
  let system_health := get_system_health aws manager w in
  let health_alerts := sh_alerts system_health in
  '(alerting', slo_data) ← get_dashboard_data alerting utcnow;
  let slo_alerts := alerts slo_data in
  let all_alerts :=
    health_alerts ++ map (fun a => mkHealthAlert "INFO" "SLO" (SLOMessage a)) slo_alerts in
  Ok (alerting',
      mkAlertsPayload all_alerts
        (Z.of_nat (length all_alerts))
        (Z.of_nat (length (List.filter
                             (fun a => String.eqb (severity a) "CRITICAL")
                             all_alerts)))
        (Z.of_nat (length (List.filter
                             (fun a => String.eqb (severity a) "WARNING")
                             all_alerts)))).
End Dashboard_health.

(* ===================================================================== *)
(** * app.py: the two handlers that use the breaker and the recorder      *)
(* ===================================================================== *)

(** [datetime.utcnow()] in world [w]. *)
Class Calendar (W : Type) := utcnow : W -> datetime.

(** The world a moment later: what the clocks show when a handler reads
    them again after a step of its own. *)
Class Elapse (W : Type) := later : W -> W.

(** A row of the [User] table; [to_dict] keeps the same four fields. *)
Record User := mkUser {
  user_id : Z;
  user_name : string;
  user_email : string;
  user_created_at : option datetime
}.

(** [str(e)] *)
Definition str_exception (e : exception) : string :=
  match e with
  | CircuitBreakerError msg => msg
  | OtherException _ msg => msg
  end.

(** The JSON bodies of the two handlers (without the timestamp). *)
Inductive body :=
| HealthBody (status database : string) (error : option string)
    (response_time_ms : Q)
| UsersBody (users : list User)
| ErrorBody (error : string).

Record Response := mkResponse {
  resp_body : body;
  resp_status_code : Z
}.

(** [[user.to_dict() for user in users]]: on the rows of the table, the
    rows; on a dict the loop runs over the keys, which are strings and
    have no [to_dict]. *)
Definition to_dicts (users : answer (list User)) : exception + list User :=
  match users with
  | Answer rows => inr rows
  | FallbackAnswer [] => inr []
  | FallbackAnswer (_ :: _) =>
      inl (OtherException "AttributeError"
             "'str' object has no attribute 'to_dict'")
  end.

Section App_handlers.
Context {W : Type} `{Clock W} `{Calendar W} `{Elapse W}.

(** [health_check]: from the database breaker and the recorder's store to
    the new breaker and store, the response, and the world after.  The
    [query] is [db.session.execute('SELECT 1')].  The clocks are read in
    [w] at the start and a moment after the query has ended. *)
Definition health_check {V : Type} (breaker : CircuitBreaker)
    (store : metrics_store) (query : @callable W V) (w : W)
    : CircuitBreaker * metrics_store * execution Response * W :=
  let start_time := time w in
  let status_code := 200 in
  let '(breaker', db_result, w1) := execute_query breaker query w in
  let w2 := later w1 in
  match db_result with
  | Returns _ =>
      let response_time := ((time w2 - start_time) * 1000)%Q in
      let store' := record_request store "health" 200 response_time None
                      (utcnow w2) in
      (breaker', store',
       Returns (mkResponse (HealthBody "healthy" "connected" None response_time)
                  status_code), w2)
  | Raises e =>
      if Exception e then
        let response_time := ((time w2 - start_time) * 1000)%Q in
        let status_code := 503 in
        let store' := record_request store "health" status_code response_time
                        None (utcnow w2) in
        (breaker', store',
         Returns (mkResponse (HealthBody "unhealthy" "disconnected"
                                (Some (str_exception e)) response_time)
                    status_code), w2)
      else (breaker', store, Raises e, w1)
  end.

(** The [except Exception] block of [get_users], entered in world [w2]
    with the store as the [try] block left it. *)
Definition get_users_except (start_time : Q) (breaker : CircuitBreaker)
    (store : metrics_store) (e : exception) (w_raise w2 : W)
    : CircuitBreaker * metrics_store * execution Response * W :=
  if Exception e then
    let response_time := ((time w2 - start_time) * 1000)%Q in
    let status_code := 500 in
    let store' := record_request store "api_users_get" status_code
                    response_time None (utcnow w2) in
    (breaker, store',
     Returns (mkResponse (ErrorBody "Failed to fetch users") status_code), w2)
  else (breaker, store, Raises e, w_raise).

(** [get_users]; the [query] is [User.query.all()]. *)
Definition get_users (breaker : CircuitBreaker) (store : metrics_store)
    (query : @callable W (list User)) (w : W)
    : CircuitBreaker * metrics_store * execution Response * W :=
  let start_time := time w in
  let status_code := 200 in
  let '(breaker', users, w1) := execute_query breaker query w in
  let w2 := later w1 in
  match users with
  | Returns users =>
      let response_time := ((time w2 - start_time) * 1000)%Q in
      let store1 := record_request store "api_users_get" status_code
                      response_time None (utcnow w2) in
      match to_dicts users with
      | inr dicts =>
          (breaker', store1,
           Returns (mkResponse (UsersBody dicts) status_code), w2)
      | inl e => get_users_except start_time breaker' store1 e w2 (later w2)
      end
  | Raises e => get_users_except start_time breaker' store e w1 w2
  end.
End App_handlers.

(* ===================================================================== *)
(** * More scenarios                                                      *)
(* ===================================================================== *)

(** The calendar of the scenario world: [ts] plus the clock reading, in
    microseconds; a moment is a millisecond. *)
#[global] Instance World_calendar : Calendar World :=
  fun w => ts + Qfloor (clock w * 1000000).

#[global] Instance World_elapse : Elapse World :=
  fun w => mkWorld (clock w + (1 # 1000)) (runs w).

(** A guarded function that raises [CircuitBreakerError] itself, as a
    function that goes through another breaker does; each run takes a
    second. *)
Definition nested_query : @callable World unit :=
  fun w => (Raises (CircuitBreakerError "Circuit breaker 'database' is OPEN"),
            mkWorld (clock w + 1) (S (runs w))).

(** A breaker that counts nothing but [CircuitBreakerError]: as the
    constructor makes it, and tripped by three such failures. *)
Definition picky_fresh : CircuitBreaker :=
  CircuitBreaker_init 3 30 is_CircuitBreakerError "picky".

Definition picky_breaker : CircuitBreaker :=
  mkCircuitBreaker 3 30 is_CircuitBreakerError "picky" 3 (Some 3%Q) OPEN.

(** A manager that watches the tripped database breaker and a fresh
    breaker for an external service. *)
Definition watched : CircuitBreakerManager :=
  register_breaker
    (register_breaker CircuitBreakerManager_init "database" tripped)
    "external_mail" (ExternalServiceCircuitBreaker_init "mail").

(** A query that returns two rows. *)
Definition two_users : list User :=
  [mkUser 1 "ada" "ada@example.org" (Some ts);
   mkUser 2 "bob" "bob@example.org" None].

Definition users_query : @callable World (list User) :=
  fun w => (Returns two_users, mkWorld (clock w + 1) (S (runs w))).

(** AWS answering nothing, and AWS with a service scaled to zero. *)
Definition aws_down : AwsAnswers := mkAwsAnswers None None None None None.

Definition aws_scaled_to_zero : AwsAnswers :=
  mkAwsAnswers (Some [mkEcsService 0 0]) (Some ["available"])
    (Some ["active"]) (Some ["arn:tg"]) (Some []).

(** [n] requests answered 200 within 50 ms, recorded under "all" in the
    hour of [ts]; and the percentile 1.7e308. *)
Definition many_requests (n : nat) : list request :=
  replicate n (mkRequest "all" 200 (5 # 100) (Some ts) ts).

Definition huge_percentile : float := float_of_Z (17 * 10 ^ 307).

(** 10:30 and 12:15 on 2024-01-15. *)
Definition half_past_ten : datetime := timedelta 19737 10 + 1800000000.
Definition quarter_past_twelve : datetime := timedelta 19737 12 + 900000000.

(* ===================================================================== *)
(** * Properties of the circuit breaker                                   *)
(* ===================================================================== *)

Section CircuitBreaker_properties.
Context {W V : Type} `{Clock W}.
Implicit Types (b : CircuitBreaker) (func : @callable W V) (w : W).

Lemma CircuitState_eqb_eq s1 s2 : CircuitState_eqb s1 s2 = true <-> s1 = s2.
Proof. destruct s1, s2; simpl; split; congruence. Qed.

Lemma CircuitState_eqb_neq s1 s2 : CircuitState_eqb s1 s2 = false <-> s1 <> s2.
Proof. destruct s1, s2; simpl; split; congruence. Qed.

(** The gate leaves every field but [state] alone, and never lets a call
    through with the breaker still OPEN. *)
Lemma admission_inr b w b' :
  admission b w = inr b' ->
  (state b = OPEN /\ b' = set_state b HALF_OPEN)
  \/ (state b <> OPEN /\ b' = b).
Proof.
  unfold admission. destruct (CircuitState_eqb (state b) OPEN) eqn:Hs.
  - apply CircuitState_eqb_eq in Hs.
    destruct (_should_attempt_reset b w); [|discriminate].
    intros [= <-]. by left.
  - apply CircuitState_eqb_neq in Hs. intros [= <-]. by right.
Qed.

Lemma admission_inl b w e :
  admission b w = inl e ->
  state b = OPEN /\ _should_attempt_reset b w = false
  /\ e = CircuitBreakerError ("Circuit breaker '" +:+ name b +:+ "' is OPEN").
Proof.
  unfold admission. destruct (CircuitState_eqb (state b) OPEN) eqn:Hs;
    [|discriminate].
  apply CircuitState_eqb_eq in Hs.
  destruct (_should_attempt_reset b w); [discriminate|].
  by intros [= <-].
Qed.

Lemma _on_failure_state b w :
  state (_on_failure b w) =
    if failure_threshold b <=? failure_count b + 1 then OPEN else state b.
Proof. unfold _on_failure; simpl. by destruct (_ <=? _). Qed.

Lemma _on_failure_fields b w :
  failure_count (_on_failure b w) = failure_count b + 1
  /\ last_failure_time (_on_failure b w) = Some (time w)
  /\ failure_threshold (_on_failure b w) = failure_threshold b
  /\ recovery_timeout (_on_failure b w) = recovery_timeout b
  /\ expected_exception (_on_failure b w) = expected_exception b
  /\ name (_on_failure b w) = name b.
Proof. unfold _on_failure; simpl. by destruct (_ <=? _). Qed.

Lemma _on_success_fields b :
  failure_count (_on_success b) = 0
  /\ state (_on_success b) = (if CircuitState_eqb (state b) HALF_OPEN
                              then CLOSED else state b)
  /\ failure_threshold (_on_success b) = failure_threshold b.
Proof. unfold _on_success; simpl. by destruct (CircuitState_eqb _ _). Qed.

Lemma admission_inv b w b' :
  breaker_inv b -> admission b w = inr b' ->
  breaker_inv b' /\ state b' <> OPEN.
Proof.
  intros (Hc & Ho & Hh) [[Hs ->]|[Hs ->]]%admission_inr.
  - split; [|done]. unfold breaker_inv; simpl.
    split; [done|]. split; [done|]. intros _. by apply Ho.
  - done.
Qed.

Lemma guarded_run_inv b func w :
  breaker_inv b -> state b <> OPEN ->
  breaker_inv (fst (fst (guarded_run b func w))).
Proof.
  intros (Hc & Ho & Hh) Hs. unfold guarded_run.
  destruct (func w) as [[v|e] w']; simpl.
  - destruct (_on_success_fields b) as (Hn & Hst & Hth).
    unfold breaker_inv. rewrite Hn, Hst, Hth.
    destruct (state b); simpl; repeat split; (lia || congruence).
  - destruct (expected_exception b e); simpl; [|done].
    destruct (_on_failure_fields b w') as (Hn & Ht & Hth & _).
    pose proof (_on_failure_state b w') as Hst.
    unfold breaker_inv. rewrite Hn, Ht, Hth, Hst.
    destruct (failure_threshold b <=? failure_count b + 1) eqn:Hle.
    + apply Z.leb_le in Hle. repeat split; (lia || congruence).
    + apply Z.leb_gt in Hle.
      repeat split; try lia; try congruence. intros Hhalf. specialize (Hh Hhalf). lia.
Qed.

Lemma call_inv b func w :
  breaker_inv b -> breaker_inv (fst (fst (call b func w))).
Proof.
  intros Hb. unfold call. destruct (admission b w) as [e|b'] eqn:Ha; [done|].
  destruct (admission_inv b w b' Hb Ha). by apply guarded_run_inv.
Qed.

Lemma reachable_inv b : reachable (W:=W) (V:=V) b -> breaker_inv b.
Proof.
  induction 1 as [th to ex nm|b func w _ IH].
  - unfold breaker_inv; simpl. repeat split; (lia || congruence).
  - by apply call_inv.
Qed.

Lemma should_attempt_reset_elapsed b w t :
  last_failure_time b = Some t ->
  (inject_Z (recovery_timeout b) <= time w - t)%Q ->
  _should_attempt_reset b w = true.
Proof.
  intros Ht Hle. unfold _should_attempt_reset. rewrite Ht.
  by apply Qle_bool_iff.
Qed.

Lemma should_attempt_reset_early b w t :
  last_failure_time b = Some t ->
  (time w - t < inject_Z (recovery_timeout b))%Q ->
  _should_attempt_reset b w = false.
Proof.
  intros Ht Hlt. unfold _should_attempt_reset. rewrite Ht.
  destruct (Qle_bool _ _) eqn:Hb; [|done].
  apply Qle_bool_iff in Hb. by apply Qlt_not_le in Hlt.
Qed.

(** A call on an OPEN breaker made too early is turned away: the breaker
    and the world are as before. *)
Lemma call_rejected b func w t :
  state b = OPEN -> last_failure_time b = Some t ->
  (time w - t < inject_Z (recovery_timeout b))%Q ->
  call b func w =
    (b, Raises (CircuitBreakerError
                  ("Circuit breaker '" +:+ name b +:+ "' is OPEN")), w).
Proof.
  intros Hs Ht Hlt. unfold call, admission.
  rewrite Hs; simpl. by rewrite (should_attempt_reset_early b w t).
Qed.

(** What [n] failures in a row leave behind. *)
Lemma consecutive_failures_fields b0 n b :
  consecutive_failures (W:=W) (V:=V) b0 n b ->
  failure_count b = failure_count b0 + Z.of_nat n
  /\ failure_threshold b = failure_threshold b0
  /\ recovery_timeout b = recovery_timeout b0
  /\ ((0 < n)%nat ->
      (exists w', last_failure_time b = Some (time w'))
      /\ (failure_threshold b <= failure_count b -> state b = OPEN)).
Proof.
  induction 1 as [b|b n b1 b2 func w e w' _ IH Ha Hf He].
  - repeat split; try lia.
  - destruct IH as (Hn & Hth & Hto & _).
    assert (Hcall : fst (fst (call b1 func w)) = _on_failure b2 w').
    { unfold call. rewrite Ha. unfold guarded_run. rewrite Hf.
      apply admission_inr in Ha as [[_ ->]|[_ ->]]; simpl; by rewrite He. }
    rewrite Hcall.
    destruct (_on_failure_fields b2 w') as (Hn2 & Ht2 & Hth2 & Hto2 & _).
    pose proof (_on_failure_state b2 w') as Hs2.
    assert (Hb2 : failure_count b2 = failure_count b1
                  /\ failure_threshold b2 = failure_threshold b1
                  /\ recovery_timeout b2 = recovery_timeout b1).
    { by apply admission_inr in Ha as [[_ ->]|[_ ->]]. }
    destruct Hb2 as (Hc21 & Hth21 & Hto21).
    rewrite Hn2, Ht2, Hth2, Hto2, Hs2, Hc21, Hth21, Hto21.
    repeat split; try lia; [by eexists|].
    intros Hle. apply Z.leb_le in Hle. by rewrite Hle.
Qed.

(** C1 (as amended): an OPEN breaker whose recovery timeout has elapsed
    lets the next call through as a trial.  The gate moves the breaker to
    HALF_OPEN and the guarded function runs once: the call is the [try]
    block run on the HALF_OPEN breaker, and the world after the call is
    the world after one run of the function.  If the trial returns, the
    breaker ends CLOSED with [failure_count = 0].  If it raises an
    exception the breaker counts (one that [expected_exception]
    matches), the breaker ends OPEN and [last_failure_time] is the clock
    reading taken after the failed run.  If it raises any other
    exception, the breaker is left as the gate made it: HALF_OPEN, with
    the old [failure_count] and the old [last_failure_time]. *)
Theorem C1_trial_after_recovery_timeout b func w t :
  reachable (W:=W) (V:=V) b ->
  state b = OPEN ->
  last_failure_time b = Some t ->
  (inject_Z (recovery_timeout b) <= time w - t)%Q ->
  let after := fst (fst (call b func w)) in
  admission b w = inr (set_state b HALF_OPEN)
  /\ call b func w = guarded_run (set_state b HALF_OPEN) func w
  /\ snd (fst (call b func w)) = fst (func w)
  /\ snd (call b func w) = snd (func w)
  /\ (forall v, fst (func w) = Returns v ->
       state after = CLOSED /\ failure_count after = 0)
  /\ (forall e, fst (func w) = Raises e -> expected_exception b e = true ->
       state after = OPEN
       /\ last_failure_time after = Some (time (snd (func w))))
  /\ (forall e, fst (func w) = Raises e -> expected_exception b e = false ->
       after = set_state b HALF_OPEN).
Proof.
  intros Hr Hs Ht Hle after.
  assert (Ha : admission b w = inr (set_state b HALF_OPEN)).
  { unfold admission. rewrite Hs; simpl.
    by rewrite (should_attempt_reset_elapsed b w t). }
  assert (Hc : call b func w = guarded_run (set_state b HALF_OPEN) func w).
  { unfold call. by rewrite Ha. }
  destruct (reachable_inv b Hr) as (Hn & Ho & _).
  destruct (Ho Hs) as [Hth _].
  subst after. rewrite Hc. unfold guarded_run.
  destruct (func w) as [[v|e] w'] eqn:Hf; simpl.
  - repeat split; done.
  - assert (Hthb : (failure_threshold b <=? failure_count b + 1) = true)
      by (apply Z.leb_le; lia).
    split; [done|]. split; [done|].
    split; [by destruct (expected_exception b e)|].
    split; [by destruct (expected_exception b e)|].
    split; [by intros v [=]|]. split.
    + intros e' [= <-] ->; simpl. split.
      * rewrite _on_failure_state; simpl. by rewrite Hthb.
      * by destruct (_on_failure_fields (set_state b HALF_OPEN) w')
          as (_ & -> & _).
    + by intros e' [= <-] ->.
Qed.



(** C3 (as amended): a call on a breaker that is OPEN with
    [now - last_failure_time < recovery_timeout] raises
    [CircuitBreakerError] with the message that names the breaker; the
    guarded function does not run (the world is as before, whatever the
    function would have done to it); and the breaker, so its [state],
    [failure_count] and [last_failure_time], is unchanged.  The class of
    the exception does not tell a rejection from a failure of the guarded
    function: an exception the function raises, a [CircuitBreakerError]
    as any other, comes out of [call] as it was raised. *)
Theorem C3_rejected_call_changes_nothing b func w t :
  state b = OPEN ->
  last_failure_time b = Some t ->
  (time w - t < inject_Z (recovery_timeout b))%Q ->
  call (V:=V) b func w
  = (b, Raises (CircuitBreakerError
                  ("Circuit breaker '" +:+ name b +:+ "' is OPEN")), w)
  /\ state (fst (fst (call b func w))) = state b
  /\ failure_count (fst (fst (call b func w))) = failure_count b
  /\ last_failure_time (fst (fst (call b func w))) = last_failure_time b
  /\ forall b1 b2 (func1 : @callable W V) w1 e w2,
       admission b1 w1 = inr b2 -> func1 w1 = (Raises e, w2) ->
       snd (fst (call b1 func1 w1)) = Raises e.
Proof.
  intros Hs Ht Hlt.
  rewrite (call_rejected b func w t Hs Ht Hlt). simpl.
  repeat (split; [done|]).
  intros b1 b2 func1 w1 e w2 Ha Hf. unfold call. rewrite Ha.
  unfold guarded_run. rewrite Hf. by destruct (expected_exception b2 e).
Qed.
End CircuitBreaker_properties.

(* ===================================================================== *)
(** * Properties of the recorder and of the SLI calculators               *)
(* ===================================================================== *)

Section Recorder_properties.
Implicit Types (store : metrics_store) (t : datetime).

Lemma string_length_app (a b : string) :
  String.length (a +:+ b) = (String.length a + String.length b)%nat.
Proof. induction a as [|x a IH]; simpl; [done|]. by rewrite IH. Qed.

Lemma string_app_inv_tail (a c b d : string) :
  String.length b = String.length d -> a +:+ b = c +:+ d -> a = c.
Proof.
  revert c. induction a as [|x a IH]; intros [|y c] Hlen Heq.
  - done.
  - apply (f_equal String.length) in Heq.
    rewrite !string_length_app in Heq. simpl in Heq. lia.
  - apply (f_equal String.length) in Heq.
    rewrite !string_length_app in Heq. simpl in Heq. lia.
  - change (String x (a +:+ b) = String y (c +:+ d)) in Heq.
    injection Heq as -> Heq. f_equal. by apply IH.
Qed.

Lemma strftime_hour_length t : String.length (strftime_hour t) = 13%nat.
Proof.
  unfold strftime_hour. by destruct (civil_from_days _) as [[y m] d].
Qed.

(** Only the scope "all" produces the keys the calculators look up. *)
Lemma bucket_key_all scope t t' :
  bucket_key scope t = bucket_key "all" t' -> scope = "all".
Proof.
  unfold bucket_key. intros Heq.
  apply (string_app_inv_tail scope "all" ("_" +:+ strftime_hour t)
           ("_" +:+ strftime_hour t')); [|done].
  by rewrite !string_length_app, !strftime_hour_length.
Qed.

(** [record_request] rewrites the bucket under its own key and no
    other. *)
Lemma record_request_lookup store endpoint status_code response_time
    timestamp utcnow k :
  let key := bucket_key endpoint (default utcnow timestamp) in
  record_request store endpoint status_code response_time timestamp utcnow !! k
  = if decide (k = key)
    then Some (recorded (store !! key) status_code response_time)
    else store !! k.
Proof.
  intros key. unfold record_request.
  assert (Hts : match timestamp with None => utcnow | Some t0 => t0 end
                = default utcnow timestamp) by by destruct timestamp.
  rewrite Hts. fold key. unfold recorded.
  destruct (store !! key) as [m|] eqn:Hk; simpl.
  - rewrite Hk. destruct ((200 <=? status_code) && (status_code <? 400));
      case_decide; subst; by simplify_map_eq.
  - rewrite lookup_insert_eq.
    destruct ((200 <=? status_code) && (status_code <? 400));
      case_decide; subst; by simplify_map_eq.
Qed.

Lemma record_request_other_scope store endpoint status_code response_time
    timestamp utcnow t :
  endpoint <> "all" ->
  record_request store endpoint status_code response_time timestamp utcnow
    !! bucket_key "all" t
  = store !! bucket_key "all" t.
Proof.
  intros Hne. rewrite record_request_lookup. case_decide as Hk; [|done].
  symmetry in Hk. by apply bucket_key_all in Hk.
Qed.
End Recorder_properties.

Section Calculator_properties.
Implicit Types (store : metrics_store) (t : datetime).

(** The bound of [window] is never what stops the loop: a larger bound
    gives the same iterations. *)
Lemma hourly_enough n k current_time end_time :
  (end_time - current_time) / timedelta 0 1 + 1 <= Z.of_nat n ->
  hourly (n + k) current_time end_time = hourly n current_time end_time.
Proof.
  revert current_time. induction n as [|n IH]; intros cur Hn.
  - assert (end_time < cur).
    { destruct (Z.lt_ge_cases end_time cur) as [|Hle]; [done|].
      assert (0 <= (end_time - cur) / timedelta 0 1)
        by (apply Z.div_pos; [lia|done]).
      lia. }
    destruct k; simpl; [done|].
    assert ((cur <=? end_time) = false) as -> by (apply Z.leb_gt; lia). done.
  - simpl. destruct (cur <=? end_time) eqn:Hle; [|done].
    f_equal. apply IH.
    replace (end_time - (cur + timedelta 0 1))
      with (end_time - cur + (-1) * timedelta 0 1) by lia.
    rewrite Z.div_add by done. lia.
Qed.

Lemma hourly_stable k start_time end_time :
  hourly (window_bound start_time end_time + k) start_time end_time
  = window start_time end_time.
Proof.
  apply hourly_enough. unfold window_bound. lia.
Qed.

Lemma fold_left_ext {A B} (f g : A -> B -> A) l a :
  (forall a x, f a x = g a x) -> fold_left f l a = fold_left g l a.
Proof.
  intros Hfg. revert a. induction l as [|x l IH]; intros a; simpl; [done|].
  by rewrite Hfg, IH.
Qed.

(** The two counting loops, as sums over the buckets found. *)
Lemma fold_counts store (f g : Metrics -> Z) (l : list datetime) a b :
  fold_left
    (fun '(x, y) current_time =>
       match store !! bucket_key "all" current_time with
       | Some metrics => (x + f metrics, y + g metrics)
       | None => (x, y)
       end) l (a, b)
  = (a + Zsum (f <$> omap (fun t => store !! bucket_key "all" t) l),
     b + Zsum (g <$> omap (fun t => store !! bucket_key "all" t) l)).
Proof.
  revert a b. induction l as [|t l IH]; intros a b; simpl.
  - f_equal; lia.
  - destruct (store !! bucket_key "all" t) as [m|]; simpl; rewrite IH;
      [|done].
    by rewrite <- !Z.add_assoc.
Qed.

Lemma calculate_availability_sli_sums store start_time end_time :
  calculate_availability_sli store start_time end_time =
    let buckets := window_buckets store start_time end_time in
    let total := Zsum (total_requests <$> buckets) in
    let successful := Zsum (successful_requests <$> buckets) in
    if total =? 0 then 100%Q
    else (inject_Z successful / inject_Z total * 100)%Q.
Proof.
  unfold calculate_availability_sli.
  rewrite (fold_counts store total_requests successful_requests).
  by rewrite !Z.add_0_l.
Qed.

Lemma calculate_error_rate_sli_sums store start_time end_time :
  calculate_error_rate_sli store start_time end_time =
    let buckets := window_buckets store start_time end_time in
    let total := Zsum (total_requests <$> buckets) in
    let errs := Zsum (errors <$> buckets) in
    if total =? 0 then 100%Q
    else (inject_Z (total - errs) / inject_Z total * 100)%Q.
Proof.
  unfold calculate_error_rate_sli.
  rewrite (fold_counts store total_requests errors).
  by rewrite !Z.add_0_l.
Qed.

Lemma fold_extend store (l : list datetime) acc :
  fold_left
    (fun acc current_time =>
       match store !! bucket_key "all" current_time with
       | Some metrics => acc ++ response_times metrics
       | None => acc
       end) l acc
  = acc ++ concat (response_times <$>
                     omap (fun t => store !! bucket_key "all" t) l).
Proof.
  revert acc. induction l as [|t l IH]; intros acc; simpl.
  - by rewrite app_nil_r.
  - destruct (store !! bucket_key "all" t) as [m|]; simpl; rewrite IH; [|done].
    by rewrite app_assoc.
Qed.

Lemma all_response_times_concat store start_time end_time :
  all_response_times store start_time end_time
  = concat (response_times <$> window_buckets store start_time end_time).
Proof. unfold all_response_times. by rewrite fold_extend. Qed.

Lemma window_buckets_absent store start_time end_time :
  Forall (fun t => store !! bucket_key "all" t = None)
         (window start_time end_time) ->
  window_buckets store start_time end_time = [].
Proof.
  unfold window_buckets. induction 1 as [|t l Ht _ IH]; simpl; [done|].
  by rewrite Ht.
Qed.

Lemma window_buckets_agree s1 s2 start_time end_time :
  agree_all s1 s2 ->
  window_buckets s1 start_time end_time = window_buckets s2 start_time end_time.
Proof.
  intros Hag. unfold window_buckets.
  induction (window start_time end_time) as [|t l IH]; simpl; [done|].
  rewrite Hag. destruct (s2 !! bucket_key "all" t); [f_equal|]; exact IH.
Qed.

(** C7: over a window in which no request was recorded -- no aggregate
    bucket in range, or the buckets in range have [total_requests]
    summing to 0 -- the availability SLI and the error-rate SLI are both
    exactly 100; and the latency SLI is exactly 100, whatever the
    percentile, when the buckets in range hold no latency sample. *)
Theorem C7_empty_window_sli_is_100 store start_time end_time :
  (Forall (fun t => store !! bucket_key "all" t = None)
          (window start_time end_time)
   \/ Zsum (total_requests <$> window_buckets store start_time end_time) = 0 ->
   calculate_availability_sli store start_time end_time = 100%Q
   /\ calculate_error_rate_sli store start_time end_time = 100%Q)
  /\ (concat (response_times <$> window_buckets store start_time end_time) = [] ->
      forall percentile,
        calculate_latency_sli store start_time end_time percentile = Ok 100%Q).
Proof.
  split.
  - intros Hnone.
    assert (Hz : Zsum (total_requests <$> window_buckets store start_time end_time) = 0).
    { destruct Hnone as [Habs|Hz]; [|done].
      by rewrite (window_buckets_absent _ _ _ Habs). }
    rewrite calculate_availability_sli_sums, calculate_error_rate_sli_sums.
    simpl. by rewrite Hz.
  - intros Hnil percentile. unfold calculate_latency_sli.
    by rewrite all_response_times_concat, Hnil.
Qed.
Lemma insert_sorted_length x (l : list Q) :
  length (insert_sorted x l) = S (length l).
Proof.
  induction l as [|y l IH]; simpl; [done|].
  destruct (Qlt_bool x y); simpl; [done|]. by rewrite IH.
Qed.

Lemma sorted_length (l : list Q) : length (sorted l) = length l.
Proof.
  unfold sorted.
  assert (Hgen : forall acc : list Q,
             length (fold_left (fun acc x => insert_sorted x acc) l acc)
             = (length acc + length l)%nat).
  { induction l as [|x l IH]; intros acc; simpl; [lia|].
    rewrite IH, insert_sorted_length. lia. }
  by rewrite Hgen.
Qed.

(** An index in [-len(l), len(l)) is served. *)
Lemma getitem_in_range {A} (l : list A) (i : Z) :
  - Z.of_nat (length l) <= i < Z.of_nat (length l) ->
  exists x, getitem l i = Ok x.
Proof.
  intros Hi. unfold getitem.
  set (j := if i <? 0 then i + Z.of_nat (length l) else i).
  assert (Hj : 0 <= j < Z.of_nat (length l)).
  { subst j. destruct (i <? 0) eqn:Hneg;
      [apply Z.ltb_lt in Hneg|apply Z.ltb_ge in Hneg]; lia. }
  assert ((0 <=? j) && (j <? Z.of_nat (length l)) = true) as ->.
  { apply andb_true_iff. split; [apply Z.leb_le|apply Z.ltb_lt]; lia. }
  destruct (nth_error l (Z.to_nat j)) as [x|] eqn:Hn; [by exists x|].
  apply nth_error_None in Hn. lia.
Qed.

Lemma getitem_below_range {A} (l : list A) (i : Z) :
  i < - Z.of_nat (length l) -> getitem l i = Err IndexError.
Proof.
  intros Hi. unfold getitem.
  assert ((i <? 0) = true) as -> by (apply Z.ltb_lt; lia).
  assert ((0 <=? i + Z.of_nat (length l)) = false) as ->
    by (apply Z.leb_gt; lia).
  done.
Qed.

(** ** Doubles: what rounding to binary64 can and cannot do *)

Lemma digits2_pos_bounds (p : positive) :
  2 ^ (Z.pos (SpecFloat.digits2_pos p) - 1) <= Z.pos p
  < 2 ^ Z.pos (SpecFloat.digits2_pos p).
Proof.
  induction p as [p IH|p IH|]; cbn [SpecFloat.digits2_pos].
  - rewrite Pos2Z.inj_succ, Z.pow_succ_r by lia.
    replace (Z.succ (Z.pos (SpecFloat.digits2_pos p)) - 1)
      with (Z.succ (Z.pos (SpecFloat.digits2_pos p) - 1)) by lia.
    rewrite Z.pow_succ_r by lia. lia.
  - rewrite Pos2Z.inj_succ, Z.pow_succ_r by lia.
    replace (Z.succ (Z.pos (SpecFloat.digits2_pos p)) - 1)
      with (Z.succ (Z.pos (SpecFloat.digits2_pos p) - 1)) by lia.
    rewrite Z.pow_succ_r by lia. lia.
  - simpl. lia.
Qed.

Lemma Zdigits2_nonneg (m : Z) : 0 <= SpecFloat.Zdigits2 m.
Proof. destruct m; simpl; lia. Qed.

Lemma Zdigits2_upper (m : Z) : 0 <= m -> m < 2 ^ SpecFloat.Zdigits2 m.
Proof.
  destruct m as [|p|p]; intros Hm; [simpl; lia| |lia].
  apply digits2_pos_bounds.
Qed.

Lemma Zdigits2_le (m k : Z) : 0 <= m -> 0 <= k -> m < 2 ^ k -> SpecFloat.Zdigits2 m <= k.
Proof.
  destruct m as [|p|p]; intros Hm Hk Hlt; [simpl; lia| |lia].
  simpl. pose proof (digits2_pos_bounds p) as [Hlo _].
  assert (2 ^ (Z.pos (SpecFloat.digits2_pos p) - 1) < 2 ^ k) by lia.
  apply Z.pow_lt_mono_r_iff in H; lia.
Qed.

Lemma shr_1_m (mrs : SpecFloat.shr_record) :
  0 <= SpecFloat.shr_m mrs ->
  SpecFloat.shr_m (SpecFloat.shr_1 mrs) = SpecFloat.shr_m mrs / 2.
Proof.
  destruct mrs as [m r s]. simpl. intros Hm.
  rewrite <- Z.div2_div. destruct m as [|[p|p|]|p]; try reflexivity; lia.
Qed.

Lemma iter_pos_shr_1 (p : positive) (mrs : SpecFloat.shr_record) :
  0 <= SpecFloat.shr_m mrs ->
  SpecFloat.shr_m (SpecFloat.iter_pos SpecFloat.shr_1 p mrs)
  = SpecFloat.shr_m mrs / 2 ^ Z.pos p.
Proof.
  revert mrs. induction p as [p IH|p IH|]; intros mrs Hm; cbn [SpecFloat.iter_pos].
  - assert (H1 : 0 <= SpecFloat.shr_m (SpecFloat.shr_1 mrs))
      by (rewrite shr_1_m by done; apply Z.div_pos; lia).
    assert (H2 : 0 <= SpecFloat.shr_m (SpecFloat.iter_pos SpecFloat.shr_1 p (SpecFloat.shr_1 mrs)))
      by (rewrite IH by done; apply Z.div_pos; lia).
    rewrite IH, IH, shr_1_m by done.
    rewrite !Z.div_div by lia. f_equal.
    rewrite Pos2Z.inj_xI. rewrite <- Z.pow_add_r, <- (Z.pow_succ_r 2) by lia.
    f_equal. lia.
  - assert (H2 : 0 <= SpecFloat.shr_m (SpecFloat.iter_pos SpecFloat.shr_1 p mrs))
      by (rewrite IH by done; apply Z.div_pos; lia).
    rewrite IH, IH by done.
    rewrite !Z.div_div by lia. f_equal.
    rewrite Pos2Z.inj_xO. rewrite <- Z.pow_add_r by lia. f_equal. lia.
  - rewrite shr_1_m by done. reflexivity.
Qed.

Lemma shr_spec (mrs : SpecFloat.shr_record) (e n : Z) :
  0 <= SpecFloat.shr_m mrs ->
  SpecFloat.shr_m (fst (SpecFloat.shr mrs e n))
  = SpecFloat.shr_m mrs / 2 ^ Z.max n 0
  /\ snd (SpecFloat.shr mrs e n) = e + Z.max n 0.
Proof.
  intros Hm. destruct n as [|p|p]; simpl.
  - rewrite Z.div_1_r. lia.
  - rewrite iter_pos_shr_1 by done. replace (Z.max (Z.pos p) 0) with (Z.pos p) by lia.
    done.
  - change (2 ^ 0) with 1. rewrite Z.div_1_r. lia.
Qed.

Lemma shr_record_of_loc_m (m : Z) (l : SpecFloat.location) :
  SpecFloat.shr_m (SpecFloat.shr_record_of_loc m l) = m.
Proof. by destruct l as [|[]]. Qed.

Lemma round_nearest_even_bounds (m : Z) (l : SpecFloat.location) :
  m <= SpecFloat.round_nearest_even m l <= m + 1.
Proof.
  destruct l as [|[]]; simpl; try lia. destruct (Z.even m); lia.
Qed.

(** The exponent function of binary64. *)
Lemma fexp_binary64 (k : Z) : SpecFloat.fexp 53 1024 k = Z.max (k - 53) (-1074).
Proof. reflexivity. Qed.

(** One shift to the format: the mantissa kept has at most 53 bits, and
    the exponent is at least the least exponent and at most what the
    magnitude asks for. *)
Lemma shr_fexp_spec (m e : Z) (l : SpecFloat.location) :
  0 <= m ->
  let r := SpecFloat.shr_fexp 53 1024 m e l in
  0 <= SpecFloat.shr_m (fst r) < 2 ^ 53
  /\ -1074 <= snd r
  /\ snd r <= Z.max e (Z.max (SpecFloat.Zdigits2 m + e - 53) (-1074))
  /\ (SpecFloat.Zdigits2 m <= 53 -> -1074 <= e ->
      snd r = e /\ SpecFloat.shr_m (fst r) = m).
Proof.
  intros Hm r. subst r. unfold SpecFloat.shr_fexp.
  set (mrs := SpecFloat.shr_record_of_loc m l).
  assert (Hmrs : SpecFloat.shr_m mrs = m) by apply shr_record_of_loc_m.
  destruct (shr_spec mrs e (SpecFloat.fexp 53 1024 (SpecFloat.Zdigits2 m + e) - e))
    as [Hsm Hse]; [lia|].
  rewrite Hsm, Hse, Hmrs, fexp_binary64.
  pose proof (Zdigits2_upper m Hm) as Hup.
  pose proof (Zdigits2_nonneg m) as Hd.
  set (d := SpecFloat.Zdigits2 m) in *.
  set (k := Z.max (Z.max (d + e - 53) (-1074) - e) 0).
  assert (Hk : 0 <= k) by lia.
  assert (Hpow : 0 < 2 ^ k) by (apply Z.pow_pos_nonneg; lia).
  split; [split|split; [|split]].
  - apply Z.div_pos; lia.
  - apply Z.div_lt_upper_bound; [lia|].
    rewrite <- Z.pow_add_r by lia.
    eapply Z.lt_le_trans; [exact Hup|].
    apply Z.pow_le_mono_r; lia.
  - lia.
  - lia.
  - intros Hd53 He. assert (k = 0) as -> by lia.
    change (2 ^ 0) with 1. rewrite Z.div_1_r. lia.
Qed.

(** Rounding a non-negative mantissa to binary64: the result is a zero
    or a finite double of the sign asked for, when the magnitude is
    below the overflow threshold. *)
Lemma binary_round_aux_finite (s : bool) (m e K : Z) (l : SpecFloat.location) :
  0 <= m -> e <= K -> SpecFloat.Zdigits2 m + e - 53 <= K -> -1074 <= K -> K < 971 ->
  SpecFloat.binary_round_aux 53 1024 s m e l = SpecFloat.S754_zero s
  \/ exists m' e', SpecFloat.binary_round_aux 53 1024 s m e l
                   = SpecFloat.S754_finite s m' e'
                   /\ Z.pos m' < 2 ^ 53 /\ e' <= K + 1.
Proof.
  intros Hm He Hd HK1 HK2. unfold SpecFloat.binary_round_aux.
  destruct (shr_fexp_spec m e l Hm) as ([Hm1 Hm1'] & He1 & He1' & _).
  destruct (SpecFloat.shr_fexp 53 1024 m e l) as [mrs1 e1]. cbn [fst snd] in *.
  pose proof (round_nearest_even_bounds (SpecFloat.shr_m mrs1)
                (SpecFloat.loc_of_shr_record mrs1)) as Hr.
  set (m1 := SpecFloat.round_nearest_even (SpecFloat.shr_m mrs1)
               (SpecFloat.loc_of_shr_record mrs1)) in *.
  assert (Hm1pos : 0 <= m1) by lia.
  assert (Hd1 : SpecFloat.Zdigits2 m1 <= 54).
  { apply Zdigits2_le; [done|lia|].
    change (2 ^ 54) with (2 * 2 ^ 53). lia. }
  destruct (shr_fexp_spec m1 e1 SpecFloat.loc_Exact Hm1pos)
    as ([Hm2 Hm2'] & He2 & He2' & _).
  destruct (SpecFloat.shr_fexp 53 1024 m1 e1 SpecFloat.loc_Exact) as [mrs2 e2].
  cbn [fst snd] in *.
  destruct (SpecFloat.shr_m mrs2) as [|p|p]; [by left| |lia].
  right. exists p, e2.
  assert (Hleb : (e2 <=? 971) = true) by (apply Z.leb_le; lia).
  split; [|split; lia].
  change (SpecFloat.S754_finite s p e2)
    with (if true then SpecFloat.S754_finite s p e2 else SpecFloat.S754_infinity s)
    at 2.
  rewrite <- Hleb. reflexivity.
Qed.

Lemma digits2_pos_iter_xO (p d : positive) :
  SpecFloat.digits2_pos (PosDef.Pos.iter xO p d)
  = (SpecFloat.digits2_pos p + d)%positive.
Proof.
  change (PosDef.Pos.iter xO p d) with (Pos.iter xO p d).
  induction d as [|d IH] using Pos.peano_ind.
  - simpl. lia.
  - rewrite Pos.iter_succ. cbn [SpecFloat.digits2_pos]. rewrite IH. lia.
Qed.

(** [float(n)] for a positive int below [2^63] is a positive finite
    double (or, as far as this lemma goes, a zero). *)
Lemma float_of_Z_finite (n : Z) :
  0 < n < 2 ^ 63 ->
  float_of_Z n = SpecFloat.S754_zero false
  \/ exists m e, float_of_Z n = SpecFloat.S754_finite false m e
                 /\ Z.pos m < 2 ^ 53 /\ e <= 11.
Proof.
  intros [Hn0 Hn]. destruct n as [|p|p]; try lia.
  unfold float_of_Z, SpecFloat.binary_normalize, SpecFloat.binary_round.
  assert (Hdp : Z.pos (SpecFloat.digits2_pos p) <= 63).
  { apply (Zdigits2_le (Z.pos p)); lia. }
  rewrite fexp_binary64. unfold SpecFloat.shl_align.
  replace (Z.max (Z.pos (SpecFloat.digits2_pos p) + 0 - 53) (-1074) - 0)
    with (Z.pos (SpecFloat.digits2_pos p) - 53) by lia.
  destruct (Z.pos (SpecFloat.digits2_pos p) - 53) as [|d|d] eqn:Hd.
  - apply (binary_round_aux_finite false (Z.pos p) 0 10);
      cbn [SpecFloat.Zdigits2]; lia.
  - apply (binary_round_aux_finite false (Z.pos p) 0 10);
      cbn [SpecFloat.Zdigits2]; lia.
  - apply (binary_round_aux_finite false _ _ 10); try lia.
    cbn [SpecFloat.Zdigits2]. rewrite digits2_pos_iter_xO. lia.
Qed.

Lemma SFdiv_core_binary_spec (m1 e1 m2 e2 : Z) :
  0 < m1 -> 0 < m2 ->
  let r := SpecFloat.SFdiv_core_binary 53 1024 m1 e1 m2 e2 in
  0 <= fst (fst r)
  /\ snd (fst r) <= e1 - e2
  /\ SpecFloat.Zdigits2 (fst (fst r)) + snd (fst r)
     <= SpecFloat.Zdigits2 m1 + e1 - e2.
Proof.
  intros Hm1 Hm2. unfold SpecFloat.SFdiv_core_binary.
  set (e' := IntDef.Z.min _ _).
  assert (He' : e' <= e1 - e2) by (subst e'; apply Z.le_min_r).
  set (s := IntDef.Z.sub (IntDef.Z.sub e1 e2) e').
  assert (Hs : s = e1 - e2 - e') by reflexivity.
  set (m' := match s with Z.pos _ => _ | Z0 => m1 | Z.neg _ => 0 end).
  assert (Hm' : m' = m1 * 2 ^ s).
  { subst m'. destruct s as [|p|p] eqn:Es; [lia| |lia].
    change (Z.shiftl m1 (Z.pos p) = m1 * 2 ^ Z.pos p).
    apply Z.shiftl_mul_pow2. lia. }
  assert (Hs0 : 0 <= s) by lia.
  assert (Hpow : 0 < 2 ^ s) by (apply Z.pow_pos_nonneg; lia).
  change (IntDef.Z.div_eucl m' m2) with (Z.div_eucl m' m2).
  pose proof (Z_div_mod m' m2 ltac:(lia)) as Hdm.
  destruct (Z.div_eucl m' m2) as [q r]. cbn [fst snd].
  destruct Hdm as [Hq Hr].
  assert (Hq0 : 0 <= q) by nia.
  assert (Hqm : q <= m') by nia.
  split; [done|]. split; [done|].
  pose proof (Zdigits2_upper m1 ltac:(lia)) as Hup.
  pose proof (Zdigits2_nonneg m1) as Hd1.
  assert (Hdq : SpecFloat.Zdigits2 q <= SpecFloat.Zdigits2 m1 + s).
  { apply Zdigits2_le; [done|lia|].
    rewrite Z.pow_add_r by lia. nia. }
  lia.
Qed.

Lemma float_div_finite (mp : positive) (ep : Z) (mh : positive) (eh K : Z) :
  Z.pos mp < 2 ^ 53 -> ep - eh <= K -> -1074 <= K -> K < 971 ->
  let c := float_div (SpecFloat.S754_finite false mp ep)
                     (SpecFloat.S754_finite false mh eh) in
  c = SpecFloat.S754_zero false
  \/ exists m e, c = SpecFloat.S754_finite false m e
                 /\ Z.pos m < 2 ^ 53 /\ e <= K + 1.
Proof.
  intros Hmp He HK1 HK2 c. subst c. unfold float_div, SpecFloat.SFdiv.
  destruct (SFdiv_core_binary_spec (Z.pos mp) ep (Z.pos mh) eh)
    as (Hq & He' & Hd); [lia|lia|].
  destruct (SpecFloat.SFdiv_core_binary 53 1024 (Z.pos mp) ep (Z.pos mh) eh)
    as [[q e'] l]. cbn [fst snd xorb] in *.
  assert (Hdp : SpecFloat.Zdigits2 (Z.pos mp) <= 53)
    by (apply Zdigits2_le; lia).
  apply (binary_round_aux_finite false q e' K); lia.
Qed.

Lemma float_mul_finite (mc : positive) (ec : Z) (my : positive) (ey K : Z) :
  Z.pos mc < 2 ^ 53 -> Z.pos my < 2 ^ 53 ->
  ec + ey + 53 <= K -> -1074 <= K -> K < 971 ->
  let x := float_mul (SpecFloat.S754_finite false mc ec)
                     (SpecFloat.S754_finite false my ey) in
  x = SpecFloat.S754_zero false
  \/ exists m e, x = SpecFloat.S754_finite false m e.
Proof.
  intros Hmc Hmy He HK1 HK2 x. subst x. unfold float_mul, SpecFloat.SFmul.
  cbn [xorb].
  assert (Hd : SpecFloat.Zdigits2 (Z.pos (mc * my)) <= 106).
  { apply Zdigits2_le; [lia|lia|].
    change (2 ^ 106) with (2 ^ 53 * 2 ^ 53). rewrite Pos2Z.inj_mul. nia. }
  destruct (binary_round_aux_finite false (Z.pos (mc * my)) (ec + ey) K
              SpecFloat.loc_Exact) as [Hz|(m & e & Hf & _)]; try lia.
  - by left.
  - right. by exists m, e.
Qed.

Lemma int_nonneg (x : float) :
  (exists s, x = SpecFloat.S754_zero s)
  \/ (exists m e, x = SpecFloat.S754_finite false m e) ->
  exists i, int x = Ok i /\ 0 <= i.
Proof.
  intros [[s ->]|(m & e & ->)]; simpl.
  - by exists 0.
  - eexists. split; [done|]. apply Z.shiftl_nonneg. lia.
Qed.

Lemma percentile_index_ordinary (percentile : float) (n : Z) :
  ordinary_percentile percentile = true -> 1 <= n ->
  exists i, percentile_index percentile n = Ok i /\ 0 <= i.
Proof.
  intros Hp Hn. unfold percentile_index. apply int_nonneg.
  assert (Hx : float_of_Z (Z.min n sys_maxsize) = SpecFloat.S754_zero false
               \/ exists m e, float_of_Z (Z.min n sys_maxsize)
                              = SpecFloat.S754_finite false m e
                              /\ Z.pos m < 2 ^ 53 /\ e <= 11).
  { apply float_of_Z_finite. unfold sys_maxsize. lia. }
  change (float_of_Z 100)
    with (SpecFloat.S754_finite false 7036874417766400 (-46)).
  destruct percentile as [s| | |[|] mp ep]; try done.
  - (* a zero *)
    left. destruct Hx as [->|(m & e & -> & _)]; simpl; by eexists.
  - apply andb_true_iff in Hp as [Hmp Hep].
    apply Z.ltb_lt in Hmp. apply Z.leb_le in Hep.
    destruct (float_div_finite mp ep 7036874417766400 (-46)
                (Z.max (ep + 46) (-1074))) as [->|(mc & ec & -> & Hmc & Hec)];
      try lia.
    + left. destruct Hx as [->|(m & e & -> & _)]; simpl; by eexists.
    + destruct Hx as [->|(my & ey & -> & Hmy & Hey)].
      * left. simpl. by eexists.
      * destruct (float_mul_finite mc ec my ey
                    (Z.max (ec + ey + 53) (-1074))) as [->|(m & e & ->)];
          try lia.
        -- left. by eexists.
        -- right. by eexists _, _.
Qed.

(** The latency SLI, with the only use of [percentile] made explicit:
    the index of the percentile value has to be computed, and the lookup
    of that value, whose result is dropped, raises when the index falls
    below [-len]. *)
Lemma calculate_latency_sli_cases store start_time end_time percentile :
  calculate_latency_sli store start_time end_time percentile =
    let times := all_response_times store start_time end_time in
    let n := Z.of_nat (length times) in
    if bool_decide (times = []) then Ok 100%Q
    else match percentile_index percentile n with
         | Err e => Err e
         | Ok index =>
             if index <? - n then Err IndexError
             else Ok (threshold_compliance times)
         end.
Proof.
  unfold calculate_latency_sli.
  generalize (all_response_times store start_time end_time) as times.
  intros [|t0 tl]; [done|]. simpl bool_decide. cbv zeta.
  set (times := t0 :: tl). rewrite sorted_length.
  set (n := Z.of_nat (length times)).
  assert (Hnpos : 0 < n) by (subst n times; simpl; lia).
  destruct (percentile_index percentile n) as [index|e]; [|done].
  cbn [mbind result_bind].
  destruct (index <? - n) eqn:Hidx.
  - apply Z.ltb_lt in Hidx.
    rewrite getitem_below_range; [done|]. rewrite sorted_length. fold n. lia.
  - apply Z.ltb_ge in Hidx.
    destruct (getitem_in_range (sorted times) (Z.min index (n - 1)))
      as [x ->]; [rewrite sorted_length; fold n; lia|].
    done.
Qed.

Lemma calculate_latency_sli_served store start_time end_time percentile :
  ordinary_percentile percentile = true ->
  calculate_latency_sli store start_time end_time percentile
  = Ok (threshold_compliance (all_response_times store start_time end_time)).
Proof.
  intros Hp. rewrite calculate_latency_sli_cases. cbv zeta.
  case_bool_decide as Hnil; [by rewrite Hnil|].
  destruct (percentile_index_ordinary percentile
              (Z.of_nat (length (all_response_times store start_time end_time)))
              Hp) as (index & -> & Hidx).
  { destruct (all_response_times store start_time end_time); [done|].
    simpl. lia. }
  assert ((index <? - Z.of_nat (length (all_response_times store start_time
                                          end_time))) = false) as ->
    by (apply Z.ltb_ge; lia).
  done.
Qed.

Lemma default_percentile_ordinary : ordinary_percentile default_percentile = true.
Proof. reflexivity. Qed.

(** C9 (as amended): for a fixed store and window, the latency SLI on a
    window that holds samples is decided by the index the source computes
    from the percentile, [int((percentile / 100) * len)]: the call raises
    what computing the index raises ([OverflowError] when the product is
    an infinity, [ValueError] when it is a NaN), raises [IndexError] when
    the index is below [-len], and in every other case returns the share
    of the recorded samples below the fixed threshold [0.2]; on a window
    without samples it returns 100.  So whenever it returns for two
    percentiles it returns the same value; and it returns for every
    percentile that is a zero or a positive double below [2^903], so for
    every percentile from 0 to 100. *)
Theorem C9_latency_sli_ignores_percentile store start_time end_time :
  let times := all_response_times store start_time end_time in
  let n := Z.of_nat (length times) in
  (forall percentile,
     calculate_latency_sli store start_time end_time percentile
     = if bool_decide (times = []) then Ok 100%Q
       else match percentile_index percentile n with
            | Err e => Err e
            | Ok index =>
                if index <? - n then Err IndexError
                else Ok (threshold_compliance times)
            end)
  /\ (forall p1 p2 v1 v2,
        calculate_latency_sli store start_time end_time p1 = Ok v1 ->
        calculate_latency_sli store start_time end_time p2 = Ok v2 ->
        v1 = v2 /\ v1 = threshold_compliance times)
  /\ (forall p1 p2,
        ordinary_percentile p1 = true -> ordinary_percentile p2 = true ->
        calculate_latency_sli store start_time end_time p1
        = calculate_latency_sli store start_time end_time p2
        /\ calculate_latency_sli store start_time end_time p1
           = Ok (threshold_compliance times)).
Proof.
  intros times n. split; [|split].
  - intros percentile. apply calculate_latency_sli_cases.
  - assert (Hret : forall p v,
              calculate_latency_sli store start_time end_time p = Ok v ->
              v = threshold_compliance times).
    { intros p v. rewrite calculate_latency_sli_cases. cbv zeta. fold times.
      case_bool_decide as Hnil; [rewrite Hnil; by intros [= <-]|].
      destruct (percentile_index p _) as [index|e]; [|done].
      destruct (index <? _); [done|]. by intros [= <-]. }
    intros p1 p2 v1 v2 H1 H2.
    rewrite (Hret p1 v1 H1), (Hret p2 v2 H2). done.
  - intros p1 p2 Hp1 Hp2. by rewrite !calculate_latency_sli_served.
Qed.
End Calculator_properties.

Section History_properties.
Implicit Types (store : metrics_store) (history : list request).

Lemma record_request_agree s1 s2 endpoint status_code response_time
    timestamp utcnow :
  agree_all s1 s2 ->
  agree_all
    (record_request s1 endpoint status_code response_time timestamp utcnow)
    (record_request s2 endpoint status_code response_time timestamp utcnow).
Proof.
  intros Hag t. rewrite !record_request_lookup. case_decide as Hk; [|done].
  symmetry in Hk. by rewrite Hk, Hag.
Qed.

(** Calls made under another endpoint than "all" can be dropped from a
    history without changing any aggregate bucket. *)
Lemma replay_filter_agree history s1 s2 :
  agree_all s1 s2 ->
  agree_all (replay s1 history) (replay s2 (List.filter to_all history)).
Proof.
  revert s1 s2. induction history as [|r history IH]; intros s1 s2 Hag;
    simpl; [done|].
  unfold to_all at 1. destruct (String.eqb (req_endpoint r) "all") eqn:He;
    simpl; apply IH.
  - by apply record_request_agree.
  - apply String.eqb_neq in He. intros t.
    by rewrite record_request_other_scope.
Qed.

Lemma agree_all_sym s1 s2 : agree_all s1 s2 -> agree_all s2 s1.
Proof. intros Hag t. by rewrite Hag. Qed.

Lemma agree_all_trans s1 s2 s3 :
  agree_all s1 s2 -> agree_all s2 s3 -> agree_all s1 s3.
Proof. intros H12 H23 t. by rewrite H12, H23. Qed.

(** The three calculators read nothing but the aggregate buckets. *)
Lemma calculators_agree s1 s2 start_time end_time :
  agree_all s1 s2 ->
  calculate_availability_sli s1 start_time end_time
  = calculate_availability_sli s2 start_time end_time
  /\ (forall percentile,
       calculate_latency_sli s1 start_time end_time percentile
       = calculate_latency_sli s2 start_time end_time percentile)
  /\ calculate_error_rate_sli s1 start_time end_time
     = calculate_error_rate_sli s2 start_time end_time.
Proof.
  intros Hag. split; [|split].
  - rewrite !calculate_availability_sli_sums.
    by rewrite (window_buckets_agree s1 s2).
  - intros percentile. rewrite !calculate_latency_sli_cases.
    rewrite !all_response_times_concat.
    by rewrite (window_buckets_agree s1 s2).
  - rewrite !calculate_error_rate_sli_sums.
    by rewrite (window_buckets_agree s1 s2).
Qed.

(** C10: the three calculators look up keys of scope "all" only, and a
    call of [record_request] with another endpoint writes none of them.
    So two histories, played on the same store, that have the same calls
    with endpoint "all" (in the same order) and any calls at all with
    other endpoints, give the same availability, latency and error-rate
    SLI over every window and for every percentile. *)
Theorem C10_only_all_scope_reaches_the_slis store h1 h2 :
  List.filter to_all h1 = List.filter to_all h2 ->
  forall start_time end_time,
    calculate_availability_sli (replay store h1) start_time end_time
    = calculate_availability_sli (replay store h2) start_time end_time
    /\ (forall percentile,
         calculate_latency_sli (replay store h1) start_time end_time percentile
         = calculate_latency_sli (replay store h2) start_time end_time percentile)
    /\ calculate_error_rate_sli (replay store h1) start_time end_time
       = calculate_error_rate_sli (replay store h2) start_time end_time.
Proof.
  intros Hsame start_time end_time. apply calculators_agree.
  eapply agree_all_trans.
  - apply (replay_filter_agree h1 store store). done.
  - rewrite Hsame. apply agree_all_sym.
    apply (replay_filter_agree h2 store store). done.
Qed.
End History_properties.

(* ===================================================================== *)
(** * Properties of the error budget                                      *)
(* ===================================================================== *)

Section ErrorBudget_properties.
Implicit Types (eb : ErrorBudget) (x y : Q).

Lemma Qlt_bool_iff x y : Qlt_bool x y = true <-> (x < y)%Q.
Proof.
  unfold Qlt_bool. rewrite negb_true_iff. split.
  - intros Hb. apply Qnot_le_lt. intros Hle.
    apply Qle_bool_iff in Hle. congruence.
  - intros Hlt. destruct (Qle_bool y x) eqn:Hb; [|done].
    apply Qle_bool_iff in Hb. by apply Qlt_not_le in Hlt.
Qed.

Lemma Qlt_bool_false_iff x y : Qlt_bool x y = false <-> (y <= x)%Q.
Proof.
  unfold Qlt_bool. rewrite negb_false_iff. apply Qle_bool_iff.
Qed.

Lemma max0_pos x : (0 < x)%Q -> max0 x = x.
Proof. intros Hx. unfold max0. by apply Qlt_bool_iff in Hx as ->. Qed.

Lemma max0_nonpos x : (x <= 0)%Q -> max0 x = 0%Q.
Proof. intros Hx. unfold max0. by apply Qlt_bool_false_iff in Hx as ->. Qed.

Lemma max0_mono x y : (x <= y)%Q -> (max0 x <= max0 y)%Q.
Proof.
  intros Hxy. destruct (Qlt_le_dec 0 x) as [Hx|Hx].
  - rewrite (max0_pos x Hx), (max0_pos y) by lra. done.
  - rewrite (max0_nonpos x Hx). destruct (Qlt_le_dec 0 y) as [Hy|Hy].
    + rewrite (max0_pos y Hy). lra.
    + rewrite (max0_nonpos y Hy). lra.
Qed.

(** C8 (as amended): a call of [consume_budget] with an SLI value that is
    at least the target returns 0 and leaves the budget, so
    [get_budget_remaining], as it was.  A call with an SLI value below
    the target returns [target - sli_value] and adds exactly that to
    [budget_consumed]; [get_budget_remaining] never grows, and it falls
    by exactly [target - sli_value] (a strict fall) as long as the budget
    is not overdrawn by the call; once overdrawn it is 0. *)
Theorem C8_consume_budget eb sli_value :
  let eb' := fst (consume_budget eb sli_value) in
  let returned := snd (consume_budget eb sli_value) in
  let delta := (target (slo eb) - sli_value)%Q in
  ((target (slo eb) <= sli_value)%Q ->
   returned = 0%Q /\ eb' = eb
   /\ get_budget_remaining eb' = get_budget_remaining eb)
  /\ ((sli_value < target (slo eb))%Q ->
      returned = delta
      /\ budget_consumed eb' = (budget_consumed eb + delta)%Q
      /\ budget_total eb' = budget_total eb
      /\ (get_budget_remaining eb' <= get_budget_remaining eb)%Q
      /\ ((0 <= budget_total eb - budget_consumed eb - delta)%Q ->
          (get_budget_remaining eb'
           == get_budget_remaining eb - delta)%Q
          /\ (get_budget_remaining eb' < get_budget_remaining eb)%Q)
      /\ ((budget_total eb - budget_consumed eb - delta < 0)%Q ->
          get_budget_remaining eb' = 0%Q)).
Proof.
  intros eb' returned delta. subst eb' returned. unfold consume_budget.
  split.
  - intros Hge. by apply Qlt_bool_false_iff in Hge as ->.
  - intros Hlt. assert (Hd : (0 < delta)%Q) by (subst delta; lra).
    apply Qlt_bool_iff in Hlt as ->. simpl. fold delta.
    unfold get_budget_remaining; simpl.
    split; [done|]. split; [done|]. split; [done|]. split; [|split].
    + apply max0_mono. lra.
    + intros Hleft.
      rewrite (max0_pos (budget_total eb - budget_consumed eb)) by lra.
      destruct (Qlt_le_dec 0 (budget_total eb - (budget_consumed eb + delta)))
        as [Hpos|Hzero].
      * rewrite (max0_pos _ Hpos). split; lra.
      * rewrite (max0_nonpos _ Hzero). split; lra.
    + intros Hover. apply max0_nonpos. lra.
Qed.
End ErrorBudget_properties.

(* ===================================================================== *)
(** * Properties of SLO evaluation and of the dashboard                   *)
(* ===================================================================== *)

Section Dashboard_properties.
Implicit Types (a : SREAlerting) (results : list (string * SLOResult)).

Lemma should_alert_nil results :
  should_alert results = [] <-> existsb slo_alerting (results.*2) = false.
Proof.
  unfold should_alert. induction results as [|[name r] results IH]; simpl;
    [done|].
  unfold slo_alerting at 1.
  destruct (status r), (is_critical r); simpl; try (split; discriminate).
  exact IH.
Qed.

Lemma SREAlerting_init_complete : budgets_complete SREAlerting_init.
Proof.
  intros name Hin. simpl in Hin.
  repeat (apply elem_of_cons in Hin as [->|Hin]; [by eexists|]).
  by apply elem_of_nil in Hin.
Qed.

(** One turn of the loop of [evaluate_slos] goes through and adds one
    result. *)
Lemma evaluate_slo_total start_time end_time a results name slo :
  budgets_complete a ->
  (name, slo) ∈ SLO_DEFINITIONS ->
  exists a' r,
    evaluate_slo start_time end_time (a, results) (name, slo)
    = Ok (a', results ++ [(name, r)])
    /\ budgets_complete a'.
Proof.
  intros Hc Hin.
  assert (Hname : name ∈ SLO_DEFINITIONS.*1).
  { apply list_elem_of_fmap. by exists (name, slo). }
  destruct (Hc name Hname) as [eb Heb].
  assert (Hsli : exists v, sli_for (sli_calculator a) name start_time end_time
                           = Ok (Some v)).
  { unfold sli_for. simpl in Hname.
    repeat (apply elem_of_cons in Hname as [->|Hname]; simpl;
            [try by eexists|]).
    - rewrite calculate_latency_sli_served
        by apply default_percentile_ordinary.
      by eexists.
    - by apply elem_of_nil in Hname. }
  destruct Hsli as [v Hv]. unfold evaluate_slo. rewrite Hv. simpl.
  rewrite Heb. destruct (consume_budget eb v) as [eb' consumed].
  eexists _, _. split; [done|].
  intros name' Hin'. simpl.
  destruct (decide (name = name')) as [->|Hne].
  - rewrite lookup_insert_eq. by eexists.
  - rewrite lookup_insert_ne by done. by apply Hc.
Qed.

(** [evaluate_slos] returns, with budgets for every SLO still in
    place. *)
Lemma evaluate_slos_total a start_time end_time :
  budgets_complete a ->
  exists a' results,
    evaluate_slos a start_time end_time = Ok (a', results)
    /\ budgets_complete a'.
Proof.
  intros Hc. unfold evaluate_slos.
  assert (Hgen : forall defs a0 results0,
             defs ⊆ SLO_DEFINITIONS -> budgets_complete a0 ->
             exists a' results,
               foldl (fun acc entry =>
                        acc ← acc; evaluate_slo start_time end_time acc entry)
                     (Ok (a0, results0)) defs
               = Ok (a', results)
               /\ budgets_complete a').
  { induction defs as [|[name slo] defs IH]; intros a0 results0 Hsub Hc0.
    - by eexists _, _.
    - cbn [foldl mbind result_bind].
      destruct (evaluate_slo_total start_time end_time a0 results0 name slo)
        as (a1 & r1 & -> & Hc1); [done|apply Hsub; left|].
      apply IH; [|done]. intros x Hx. apply Hsub. by right. }
  by apply Hgen.
Qed.

(** C4 (as amended): [get_dashboard_data] returns, and its
    [overall_status] is "DEGRADED" when some SLO result is a FAIL or has
    [is_critical] true, and "HEALTHY" otherwise.  It is never "CRITICAL",
    and no circuit breaker is read.  The alerting object it leaves has a
    budget for every SLO again, so this holds of every evaluation a
    dashboard makes. *)
Theorem C4_overall_status_from_slo_alerts a utcnow :
  budgets_complete a ->
  exists a' d,
    get_dashboard_data a utcnow = Ok (a', d)
    /\ overall_status d
       = (if existsb slo_alerting ((slos d).*2) then "DEGRADED" else "HEALTHY")
    /\ overall_status d <> "CRITICAL"
    /\ budgets_complete a'.
Proof.
  intros Hc. unfold get_dashboard_data.
  destruct (evaluate_slos_total a (utcnow - timedelta 30 0) utcnow Hc)
    as (a' & results & -> & Hc').
  simpl. eexists _, _. split; [done|]. simpl.
  destruct (should_alert results) as [|al als] eqn:Hal.
  - apply should_alert_nil in Hal as ->. done.
  - destruct (existsb slo_alerting (results.*2)) eqn:Hex; [done|].
    apply should_alert_nil in Hex. congruence.
Qed.
End Dashboard_properties.

(* ===================================================================== *)
(** * The properties on the scenarios                                     *)
(* ===================================================================== *)

Section Scenarios.

Example strftime_hour_examples :
  strftime_hour ts = "2024-01-15-10"
  /\ strftime_hour (timedelta 19782 23) = "2024-02-29-23"
  /\ strftime_hour 0 = "1970-01-01-00"
  /\ strftime_hour (timedelta 11016 0) = "2000-02-29-00"
  /\ strftime_hour (timedelta 20088 5) = "2024-12-31-05".
Proof. vm_compute. repeat split. Qed.

Example tripped_fields :
  tripped = mkCircuitBreaker 3 30 Exception "database" 3 (Some 3%Q) OPEN.
Proof. reflexivity. Qed.

Lemma tripped_reachable : reachable (W:=World) (V:=unit) tripped.
Proof. do 3 apply reachable_call. apply reachable_init. Qed.

Lemma tripped_by_three_failures :
  consecutive_failures (W:=World) (V:=unit) database_breaker 3 tripped.
Proof.
  unfold tripped, failed_twice, failed_once.
  repeat (eapply failures_more; [| reflexivity | reflexivity | reflexivity]).
  apply failures_none.
Qed.
Lemma failed_twice_by_two_failures :
  consecutive_failures (W:=World) (V:=unit) database_breaker 2 failed_twice.
Proof.
  unfold failed_twice, failed_once.
  repeat (eapply failures_more; [| reflexivity | reflexivity | reflexivity]).
  apply failures_none.
Qed.

Lemma picky_reachable : reachable (W:=World) (V:=unit) picky_breaker.
Proof.
  assert (picky_breaker
          = fst (fst (call
              (fst (fst (call
                 (fst (fst (call picky_fresh nested_query (mkWorld 0 0))))
                 nested_query (mkWorld 1 1))))
              nested_query (mkWorld 2 2)))) as -> by reflexivity.
  do 3 apply reachable_call. apply reachable_init.
Qed.

(** C1 as stated fails.  The breaker [picky_breaker] counts only
    [CircuitBreakerError]; it is OPEN and its timeout has elapsed.  The
    trial runs the query, which fails with an [OperationalError]: the
    breaker is left HALF_OPEN, not OPEN, and [last_failure_time] is still
    3, not the time of this failure (41). *)
Lemma C1_counterexample :
  reachable (W:=World) (V:=unit) picky_breaker
  /\ state picky_breaker = OPEN
  /\ last_failure_time picky_breaker = Some 3%Q
  /\ (inject_Z (recovery_timeout picky_breaker) <= time (mkWorld 40 3) - 3)%Q
  /\ call picky_breaker failing_query (mkWorld 40 3)
     = (set_state picky_breaker HALF_OPEN,
        Raises (OtherException "OperationalError" "connection refused"),
        mkWorld 41 4)
  /\ state (fst (fst (call picky_breaker failing_query (mkWorld 40 3))))
     = HALF_OPEN
  /\ last_failure_time
       (fst (fst (call picky_breaker failing_query (mkWorld 40 3))))
     = Some 3%Q.
Proof.
  split; [exact picky_reachable|].
  repeat split; try reflexivity. vm_compute. discriminate.
Qed.

(** C1 (as amended) at the tripped database breaker, 37 seconds after its
    last failure, with a query that works and with one that fails: the
    function has run once more (4 runs in all). *)
Lemma C1_witness :
  (inject_Z (recovery_timeout tripped) <= time (mkWorld 40 3) - 3)%Q
  /\ admission tripped (mkWorld 40 3) = inr (set_state tripped HALF_OPEN)
  /\ runs (snd (call tripped working_query (mkWorld 40 3))) = 4%nat
  /\ state (fst (fst (call tripped working_query (mkWorld 40 3)))) = CLOSED
  /\ failure_count (fst (fst (call tripped working_query (mkWorld 40 3)))) = 0
  /\ runs (snd (call tripped failing_query (mkWorld 40 3))) = 4%nat
  /\ state (fst (fst (call tripped failing_query (mkWorld 40 3)))) = OPEN
  /\ last_failure_time (fst (fst (call tripped failing_query (mkWorld 40 3))))
     = Some (time (snd (failing_query (mkWorld 40 3)))).
Proof.
  assert (Hle : (inject_Z (recovery_timeout tripped)
                 <= time (mkWorld 40 3) - 3)%Q)
    by (vm_compute; discriminate).
  destruct (C1_trial_after_recovery_timeout tripped working_query
              (mkWorld 40 3) 3 tripped_reachable eq_refl eq_refl Hle)
    as (Ha & _ & _ & Hw & Hok & _).
  destruct (C1_trial_after_recovery_timeout tripped failing_query
              (mkWorld 40 3) 3 tripped_reachable eq_refl eq_refl Hle)
    as (_ & _ & _ & Hw' & _ & Hfail & _).
  destruct (Hok tt eq_refl) as [Hs Hn].
  destruct (Hfail _ eq_refl eq_refl) as [Hs' Ht'].
  split; [exact Hle|]. split; [exact Ha|].
  split; [rewrite Hw; reflexivity|]. split; [exact Hs|]. split; [exact Hn|].
  split; [rewrite Hw'; reflexivity|]. split; [exact Hs'|exact Ht'].
Defined.



(** C3 as stated fails in its "distinct error kind".  The tripped
    database breaker raises the same exception when it rejects a call
    (at time 10, the query not run) and when it lets a call through as a
    trial (at time 40) whose query raises [CircuitBreakerError] itself:
    the caller cannot tell the rejection from the failure of the guarded
    function. *)
Lemma C3_counterexample :
  snd (fst (call tripped nested_query (mkWorld 10 3)))
  = snd (fst (call tripped nested_query (mkWorld 40 3)))
  /\ snd (fst (call tripped nested_query (mkWorld 10 3)))
     = Raises (CircuitBreakerError "Circuit breaker 'database' is OPEN")
  /\ runs (snd (call tripped nested_query (mkWorld 10 3))) = 3%nat
  /\ runs (snd (call tripped nested_query (mkWorld 40 3))) = 4%nat.
Proof. repeat split; reflexivity. Qed.

(** C3 (as amended) at the tripped database breaker, 7 seconds after its
    last failure. *)
Lemma C3_witness :
  (time (mkWorld 10 3) - 3 < inject_Z (recovery_timeout tripped))%Q
  /\ call tripped working_query (mkWorld 10 3)
     = (tripped,
        Raises (CircuitBreakerError
                  ("Circuit breaker '" +:+ name tripped +:+ "' is OPEN")),
        mkWorld 10 3)
  /\ state (fst (fst (call tripped working_query (mkWorld 10 3))))
     = state tripped
  /\ failure_count (fst (fst (call tripped working_query (mkWorld 10 3))))
     = failure_count tripped
  /\ last_failure_time (fst (fst (call tripped working_query (mkWorld 10 3))))
     = last_failure_time tripped.
Proof.
  assert (Hlt : (time (mkWorld 10 3) - 3
                 < inject_Z (recovery_timeout tripped))%Q)
    by reflexivity.
  destruct (C3_rejected_call_changes_nothing tripped working_query
              (mkWorld 10 3) 3 eq_refl eq_refl Hlt)
    as (Hcall & Hs & Hn & Ht & _).
  split; [exact Hlt|]. split; [exact Hcall|]. split; [exact Hs|].
  split; [exact Hn|exact Ht].
Defined.

(** C4 as stated fails.  With one failed request in the aggregate scope
    the availability budget is critical, where the claim asks for
    "CRITICAL": the dashboard says "DEGRADED". *)
Lemma C4_counterexample :
  match get_dashboard_data alerting_after_outage ts with
  | Ok (_, d) =>
      existsb (fun nr => is_critical (snd nr)) (slos d) = true
      /\ overall_status d = "DEGRADED"
      /\ spec_overall_status (get_open_circuits CircuitBreakerManager_init)
           (get_critical_circuits CircuitBreakerManager_init (mkWorld 40 3))
           (slos d) = "CRITICAL"
  | Err _ => False
  end.
Proof. vm_compute. repeat split. Qed.

(** Nor does an open breaker show: with the tripped database breaker
    registered and no request recorded, the claim asks for "DEGRADED"
    and the dashboard says "HEALTHY". *)
Example dashboard_ignores_open_breaker :
  match get_dashboard_data SREAlerting_init ts with
  | Ok (_, d) =>
      let manager :=
        register_breaker CircuitBreakerManager_init "database" tripped in
      get_open_circuits manager = ["database"]
      /\ overall_status d = "HEALTHY"
      /\ spec_overall_status (get_open_circuits manager)
           (get_critical_circuits manager (mkWorld 40 3)) (slos d)
         = "DEGRADED"
  | Err _ => False
  end.
Proof. vm_compute. repeat split. Qed.

(** C4 (as amended) at the alerting object [__init__] makes. *)
Lemma C4_witness :
  budgets_complete SREAlerting_init
  /\ exists a' d,
       get_dashboard_data SREAlerting_init ts = Ok (a', d)
       /\ overall_status d
          = (if existsb slo_alerting ((slos d).*2)
             then "DEGRADED" else "HEALTHY")
       /\ overall_status d <> "CRITICAL"
       /\ budgets_complete a'.
Proof.
  split; [exact SREAlerting_init_complete|].
  exact (C4_overall_status_from_slo_alerts SREAlerting_init ts
           SREAlerting_init_complete).
Defined.

(** C5 fails on the code.  A call of [record_request] changes the bucket
    under [bucket_key endpoint timestamp] and no other key of the store;
    so the health check's call, on an empty store, leaves one bucket,
    "health_2024-01-15-10", and no bucket "all_2024-01-15-10". *)
Theorem C5_record_request_writes_one_bucket :
  (forall store endpoint status_code response_time timestamp utcnow k,
     record_request store endpoint status_code response_time timestamp utcnow
       !! k
     = if decide (k = bucket_key endpoint (default utcnow timestamp))
       then Some (recorded
                    (store !! bucket_key endpoint (default utcnow timestamp))
                    status_code response_time)
       else store !! k)
  /\ record_request SLICalculator_init "health" 200 50 (Some ts) ts
     = {[ "health_2024-01-15-10" := mkMetrics 1 1 [50%Q] 0 ]}
  /\ record_request SLICalculator_init "health" 200 50 (Some ts) ts
       !! bucket_key "all" ts = None.
Proof.
  split; [|split].
  - intros. apply record_request_lookup.
  - vm_compute. reflexivity.
  - vm_compute. reflexivity.
Qed.

(** C6 fails on the code.  Recorded the way the application records
    (under an endpoint name such as "health", response times in
    milliseconds), the ten requests leave all three SLIs at 100.  Recorded
    under "all", they give availability 90 and error rate 90, and a
    latency SLI of 0 for response times of 50 (milliseconds, against the
    threshold [0.2]) and of 100 for response times of 0.05 (seconds). *)
Theorem C6_ten_requests :
  (let store := replay SLICalculator_init (ten_requests "health" 50) in
   calculate_availability_sli store ts ts = 100%Q
   /\ calculate_error_rate_sli store ts ts = 100%Q
   /\ calculate_latency_sli store ts ts default_percentile = Ok 100%Q
   /\ ~ (calculate_availability_sli store ts ts == 90)%Q)
  /\ (let store := replay SLICalculator_init (ten_requests "all" 50) in
      (calculate_availability_sli store ts ts == 90)%Q
      /\ (calculate_error_rate_sli store ts ts == 90)%Q
      /\ exists v, calculate_latency_sli store ts ts default_percentile = Ok v
                   /\ (v == 0)%Q)
  /\ (let store := replay SLICalculator_init (ten_requests "all" (5 # 100)) in
      (calculate_availability_sli store ts ts == 90)%Q
      /\ (calculate_error_rate_sli store ts ts == 90)%Q
      /\ exists v, calculate_latency_sli store ts ts default_percentile = Ok v
                   /\ (v == 100)%Q).
Proof.
  split; [|split].
  - vm_compute. repeat split. intros [=].
  - vm_compute. repeat split. eexists. split; reflexivity.
  - vm_compute. repeat split. eexists. split; reflexivity.
Qed.

(** C7 at the empty store, over the three hours that end at [ts]. *)
Lemma C7_witness :
  let start_time := ts - timedelta 0 2 in
  Zsum (total_requests <$> window_buckets SLICalculator_init start_time ts) = 0
  /\ concat (response_times <$> window_buckets SLICalculator_init start_time ts)
     = []
  /\ calculate_availability_sli SLICalculator_init start_time ts = 100%Q
  /\ calculate_error_rate_sli SLICalculator_init start_time ts = 100%Q
  /\ calculate_latency_sli SLICalculator_init start_time ts default_percentile
     = Ok 100%Q.
Proof.
  intros start_time.
  assert (Hz : Zsum (total_requests
                       <$> window_buckets SLICalculator_init start_time ts) = 0)
    by (vm_compute; reflexivity).
  assert (Hn : concat (response_times
                         <$> window_buckets SLICalculator_init start_time ts) = [])
    by (vm_compute; reflexivity).
  destruct (C7_empty_window_sli_is_100 SLICalculator_init start_time ts)
    as [Hcount Hlat].
  destruct (Hcount (or_intror Hz)) as [Ha He].
  split; [exact Hz|]. split; [exact Hn|]. split; [exact Ha|].
  split; [exact He|]. exact (Hlat Hn default_percentile).
Defined.
(** C8 as stated fails: a FAIL evaluation that overdraws the budget
    lowers [get_budget_remaining] by less than [target - sli_value]
    (here from 0.1 to 0, with [target - sli_value = 9.9]), and a second
    one does not lower it at all. *)
Lemma C8_counterexample :
  let eb := ErrorBudget_init (mkSLODefinition "Availability" "availability_sli"
                                (999 # 10) 30) in
  let eb1 := fst (consume_budget eb 90) in
  let eb2 := fst (consume_budget eb1 90) in
  (90 < target (slo eb))%Q
  /\ ~ (get_budget_remaining eb - get_budget_remaining eb1
        == target (slo eb) - 90)%Q
  /\ ~ (get_budget_remaining eb2 < get_budget_remaining eb1)%Q.
Proof.
  vm_compute. split; [reflexivity|]. split; intros [=].
Qed.

(** C8 (as amended) at the latency budget (target 95, total 5): a PASS
    at 97 and a FAIL at 93. *)
Lemma C8_witness :
  let eb := ErrorBudget_init (mkSLODefinition "Latency P95" "latency_p95_sli"
                                95 30) in
  (target (slo eb) <= 97)%Q
  /\ (93 < target (slo eb))%Q
  /\ (0 <= budget_total eb - budget_consumed eb - (target (slo eb) - 93))%Q
  /\ snd (consume_budget eb 97) = 0%Q
  /\ get_budget_remaining (fst (consume_budget eb 97)) = get_budget_remaining eb
  /\ snd (consume_budget eb 93) = (target (slo eb) - 93)%Q
  /\ (get_budget_remaining (fst (consume_budget eb 93))
      == get_budget_remaining eb - (target (slo eb) - 93))%Q
  /\ (get_budget_remaining (fst (consume_budget eb 93))
      < get_budget_remaining eb)%Q.
Proof.
  intros eb.
  assert (Hpass : (target (slo eb) <= 97)%Q) by (vm_compute; discriminate).
  assert (Hfail : (93 < target (slo eb))%Q) by reflexivity.
  assert (Hleft : (0 <= budget_total eb - budget_consumed eb
                        - (target (slo eb) - 93))%Q)
    by (vm_compute; discriminate).
  destruct (C8_consume_budget eb 97) as [Hp _].
  destruct (C8_consume_budget eb 93) as [_ Hf].
  destruct (Hp Hpass) as (Hr & _ & Hrem).
  destruct (Hf Hfail) as (Hr' & _ & _ & _ & Hexact & _).
  destruct (Hexact Hleft) as [Heq Hlt].
  repeat (split; [assumption|]). assumption.
Defined.

(** C9 as stated fails.  With one sample recorded, the default
    percentile gives an SLI, a percentile of -200 raises [IndexError], a
    NaN raises [ValueError] and an infinity raises [OverflowError]; with
    106 samples recorded a percentile of 1.7e308 raises [OverflowError]
    too, the product [(1.7e308 / 100) * 106] being beyond the doubles. *)
Lemma C9_counterexample :
  let store := record_request SLICalculator_init "all" 200 (5 # 100)
                 (Some ts) ts in
  let crowded := replay SLICalculator_init (many_requests 106) in
  calculate_latency_sli store ts ts default_percentile = Ok 100%Q
  /\ calculate_latency_sli store ts ts (float_of_Z (-200)) = Err IndexError
  /\ calculate_latency_sli store ts ts SpecFloat.S754_nan = Err ValueError
  /\ calculate_latency_sli store ts ts (SpecFloat.S754_infinity false)
     = Err OverflowError
  /\ (exists v, calculate_latency_sli crowded ts ts default_percentile = Ok v)
  /\ calculate_latency_sli crowded ts ts huge_percentile = Err OverflowError.
Proof.
  vm_compute. repeat split; try reflexivity. eexists. reflexivity.
Qed.

(** C9 (as amended) at the ten requests, for the percentiles 95 and
    50. *)
Lemma C9_witness :
  let store := replay SLICalculator_init (ten_requests "all" (5 # 100)) in
  ordinary_percentile default_percentile = true
  /\ ordinary_percentile (float_of_Z 50) = true
  /\ calculate_latency_sli store ts ts default_percentile
     = calculate_latency_sli store ts ts (float_of_Z 50)
  /\ calculate_latency_sli store ts ts default_percentile
     = Ok (threshold_compliance (all_response_times store ts ts)).
Proof.
  intros store.
  assert (H95 : ordinary_percentile default_percentile = true) by reflexivity.
  assert (H50 : ordinary_percentile (float_of_Z 50) = true) by reflexivity.
  destruct (C9_latency_sli_ignores_percentile store ts ts) as (_ & _ & Hsame).
  split; [exact H95|]. split; [exact H50|].
  exact (Hsame default_percentile (float_of_Z 50) H95 H50).
Defined.

(** C10 at two histories that share their one call under "all". *)
Lemma C10_witness :
  let h1 := [mkRequest "health" 200 12 (Some ts) ts;
             mkRequest "all" 500 1 (Some ts) ts] in
  let h2 := [mkRequest "all" 500 1 (Some ts) ts;
             mkRequest "api_users_get" 503 700 None ts;
             mkRequest "health" 200 3 None ts] in
  List.filter to_all h1 = List.filter to_all h2
  /\ forall start_time end_time,
       calculate_availability_sli (replay SLICalculator_init h1)
         start_time end_time
       = calculate_availability_sli (replay SLICalculator_init h2)
           start_time end_time
       /\ (forall percentile,
            calculate_latency_sli (replay SLICalculator_init h1)
              start_time end_time percentile
            = calculate_latency_sli (replay SLICalculator_init h2)
                start_time end_time percentile)
       /\ calculate_error_rate_sli (replay SLICalculator_init h1)
            start_time end_time
          = calculate_error_rate_sli (replay SLICalculator_init h2)
              start_time end_time.
Proof.
  intros h1 h2.
  assert (Hsame : List.filter to_all h1 = List.filter to_all h2) by reflexivity.
  split; [exact Hsame|].
  exact (C10_only_all_scope_reaches_the_slis SLICalculator_init h1 h2 Hsame).
Defined.
End Scenarios.

(* ===================================================================== *)
(** * More properties of the circuit breaker                              *)
(* ===================================================================== *)

Section CircuitBreaker_more.
Context {W V : Type} `{Clock W}.
Implicit Types (b : CircuitBreaker) (func : @callable W V) (w : W).

Lemma call_fresh_inv th to ex nm b func w :
  0 < th -> fresh_inv th to ex nm b ->
  fresh_inv th to ex nm (fst (fst (call b func w))).
Proof.
  intros Hth (Ht & Hto & Hex & Hnm & Hc & Hcl & Hl).
  unfold call, admission, guarded_run, _on_success, _on_failure.
  destruct b as [th' to' ex' nm' c l s]; simpl in *; subst.
  assert (Hopen : s <> CLOSED -> th <= c).
  { intros Hs. destruct (Z.lt_ge_cases c th) as [Hlt|]; [|done].
    apply Hcl in Hlt. done. }
  destruct (func w) as [[v|e] w'].
  - destruct s; simpl; try destruct (_should_attempt_reset _ _); simpl;
      unfold fresh_inv; simpl;
      intuition (try congruence; try lia).
  - destruct s; simpl; try destruct (_should_attempt_reset _ _); simpl;
      destruct (ex e); simpl; try destruct (th <=? c + 1) eqn:Hle; simpl;
      try (apply Z.leb_le in Hle); try (apply Z.leb_gt in Hle);
      unfold fresh_inv; simpl;
      intuition (try congruence; try lia).
Qed.

(** X1: a breaker made by the constructor with a positive threshold and
    then used only through [call] keeps the constructor's threshold,
    timeout, exception test and name; its [failure_count] is never
    negative; it is CLOSED exactly when [failure_count] is below the
    threshold; and whenever it is not CLOSED its [last_failure_time] is
    set. *)
Theorem X1_fresh_breaker_invariant th to ex nm b :
  0 < th ->
  evolves (W:=W) (V:=V) (CircuitBreaker_init th to ex nm) b ->
  failure_threshold b = th /\ recovery_timeout b = to
  /\ expected_exception b = ex /\ name b = nm
  /\ 0 <= failure_count b
  /\ (state b = CLOSED <-> failure_count b < th)
  /\ (state b <> CLOSED -> last_failure_time b <> None).
Proof.
  intros Hth Hev. change (fresh_inv th to ex nm b).
  remember (CircuitBreaker_init th to ex nm) as b0 eqn:Hb0.
  induction Hev as [b|b0 b func w _ IH].
  - subst b. unfold fresh_inv; simpl. intuition (try congruence; try lia).
  - apply call_fresh_inv; [done|]. by apply IH.
Qed.

(** X2: whatever the breaker was, a call that returns a value leaves it
    CLOSED with [failure_count = 0]; [last_failure_time] and the
    configuration stay as they were. *)
Theorem X2_returning_call_closes b func w v :
  snd (fst (call b func w)) = Returns v ->
  let after := fst (fst (call b func w)) in
  state after = CLOSED /\ failure_count after = 0
  /\ last_failure_time after = last_failure_time b
  /\ failure_threshold after = failure_threshold b
  /\ recovery_timeout after = recovery_timeout b.
Proof.
  unfold call, admission, guarded_run, _on_success.
  destruct b as [th to ex nm c l s]; simpl.
  destruct s; simpl; try destruct (_should_attempt_reset _ _); simpl;
    destruct (func w) as [[v'|e] w']; simpl; try destruct (ex e); simpl;
    try done.
Qed.

(** X3: a CLOSED breaker does not trip early.  After [n] counted
    failures in a row that leave [failure_count] below the threshold it is
    still CLOSED, [failure_count] has grown by [n], and the next call is
    let through whatever the clock says. *)
Theorem X3_below_threshold_stays_closed b0 n b :
  state b0 = CLOSED ->
  consecutive_failures (W:=W) (V:=V) b0 n b ->
  failure_count b0 + Z.of_nat n < failure_threshold b0 ->
  state b = CLOSED
  /\ failure_count b = failure_count b0 + Z.of_nat n
  /\ forall w, admission b w = inr b.
Proof.
  intros Hs0 Hf. induction Hf as [b|b n b1 b2 func w e w' Hf IH Ha Hfw He].
  - intros _. split; [done|]. split; [lia|].
    intros w. unfold admission. by rewrite Hs0.
  - intros Hlt.
    destruct (consecutive_failures_fields _ _ _ Hf) as (Hc & Hth & _).
    destruct (IH Hs0) as (Hs1 & _ & _); [lia|].
    assert (Hb2 : b2 = b1).
    { apply admission_inr in Ha as [[Ho _]|[_ ->]]; [congruence|done]. }
    subst b2.
    assert (Hcall : fst (fst (call b1 func w)) = _on_failure b1 w').
    { unfold call. rewrite Ha. unfold guarded_run. by rewrite Hfw, He. }
    rewrite Hcall.
    destruct (_on_failure_fields b1 w') as (Hn & _ & Hth1 & _).
    pose proof (_on_failure_state b1 w') as Hst.
    assert (Hgt : (failure_threshold b1 <=? failure_count b1 + 1) = false)
      by (apply Z.leb_gt; lia).
    rewrite Hgt, Hs1 in Hst.
    split; [done|]. split; [lia|].
    intros w0. unfold admission. by rewrite Hst.
Qed.

(** X4: an exception the breaker does not count changes nothing but the
    gate's own step.  On a breaker that is not OPEN the call hands the
    exception on and leaves every field as it was; on an OPEN breaker
    whose timeout has elapsed it leaves the breaker HALF_OPEN with the old
    [failure_count] and [last_failure_time], and from there every later
    call is let through, whatever the clock says. *)
Theorem X4_uncounted_exception b func w e w' :
  func w = (Raises e, w') ->
  expected_exception b e = false ->
  (state b <> OPEN -> call b func w = (b, Raises e, w'))
  /\ (forall t, state b = OPEN -> last_failure_time b = Some t ->
       (inject_Z (recovery_timeout b) <= time w - t)%Q ->
       call b func w = (set_state b HALF_OPEN, Raises e, w')
       /\ forall w0, admission (set_state b HALF_OPEN) w0
                     = inr (set_state b HALF_OPEN)).
Proof.
  intros Hf He. split.
  - intros Hs. unfold call, admission.
    apply CircuitState_eqb_neq in Hs as ->.
    unfold guarded_run. by rewrite Hf, He.
  - intros t Hs Ht Hle. split; [|done].
    unfold call, admission. rewrite Hs; simpl.
    rewrite (should_attempt_reset_elapsed b w t Ht Hle).
    unfold guarded_run. rewrite Hf. simpl. by rewrite He.
Qed.

Lemma critical_sublist_open (m : CircuitBreakerManager) w :
  sublist (get_critical_circuits m w) (get_open_circuits m).
Proof.
  unfold get_critical_circuits, get_open_circuits, CircuitBreakerManager in *.
  induction m as [|[k b] m IH]; [done|].
  rewrite !filter_cons; simpl.
  destruct (CircuitState_eqb (state b) OPEN) eqn:Hs; simpl.
  - case_decide; simpl; [by apply sublist_skip|by apply sublist_cons].
  - exact IH.
Qed.

Lemma open_sublist_names (m : CircuitBreakerManager) :
  sublist (get_open_circuits m) (map fst m).
Proof.
  unfold get_open_circuits, CircuitBreakerManager in *.
  induction m as [|[k b] m IH]; [done|].
  rewrite filter_cons. case_decide; simpl;
    [by apply sublist_skip|by apply sublist_cons].
Qed.

(** X5: [get_critical_circuits] lists, in registration order, some of the
    names [get_open_circuits] lists, and those some of the registered
    names.  A name it lists belongs to a breaker that is OPEN, has a
    non-zero [last_failure_time], and failed more than twice its
    [recovery_timeout] ago; if that timeout is not negative, the gate
    would let the next call to that breaker through as a trial. *)
Theorem X5_critical_circuits (m : CircuitBreakerManager) w :
  sublist (get_critical_circuits m w) (get_open_circuits m)
  /\ sublist (get_open_circuits m) (map fst m)
  /\ forall nm, nm ∈ get_critical_circuits m w ->
       exists b t,
         (nm, b) ∈ m /\ state b = OPEN
         /\ last_failure_time b = Some t /\ ~ (t == 0)%Q
         /\ (inject_Z (recovery_timeout b * 2) < time w - t)%Q
         /\ (0 <= recovery_timeout b ->
             admission b w = inr (set_state b HALF_OPEN)).
Proof.
  split; [apply critical_sublist_open|]. split; [apply open_sublist_names|].
  intros nm. unfold get_critical_circuits, CircuitBreakerManager in *.
  induction m as [|[k b] m IH]; [by intros ?%elem_of_nil|].
  rewrite filter_cons. simpl. case_decide as Hp; simpl.
  - intros [->|Hin]%elem_of_cons.
    + apply andb_true_iff in Hp as [Hp Hlate].
      apply andb_true_iff in Hp as [Hs Htr].
      apply CircuitState_eqb_eq in Hs.
      destruct (last_failure_time b) as [t|] eqn:Ht; [|done].
      simpl in Htr. apply negb_true_iff in Htr. apply Qeq_bool_neq in Htr.
      apply negb_true_iff in Hlate.
      assert (Hlt : (inject_Z (recovery_timeout b * 2) < time w - t)%Q).
      { apply Qnot_le_lt. intros Hle. apply Qle_bool_iff in Hle. congruence. }
      exists b, t. split; [by left|]. repeat split; try done.
      intros Hto. unfold admission. rewrite Hs; simpl.
      rewrite (should_attempt_reset_elapsed b w t Ht); [done|].
      apply Qlt_le_weak. eapply Qle_lt_trans; [|exact Hlt].
      unfold Qle; simpl. lia.
    + destruct (IH Hin) as (b' & t & Hm & Hrest).
      exists b', t. split; [by right|done].
  - intros Hin. destruct (IH Hin) as (b' & t & Hm & Hrest).
    exists b', t. split; [by right|done].
Qed.

Lemma register_breaker_names (m : CircuitBreakerManager) nm b :
  map fst (register_breaker m nm b)
  = if bool_decide (nm ∈ map fst m) then map fst m else map fst m ++ [nm].
Proof.
  induction m as [|[k b'] m IH]; simpl; [done|].
  destruct (String.eqb k nm) eqn:Hk; simpl.
  - apply String.eqb_eq in Hk as ->.
    rewrite bool_decide_true by (by left). done.
  - apply String.eqb_neq in Hk. rewrite IH.
    destruct (bool_decide (nm ∈ map fst m)) eqn:Hin.
    + apply bool_decide_eq_true in Hin.
      rewrite bool_decide_true by (by right). done.
    + apply bool_decide_eq_false in Hin.
      rewrite bool_decide_false; [done|].
      intros [?|?]%elem_of_cons; congruence.
Qed.

Lemma register_breaker_elem (m : CircuitBreakerManager) nm b k b' :
  NoDup (map fst m) ->
  (k, b') ∈ register_breaker m nm b <->
  (k = nm /\ b' = b) \/ (k <> nm /\ (k, b') ∈ m).
Proof.
  induction m as [|[k0 b0] m IH]; simpl; intros Hnd.
  - rewrite list_elem_of_singleton. split.
    + intros [= -> ->]. by left.
    + intros [[-> ->]|[_ ?%elem_of_nil]]; done.
  - apply NoDup_cons in Hnd as [Hk0 Hnd].
    destruct (String.eqb k0 nm) eqn:Hk; simpl.
    + apply String.eqb_eq in Hk as ->. rewrite !elem_of_cons. split.
      * intros [[= -> ->]|Hin]; [by left|].
        right. split; [|by right]. intros ->. apply Hk0.
        apply list_elem_of_fmap. by exists (nm, b').
      * intros [[-> ->]|[Hne [[= ? ?]|Hin]]]; [by left|done|by right].
    + apply String.eqb_neq in Hk. rewrite !elem_of_cons, (IH Hnd). split.
      * intros [[= -> ->]|[[-> ->]|[Hne Hin]]];
          [right; split; [done|by left]|by left|right; split; [done|by right]].
      * intros [[-> ->]|[Hne [[= -> ->]|Hin]]];
          [right; by left|by left|right; right; by split].
Qed.

(** X6: registering a breaker under a name makes it the one breaker the
    manager holds under that name -- a breaker registered there before is
    dropped -- and leaves every other entry as it was; names stay unique,
    a new name goes to the end, and [get_all_states] then shows the
    breaker's [get_state] under the name. *)
Theorem X6_register_breaker (m : CircuitBreakerManager) nm b :
  NoDup (map fst m) ->
  NoDup (map fst (register_breaker m nm b))
  /\ (forall k b', (k, b') ∈ register_breaker m nm b <->
        (k = nm /\ b' = b) \/ (k <> nm /\ (k, b') ∈ m))
  /\ map fst (register_breaker m nm b)
     = (if bool_decide (nm ∈ map fst m) then map fst m else map fst m ++ [nm])
  /\ (nm, get_state b) ∈ get_all_states (register_breaker m nm b).
Proof.
  intros Hnd. split; [|split; [|split]].
  - rewrite register_breaker_names. case_bool_decide as Hin; [done|].
    apply NoDup_app. split; [done|]. split; [|apply NoDup_singleton].
    intros x Hx ->%list_elem_of_singleton. done.
  - intros k b'. by apply register_breaker_elem.
  - apply register_breaker_names.
  - unfold get_all_states.
    change (nm, get_state b)
      with ((fun kb : string * CircuitBreaker => (kb.1, get_state kb.2)) (nm, b)).
    apply (list_elem_of_fmap_2 (fun kb : string * CircuitBreaker =>
                                  (kb.1, get_state kb.2))).
    apply register_breaker_elem; [done|]. by left.
Qed.

(** X7: [execute_query] and [call_service] never raise
    [CircuitBreakerError].  When the breaker turns the call away they
    return the fallback dict, with the breaker and the world as before
    (the guarded function did not run); an exception of another class
    raised by the guarded function is handed on; and a
    [CircuitBreakerError] raised by the guarded function itself is
    answered with the fallback too. *)
Theorem X7_fallback_wrappers b func w service_name :
  (forall msg,
     snd (fst (execute_query b func w)) <> Raises (CircuitBreakerError msg)
     /\ snd (fst (call_service service_name b func w))
        <> Raises (CircuitBreakerError msg))
  /\ (forall t, state b = OPEN -> last_failure_time b = Some t ->
       (time w - t < inject_Z (recovery_timeout b))%Q ->
       execute_query b func w
       = (b, Returns (FallbackAnswer _get_fallback_data), w)
       /\ call_service service_name b func w
          = (b, Returns (FallbackAnswer (_get_service_fallback service_name)), w))
  /\ (forall b1 e w', admission b w = inr b1 -> func w = (Raises e, w') ->
       snd (fst (execute_query b func w))
       = (if is_CircuitBreakerError e
          then Returns (FallbackAnswer _get_fallback_data) else Raises e)
       /\ snd (fst (call_service service_name b func w))
          = (if is_CircuitBreakerError e
             then Returns (FallbackAnswer (_get_service_fallback service_name))
             else Raises e)).
Proof.
  split; [|split].
  - intros msg. unfold execute_query, call_service.
    destruct (call b func w) as [[b' [v|e]] w']; simpl; [done|].
    destruct e; simpl; done.
  - intros t Hs Ht Hlt. unfold execute_query, call_service.
    by rewrite (call_rejected b func w t Hs Ht Hlt).
  - intros b1 e w' Ha Hf. unfold execute_query, call_service, call.
    rewrite Ha. unfold guarded_run. rewrite Hf.
    destruct (expected_exception b1 e); simpl;
      destruct (is_CircuitBreakerError e); done.
Qed.
End CircuitBreaker_more.

(* ===================================================================== *)
(** * More properties of the recorder and of the calculators              *)
(* ===================================================================== *)

Section Recorder_more.
Implicit Types (store : metrics_store) (history : list request) (t : datetime).

Lemma recorded_inv found status_code response_time :
  (forall m, found = Some m ->
     total_requests m = successful_requests m + errors m
     /\ 0 <= successful_requests m /\ 0 <= errors m
     /\ Z.of_nat (length (response_times m)) = total_requests m) ->
  let m' := recorded found status_code response_time in
  total_requests m' = successful_requests m' + errors m'
  /\ 0 <= successful_requests m' /\ 0 <= errors m'
  /\ Z.of_nat (length (response_times m')) = total_requests m'.
Proof.
  intros Hf. unfold recorded.
  destruct found as [m|]; simpl.
  - destruct (Hf m eq_refl) as (Ht & Hs & He & Hl).
    rewrite length_app; simpl.
    destruct ((200 <=? status_code) && (status_code <? 400)); lia.
  - destruct ((200 <=? status_code) && (status_code <? 400)); simpl; lia.
Qed.

Lemma record_request_inv store endpoint status_code response_time timestamp utcnow :
  store_inv store ->
  store_inv (record_request store endpoint status_code response_time
               timestamp utcnow).
Proof.
  intros Hinv k m. rewrite record_request_lookup. case_decide as Hk.
  - intros [= <-]. apply recorded_inv. intros m0 Hm0. by eapply Hinv.
  - apply Hinv.
Qed.

Lemma replay_inv store history :
  store_inv store -> store_inv (replay store history).
Proof.
  revert store.
  induction history as [|r history IH]; intros store Hinv; simpl; [done|].
  apply IH. by apply record_request_inv.
Qed.

Lemma SLICalculator_init_inv : store_inv SLICalculator_init.
Proof. intros k m. unfold SLICalculator_init. by rewrite lookup_empty. Qed.

(** X8: the bucket invariant.  It holds of the empty store and every call
    of [record_request] keeps it: in every bucket
    [total_requests = successful_requests + errors], neither count is
    negative, and [response_times] has one entry per request. *)
Theorem X8_bucket_invariant :
  store_inv SLICalculator_init
  /\ forall store history, store_inv store -> store_inv (replay store history).
Proof. split; [apply SLICalculator_init_inv|apply replay_inv]. Qed.

(** The bucket a run of requests leaves, from the bucket found. *)
Lemma recorded_run found (hits : list request) :
  foldl (fun f r => Some (recorded f (req_status_code r) (req_response_time r)))
        found hits
  = match hits with
    | [] => found
    | _ =>
        let m := default (mkMetrics 0 0 [] 0) found in
        Some (mkMetrics
                (total_requests m + Z.of_nat (length hits))
                (successful_requests m
                 + Z.of_nat (length (List.filter
                                       (fun r => is_success (req_status_code r))
                                       hits)))
                (response_times m ++ map req_response_time hits)
                (errors m
                 + Z.of_nat (length (List.filter
                                       (fun r => negb (is_success (req_status_code r)))
                                       hits))))
    end.
Proof.
  revert found. induction hits as [|r hits IH]; intros found; [done|].
  cbn [foldl]. rewrite IH. unfold recorded, is_success.
  destruct hits as [|r' hits]; destruct found as [m|]; simpl;
    destruct ((200 <=? req_status_code r) && (req_status_code r <? 400));
    simpl; f_equal; f_equal; try lia; try (by rewrite <- app_assoc).
Qed.

Lemma replay_lookup store history k :
  replay store history !! k
  = foldl (fun f r => Some (recorded f (req_status_code r) (req_response_time r)))
          (store !! k) (filter (fun r => request_key r = k) history).
Proof.
  revert store. induction history as [|r history IH]; intros store; [done|].
  cbn [replay foldl]. fold (replay (record_request store (req_endpoint r)
    (req_status_code r) (req_response_time r) (req_timestamp r) (req_utcnow r))
    history).
  rewrite IH, record_request_lookup, filter_cons.
  unfold request_key at 2. case_decide as Hk.
  - rewrite decide_True by done. cbn [foldl]. by rewrite Hk.
  - rewrite decide_False by done. done.
Qed.

Lemma replay_empty_lookup history k :
  replay SLICalculator_init history !! k
  = bucket_of (filter (fun r => request_key r = k) history).
Proof.
  rewrite replay_lookup, recorded_run. unfold SLICalculator_init.
  rewrite lookup_empty. unfold bucket_of.
  destruct (filter _ history); [done|]. simpl. by rewrite !Z.add_0_l.
Qed.

(** X9: played on the empty store, a history leaves under each key the
    bucket of exactly the calls filed under that key: their number, the
    number answered with a status in [200, 400), their response times in
    the order recorded, and the number of the others; and no bucket under
    a key no call was filed under.  On any store, the bucket under a key
    is the bucket found there with the calls filed under the key added in
    order. *)
Theorem X9_replay_buckets store history k :
  replay SLICalculator_init history !! k
  = bucket_of (filter (fun r => request_key r = k) history)
  /\ replay store history !! k
     = foldl (fun f r => Some (recorded f (req_status_code r)
                                 (req_response_time r)))
             (store !! k) (filter (fun r => request_key r = k) history).
Proof. split; [apply replay_empty_lookup|apply replay_lookup]. Qed.

Lemma window_buckets_in_store store start_time end_time m :
  m ∈ window_buckets store start_time end_time -> exists k, store !! k = Some m.
Proof.
  unfold window_buckets. intros (t0 & _ & Ht)%list_elem_of_omap. by eexists.
Qed.

Lemma Zsum_counts (l : list Metrics) :
  (forall m, m ∈ l ->
     total_requests m = successful_requests m + errors m
     /\ 0 <= successful_requests m /\ 0 <= errors m) ->
  Zsum (total_requests <$> l)
  = Zsum (successful_requests <$> l) + Zsum (errors <$> l)
  /\ 0 <= Zsum (successful_requests <$> l)
  /\ 0 <= Zsum (errors <$> l).
Proof.
  induction l as [|m l IH]; intros Hl; [unfold Zsum; simpl; lia|].
  destruct (Hl m) as (Ht & Hs & He); [by left|].
  destruct IH as (IHt & IHs & IHe); [intros m' Hm'; apply Hl; by right|].
  unfold Zsum in *. rewrite !fmap_cons. cbn [foldr]. lia.
Qed.

(** A ratio of counts, as a percentage, lies between 0 and 100. *)
Lemma percentage_bounds (part whole : Z) :
  0 <= part <= whole -> 0 < whole ->
  (0 <= inject_Z part / inject_Z whole * 100 <= 100)%Q.
Proof.
  intros Hp Hw. destruct whole as [|p|p]; try lia.
  unfold Qle, Qdiv, Qmult, Qinv, inject_Z; simpl. lia.
Qed.

Lemma sli_counts_agree store start_time end_time :
  store_inv store ->
  calculate_availability_sli store start_time end_time
  = calculate_error_rate_sli store start_time end_time
  /\ (0 <= calculate_availability_sli store start_time end_time <= 100)%Q.
Proof.
  intros Hinv.
  rewrite calculate_availability_sli_sums, calculate_error_rate_sli_sums.
  cbv zeta.
  destruct (Zsum_counts (window_buckets store start_time end_time))
    as (Ht & Hs & He).
  { intros m (k & Hk)%window_buckets_in_store.
    destruct (Hinv k m Hk) as (? & ? & ? & _). done. }
  set (total := Zsum (total_requests <$> window_buckets store start_time end_time)) in *.
  set (succ := Zsum (successful_requests <$> window_buckets store start_time end_time)) in *.
  set (errs := Zsum (errors <$> window_buckets store start_time end_time)) in *.
  replace (total - errs) with succ by lia.
  split; [done|].
  destruct (total =? 0) eqn:Hz; [split; by vm_compute|].
  apply Z.eqb_neq in Hz. apply percentage_bounds; lia.
Qed.

(** X10: on a store that keeps the bucket invariant -- so on every store
    built by [record_request] from the empty one -- the availability SLI
    and the error-rate SLI are the same number over every window, and it
    lies between 0 and 100. *)
Theorem X10_availability_is_error_rate store start_time end_time :
  store_inv store ->
  calculate_availability_sli store start_time end_time
  = calculate_error_rate_sli store start_time end_time
  /\ (0 <= calculate_availability_sli store start_time end_time <= 100)%Q.
Proof. apply sli_counts_agree. Qed.

Lemma threshold_compliance_bounds (times : list Q) :
  (0 <= threshold_compliance times <= 100)%Q.
Proof.
  unfold threshold_compliance. destruct times as [|t0 times];
    [split; by vm_compute|].
  apply percentage_bounds; [|simpl; lia].
  split; [lia|]. apply inj_le. apply length_filter.
Qed.

(** X11: whenever the latency SLI is returned it lies between 0 and 100.
    It fails only on a window that holds samples, and in three ways,
    told by the product [(percentile / 100) * len] as the double the
    source computes: with [ValueError] when the product is a NaN, with
    [OverflowError] when it is an infinity, and with [IndexError] when it
    is finite and its integer part is below [-len]; never with
    [KeyError].  For a percentile that is a zero or a positive double
    below [2^903] -- from 0 to 100, say -- it does not fail. *)
Theorem X11_latency_sli_range store start_time end_time percentile :
  let times := all_response_times store start_time end_time in
  let n := Z.of_nat (length times) in
  let product := float_mul (float_div percentile (float_of_Z 100))
                           (float_of_Z (Z.min n sys_maxsize)) in
  (forall v, calculate_latency_sli store start_time end_time percentile = Ok v ->
     (0 <= v <= 100)%Q)
  /\ (forall err,
        calculate_latency_sli store start_time end_time percentile = Err err ->
        times <> []
        /\ match product with
           | SpecFloat.S754_nan => err = ValueError
           | SpecFloat.S754_infinity _ => err = OverflowError
           | _ => err = IndexError
                  /\ exists index, int product = Ok index /\ index < - n
           end)
  /\ (ordinary_percentile percentile = true ->
      exists v, calculate_latency_sli store start_time end_time percentile
                = Ok v).
Proof.
  intros times n product. split; [|split].
  - intros v. rewrite calculate_latency_sli_cases. cbv zeta. fold times n.
    case_bool_decide as Hnil; [intros [= <-]; split; by vm_compute|].
    destruct (percentile_index percentile n) as [index|e]; [|done].
    destruct (index <? - n); [done|]. intros [= <-].
    apply threshold_compliance_bounds.
  - intros err. rewrite calculate_latency_sli_cases. cbv zeta. fold times n.
    case_bool_decide as Hnil; [done|]. intros Herr. split; [done|].
    unfold percentile_index in Herr. fold product in Herr.
    destruct product as [s0| | |s0 m e]; simpl in Herr |- *.
    + destruct (0 <? - n) eqn:Hidx; [|done]. injection Herr as <-.
      split; [done|]. exists 0. split; [done|]. by apply Z.ltb_lt.
    + by injection Herr as <-.
    + by injection Herr as <-.
    + destruct (_ <? - n) eqn:Hidx; [|done]. injection Herr as <-.
      split; [done|]. eexists. split; [done|]. by apply Z.ltb_lt.
  - intros Hp. rewrite calculate_latency_sli_served by done. by eexists.
Qed.
End Recorder_more.

Section Window_more.
Implicit Types (store : metrics_store) (history : list request) (t : datetime).

Lemma hourly_points n (current_time end_time : datetime) :
  (n <> 0%nat -> Z.of_nat n <= (end_time - current_time) / timedelta 0 1 + 1) ->
  hourly n current_time end_time
  = map (fun i => current_time + Z.of_nat i * timedelta 0 1) (seq 0 n).
Proof.
  change (timedelta 0 1) with 3600000000.
  revert current_time. induction n as [|n IH]; intros cur Hn; [done|].
  specialize (Hn ltac:(done)).
  cbn [hourly seq map].
  assert (Hle : cur <= end_time).
  { destruct (Z.le_gt_cases cur end_time) as [|Hgt]; [done|].
    assert ((end_time - cur) / 3600000000 < 0)
      by (apply Z.div_lt_upper_bound; lia).
    lia. }
  apply Z.leb_le in Hle as ->. f_equal; [lia|].
  change (timedelta 0 1) with 3600000000.
  rewrite IH.
  - rewrite <- seq_shift, map_map. apply map_ext. intros i. lia.
  - intros _. replace (end_time - (cur + 3600000000))
      with (end_time - cur + (-1) * 3600000000) by lia.
    rewrite Z.div_add by done. lia.
Qed.

(** X12: the instants at which the calculators look for a bucket are
    [start_time], [start_time + 1h], ... up to the last one that is not
    after [end_time]: none when [start_time > end_time], and otherwise
    [(end_time - start_time) / 1h + 1] of them, one in each hour from the
    hour of [start_time] on.  The hour of [end_time] is among the hours
    looked at exactly when [end_time] is at least as far into its hour as
    [start_time] is into its own; if not, the last hour of the window is
    left out. *)
Theorem X12_window_hours (start_time end_time : datetime) :
  window start_time end_time
  = map (fun i => start_time + Z.of_nat i * timedelta 0 1)
        (seq 0 (window_bound start_time end_time))
  /\ (end_time < start_time -> window start_time end_time = [])
  /\ (start_time <= end_time ->
      Z.of_nat (length (window start_time end_time))
      = (end_time - start_time) / timedelta 0 1 + 1
      /\ (forall i t, window start_time end_time !! i = Some t ->
            t / timedelta 0 1 = start_time / timedelta 0 1 + Z.of_nat i)
      /\ (Exists (fun t => t / timedelta 0 1 = end_time / timedelta 0 1)
                 (window start_time end_time)
          <-> start_time mod timedelta 0 1 <= end_time mod timedelta 0 1)).
Proof.
  assert (Hpts : window start_time end_time
                 = map (fun i => start_time + Z.of_nat i * timedelta 0 1)
                       (seq 0 (window_bound start_time end_time))).
  { apply hourly_points. unfold window_bound. lia. }
  split; [exact Hpts|]. split.
  - intros Hlt. rewrite Hpts. unfold window_bound.
    change (timedelta 0 1) with 3600000000.
    assert ((end_time - start_time) / 3600000000 < 0)
      by (apply Z.div_lt_upper_bound; lia).
    by replace (Z.to_nat _) with 0%nat by lia.
  - intros Hle.
    assert (Hk : 0 <= (end_time - start_time) / timedelta 0 1)
      by (apply Z.div_pos; [lia|done]).
    assert (Hlen : Z.of_nat (window_bound start_time end_time)
                   = (end_time - start_time) / timedelta 0 1 + 1)
      by (unfold window_bound; lia).
    split; [|split].
    + rewrite Hpts, length_map, length_seq. exact Hlen.
    + intros i t. rewrite Hpts. change (map ?f ?l) with (f <$> l).
      rewrite list_lookup_fmap. intros Hi.
      destruct (seq 0 (window_bound start_time end_time) !! i) as [j|] eqn:Hj;
        [|done].
      apply lookup_seq in Hj as [-> _]. simpl in Hi. injection Hi as <-.
      by rewrite Z.div_add.
    + rewrite Exists_exists, Hpts. change (map ?f ?l) with (f <$> l).
      revert Hk Hlen. change (timedelta 0 1) with 3600000000. intros Hk Hlen.
      split.
      * intros (t & (i & -> & Hi)%list_elem_of_fmap & Ht).
        apply elem_of_seq in Hi. rewrite Z.div_add in Ht by done.
        Z.div_mod_to_equations. lia.
      * intros Hmod.
        exists (start_time
                + Z.of_nat (Z.to_nat ((end_time - start_time) / 3600000000))
                  * 3600000000).
        split.
        -- apply list_elem_of_fmap. eexists. split; [done|].
           apply elem_of_seq. lia.
        -- rewrite Z.div_add by done. rewrite Z2Nat.id by done.
           Z.div_mod_to_equations. lia.
Qed.

Lemma window_instant t : window t t = [t].
Proof.
  unfold window, window_bound. rewrite Z.sub_diag. simpl.
  by rewrite Z.leb_refl.
Qed.

(** X13: over the window [t, t] the three SLIs of a store played from the
    empty one are those of exactly the requests filed under the key
    [bucket_key "all" t], the bucket of "all" for the hour of [t]: with
    none, all three are 100; otherwise availability and error rate are
    the share of these requests with a status in [200, 400), and the
    latency SLI is the share of them with a response time below [0.2]
    whenever the percentile lookup on these samples does not raise -- so
    for every percentile that is a zero or a positive double below
    [2^903], the percentiles from 0 to 100 among them. *)
Theorem X13_one_hour_slis history t percentile :
  let store := replay SLICalculator_init history in
  let hits := filter (fun r => request_key r = bucket_key "all" t) history in
  let share :=
    (inject_Z (Z.of_nat (length (List.filter
                                   (fun r => is_success (req_status_code r)) hits)))
     / inject_Z (Z.of_nat (length hits)) * 100)%Q in
  calculate_availability_sli store t t
  = (if bool_decide (hits = []) then 100%Q else share)
  /\ calculate_error_rate_sli store t t
     = (if bool_decide (hits = []) then 100%Q else share)
  /\ calculate_latency_sli store t t percentile
     = (if bool_decide (hits = []) then Ok 100%Q
        else match percentile_index percentile (Z.of_nat (length hits)) with
             | Err e => Err e
             | Ok index =>
                 if index <? - Z.of_nat (length hits) then Err IndexError
                 else Ok (threshold_compliance (map req_response_time hits))
             end)
  /\ (ordinary_percentile percentile = true ->
      calculate_latency_sli store t t percentile
      = Ok (threshold_compliance (map req_response_time hits))).
Proof.
  intros store hits share.
  assert (Hinv : store_inv store).
  { apply replay_inv, SLICalculator_init_inv. }
  assert (Hwb : window_buckets store t t = option_list (bucket_of hits)).
  { unfold window_buckets. rewrite window_instant. simpl.
    subst store hits. rewrite replay_empty_lookup.
    by destruct (bucket_of _). }
  assert (Hav : calculate_availability_sli store t t
                = (if bool_decide (hits = []) then 100%Q else share)).
  { rewrite calculate_availability_sli_sums. cbv zeta. rewrite Hwb.
    unfold bucket_of. subst share. destruct hits as [|r0 hits0]; [done|].
    rewrite bool_decide_false by done.
    unfold option_list, Zsum. simpl. by rewrite !Z.add_0_r. }
  assert (Htimes : all_response_times store t t = map req_response_time hits).
  { rewrite all_response_times_concat, Hwb. unfold bucket_of.
    destruct hits as [|r0 hits0]; [done|]. simpl. by rewrite app_nil_r. }
  split; [exact Hav|]. split; [|split].
  - destruct (sli_counts_agree store t t Hinv) as [<- _]. exact Hav.
  - rewrite calculate_latency_sli_cases. cbv zeta. rewrite Htimes, length_map.
    by destruct hits.
  - intros Hp. rewrite calculate_latency_sli_served by done. by rewrite Htimes.
Qed.
End Window_more.

(* ===================================================================== *)
(** * More properties of the error budget and of SLO evaluation           *)
(* ===================================================================== *)

Section Budget_more.
Implicit Types (eb : ErrorBudget) (a : SREAlerting)
  (results : list (string * SLOResult)).

Lemma max0_nonneg (x : Q) : (0 <= max0 x)%Q.
Proof.
  destruct (Qlt_le_dec 0 x) as [Hx|Hx].
  - rewrite (max0_pos x Hx). by apply Qlt_le_weak.
  - rewrite (max0_nonpos x Hx). apply Qle_refl.
Qed.

Lemma consume_budget_step eb v :
  let eb' := fst (consume_budget eb v) in
  slo eb' = slo eb /\ budget_total eb' = budget_total eb
  /\ (budget_consumed eb <= budget_consumed eb')%Q
  /\ (get_budget_remaining eb' <= get_budget_remaining eb)%Q.
Proof.
  unfold consume_budget. destruct (Qlt_bool v (target (slo eb))) eqn:Hlt; simpl.
  - apply Qlt_bool_iff in Hlt. repeat split; try done.
    + lra.
    + unfold get_budget_remaining; simpl. apply max0_mono. lra.
  - repeat split; try done; apply Qle_refl.
Qed.

(** X14: through any run of [consume_budget] calls a budget keeps its SLO
    and its total, [budget_consumed] never falls, [get_budget_remaining]
    never rises and never goes below 0, and a budget that is critical
    (for any threshold) stays critical: nothing gives budget back. *)
Theorem X14_budget_only_shrinks eb sli_values threshold :
  let eb' := consume_all eb sli_values in
  slo eb' = slo eb /\ budget_total eb' = budget_total eb
  /\ (budget_consumed eb <= budget_consumed eb')%Q
  /\ (0 <= get_budget_remaining eb' <= get_budget_remaining eb)%Q
  /\ (is_budget_critical eb threshold = true ->
      is_budget_critical eb' threshold = true).
Proof.
  cbv zeta.
  assert (Hrun : slo (consume_all eb sli_values) = slo eb
                 /\ budget_total (consume_all eb sli_values) = budget_total eb
                 /\ (budget_consumed eb
                     <= budget_consumed (consume_all eb sli_values))%Q
                 /\ (get_budget_remaining (consume_all eb sli_values)
                     <= get_budget_remaining eb)%Q).
  { revert eb. induction sli_values as [|v vs IH]; intros eb.
    - repeat split; try done; apply Qle_refl.
    - unfold consume_all. cbn [foldl].
      fold (consume_all (fst (consume_budget eb v)) vs).
      destruct (IH (fst (consume_budget eb v))) as (Hs & Ht & Hc & Hr).
      destruct (consume_budget_step eb v) as (Hs1 & Ht1 & Hc1 & Hr1).
      repeat split; [congruence|congruence| |]; eapply Qle_trans; eauto. }
  destruct Hrun as (Hs & Ht & Hc & Hr).
  split; [done|]. split; [done|]. split; [done|].
  split; [split; [apply max0_nonneg|done]|].
  unfold is_budget_critical. rewrite !Qlt_bool_iff, Ht. intros Hcrit.
  eapply Qle_lt_trans; eauto.
Qed.
End Budget_more.

Section Evaluation_more.
Implicit Types (a : SREAlerting) (results : list (string * SLOResult)).

Lemma sli_for_known store name slo start_time end_time :
  (name, slo) ∈ SLO_DEFINITIONS ->
  exists v, sli_for store name start_time end_time = Ok (Some v).
Proof.
  intros Hin. unfold sli_for, SLO_DEFINITIONS in *.
  repeat (apply elem_of_cons in Hin as [[= -> ->]|Hin]; simpl;
          [try by eexists|]).
  - rewrite calculate_latency_sli_served by done. by eexists.
  - by apply elem_of_nil in Hin.
Qed.

Lemma evaluate_slo_known start_time end_time a results name slo a' results' :
  (name, slo) ∈ SLO_DEFINITIONS ->
  evaluate_slo start_time end_time (a, results) (name, slo) = Ok (a', results') ->
  exists v eb,
    sli_for (sli_calculator a) name start_time end_time = Ok (Some v)
    /\ error_budgets a !! name = Some eb
    /\ a' = mkSREAlerting (sli_calculator a)
              (<[name := fst (consume_budget eb v)]> (error_budgets a))
    /\ results' = results ++ [(name, slo_result_of slo eb v)].
Proof.
  intros Hin. destruct (sli_for_known (sli_calculator a) name slo
                          start_time end_time Hin) as [v Hv].
  unfold evaluate_slo. rewrite Hv. simpl.
  destruct (error_budgets a !! name) as [eb|] eqn:Heb; [|done].
  unfold slo_result_of.
  destruct (consume_budget eb v) as [eb' consumed] eqn:Hcb. simpl.
  intros [= <- <-]. exists v, eb. by rewrite Hcb.
Qed.

Lemma foldl_evaluate_err start_time end_time defs e :
  foldl (fun acc entry => acc ← acc; evaluate_slo start_time end_time acc entry)
        (Err e) defs = Err e.
Proof. induction defs as [|d defs IH]; [done|]. cbn [foldl]. exact IH. Qed.

(** The loop of [evaluate_slos] over any part of [SLO_DEFINITIONS]. *)
Lemma evaluate_fold start_time end_time defs :
  NoDup (defs.*1) -> defs ⊆ SLO_DEFINITIONS ->
  forall a results a' results',
    foldl (fun acc entry => acc ← acc; evaluate_slo start_time end_time acc entry)
          (Ok (a, results)) defs = Ok (a', results') ->
    sli_calculator a' = sli_calculator a
    /\ (forall name, name ∉ defs.*1 ->
          error_budgets a' !! name = error_budgets a !! name)
    /\ exists new,
         results' = results ++ new /\ new.*1 = defs.*1
         /\ forall name r, (name, r) ∈ new ->
              exists slo eb v,
                (name, slo) ∈ SLO_DEFINITIONS
                /\ sli_for (sli_calculator a) name start_time end_time
                   = Ok (Some v)
                /\ error_budgets a !! name = Some eb
                /\ error_budgets a' !! name = Some (fst (consume_budget eb v))
                /\ r = slo_result_of slo eb v.
Proof.
  induction defs as [|[name slo] defs IH]; intros Hnd Hsub a results a' results'.
  - simpl. intros [= <- <-]. split; [done|]. split; [done|].
    exists []. rewrite app_nil_r. split; [done|]. split; [done|].
    by intros ?? ?%elem_of_nil.
  - cbn [foldl mbind result_bind]. rewrite fmap_cons in Hnd.
    apply NoDup_cons in Hnd as [Hname Hnd]. cbn [fst] in Hname.
    assert (Hin : (name, slo) ∈ SLO_DEFINITIONS) by (apply Hsub; by left).
    assert (Hsub' : defs ⊆ SLO_DEFINITIONS)
      by (intros x Hx; apply Hsub; by right).
    destruct (evaluate_slo start_time end_time (a, results) (name, slo))
      as [[a1 results1]|e] eqn:Hstep;
      [|by rewrite foldl_evaluate_err].
    destruct (evaluate_slo_known _ _ _ _ _ _ _ _ Hin Hstep)
      as (v & eb & Hv & Heb & -> & ->).
    intros Hfold.
    destruct (IH Hnd Hsub' _ _ _ _ Hfold)
      as (Hcalc & Hother & new & -> & Hkeys & Hnew).
    simpl in Hcalc, Hother.
    split; [done|]. split.
    { intros n Hn. rewrite fmap_cons in Hn.
      apply not_elem_of_cons in Hn as [Hne Hn]. cbn [fst] in Hne.
      rewrite (Hother n Hn). by rewrite lookup_insert_ne. }
    exists ((name, slo_result_of slo eb v) :: new).
    split; [by rewrite <- app_assoc|]. split; [by rewrite fmap_cons, Hkeys|].
    intros n r [[= -> ->]|Hr]%elem_of_cons.
    + exists slo, eb, v. rewrite (Hother name Hname), lookup_insert_eq. done.
    + destruct (Hnew n r Hr) as (slo' & eb' & v' & Hin' & Hv' & Heb' & Heb'' & Hr').
      assert (Hne : name <> n).
      { intros ->. apply Hname. rewrite <- Hkeys.
        apply list_elem_of_fmap. by exists (n, r). }
      simpl in Hv', Heb'. rewrite lookup_insert_ne in Heb' by done.
      by exists slo', eb', v'.
Qed.

Lemma SLO_DEFINITIONS_NoDup : NoDup (SLO_DEFINITIONS.*1).
Proof. apply (bool_decide_unpack _). by vm_compute. Qed.

Lemma freshness_definition slo :
  ("freshness", slo) ∈ SLO_DEFINITIONS ->
  slo = mkSLODefinition "Data Freshness" "freshness_sli" (995 # 10) 7.
Proof.
  unfold SLO_DEFINITIONS. intros Hin.
  repeat (apply elem_of_cons in Hin as [Heq|Hin];
          [try discriminate Heq; try (by injection Heq)|]).
  by apply elem_of_nil in Hin.
Qed.

Lemma evaluate_slos_spec a start_time end_time a' results :
  evaluate_slos a start_time end_time = Ok (a', results) ->
  sli_calculator a' = sli_calculator a
  /\ (forall name, name ∉ SLO_DEFINITIONS.*1 ->
        error_budgets a' !! name = error_budgets a !! name)
  /\ results.*1 = SLO_DEFINITIONS.*1
  /\ forall name r, (name, r) ∈ results ->
       exists slo eb v,
         (name, slo) ∈ SLO_DEFINITIONS
         /\ sli_for (sli_calculator a) name start_time end_time = Ok (Some v)
         /\ error_budgets a !! name = Some eb
         /\ error_budgets a' !! name = Some (fst (consume_budget eb v))
         /\ r = slo_result_of slo eb v.
Proof.
  intros Hev.
  destruct (evaluate_fold start_time end_time SLO_DEFINITIONS
              SLO_DEFINITIONS_NoDup ltac:(done) _ _ _ _ Hev)
    as (Hc & Ho & new & -> & Hk & Hn).
  done.
Qed.

(** X16: when [evaluate_slos] returns, the recorded metrics are as they
    were; the results are those of the four SLOs of [SLO_DEFINITIONS], in
    that order; each result is made of the SLO's target, its SLI over the
    window, PASS exactly when the SLI is at least the target, and what
    [consume_budget] returned and left for that SLO's budget; each of
    these budgets has been charged once, and no other budget is
    touched. *)
Theorem X16_evaluate_slos a start_time end_time a' results :
  evaluate_slos a start_time end_time = Ok (a', results) ->
  sli_calculator a' = sli_calculator a
  /\ (forall name, name ∉ SLO_DEFINITIONS.*1 ->
        error_budgets a' !! name = error_budgets a !! name)
  /\ results.*1 = ["availability"; "latency_p95"; "error_rate"; "freshness"]
  /\ forall name r, (name, r) ∈ results ->
       exists slo eb v,
         (name, slo) ∈ SLO_DEFINITIONS
         /\ sli_for (sli_calculator a) name start_time end_time = Ok (Some v)
         /\ error_budgets a !! name = Some eb
         /\ error_budgets a' !! name = Some (fst (consume_budget eb v))
         /\ r = slo_result_of slo eb v
         /\ (status r = PASS <-> (target slo <= v)%Q).
Proof.
  intros Hev.
  destruct (evaluate_slos_spec _ _ _ _ _ Hev) as (Hc & Ho & Hk & Hr).
  split; [done|]. split; [done|]. split; [done|].
  intros name r Hin.
  destruct (Hr name r Hin) as (slo & eb & v & H1 & H2 & H3 & H4 & ->).
  exists slo, eb, v. repeat (split; [done|]).
  unfold slo_result_of; simpl.
  destruct (Qle_bool (target slo) v) eqn:Hle.
  - apply Qle_bool_iff in Hle. done.
  - split; [done|]. intros Hle'. apply Qle_bool_iff in Hle'. congruence.
Qed.

(** X17: with the budgets [__init__] makes (each under its own SLO's key),
    the freshness SLO never fails and never costs budget: its result is
    PASS with nothing consumed, its budget is as before, and the budgets
    are again each under their own SLO's key. *)
Theorem X17_freshness_never_fails a start_time end_time a' results :
  budgets_aligned a ->
  evaluate_slos a start_time end_time = Ok (a', results) ->
  budgets_aligned a'
  /\ error_budgets a' !! "freshness" = error_budgets a !! "freshness"
  /\ forall r, ("freshness", r) ∈ results ->
       status r = PASS /\ budget_consumed_now r = 0%Q
       /\ sli_value r = (995 # 10)%Q.
Proof.
  intros Hal Hev.
  destruct (evaluate_slos_spec _ _ _ _ _ Hev) as (Hc & Ho & Hk & Hr).
  assert (Hfresh : forall r, ("freshness", r) ∈ results ->
            exists eb, error_budgets a !! "freshness" = Some eb
                       /\ error_budgets a' !! "freshness" = Some eb
                       /\ r = slo_result_of
                                (mkSLODefinition "Data Freshness" "freshness_sli"
                                   (995 # 10) 7) eb (995 # 10)
                       /\ consume_budget eb (995 # 10) = (eb, 0%Q)).
  { intros r Hin.
    destruct (Hr _ r Hin) as (slo & eb & v & Hdef & Hv & Heb & Heb' & ->).
    injection Hv as <-.
    change (calculate_freshness_sli (sli_calculator a) start_time end_time)
      with (995 # 10)%Q in *.
    pose proof (freshness_definition _ (Hal _ _ Heb)) as Hslo.
    pose proof (freshness_definition _ Hdef) as ->.
    assert (Hcons : consume_budget eb (995 # 10) = (eb, 0%Q)).
    { unfold consume_budget. by rewrite Hslo. }
    exists eb. rewrite Hcons in Heb'. done. }
  split; [|split].
  - intros name eb' Heb'.
    destruct (decide (name ∈ SLO_DEFINITIONS.*1)) as [Hin|Hnin].
    + rewrite <- Hk in Hin. apply list_elem_of_fmap in Hin as ([n r] & -> & Hin).
      destruct (Hr _ r Hin) as (slo & eb & v & _ & _ & Heb & Heb2 & _).
      simpl in Heb'. rewrite Heb2 in Heb'. injection Heb' as <-.
      destruct (consume_budget_step eb v) as (-> & _). by apply Hal.
    + rewrite (Ho name Hnin) in Heb'. by apply Hal.
  - assert (Hin : "freshness" ∈ results.*1) by (rewrite Hk; set_solver).
    apply list_elem_of_fmap in Hin as ([n r] & Hn & Hin). simpl in Hn. subst n.
    destruct (Hfresh r Hin) as (eb & -> & -> & _). done.
  - intros r Hin. destruct (Hfresh r Hin) as (eb & _ & _ & -> & Hcons).
    unfold slo_result_of. rewrite Hcons. simpl. done.
Qed.

Lemma should_alert_length results :
  length (should_alert results)
  = (length (List.filter (fun nr => failed (snd nr)) results)
     + length (List.filter (fun nr => is_critical (snd nr)) results))%nat.
Proof.
  unfold should_alert. induction results as [|[name r] results IH]; [done|].
  cbn [flat_map List.filter snd]. rewrite length_app, length_app, IH.
  unfold failed. destruct (status r), (is_critical r); simpl; lia.
Qed.

Lemma recommendations_length results :
  (forall name r, (name, r) ∈ results -> name ∈ SLO_DEFINITIONS.*1) ->
  length (_get_recommendations results)
  = length (List.filter (fun nr => failed (snd nr)) results).
Proof.
  unfold _get_recommendations.
  induction results as [|[name r] results IH]; intros Hk; [done|].
  cbn [flat_map List.filter snd]. rewrite length_app, IH
    by (intros n r' Hin; apply (Hk n r'); by right).
  unfold failed. destruct (status r); [done|].
  assert (Hname : name ∈ SLO_DEFINITIONS.*1) by (apply (Hk name r); by left).
  simpl in Hname.
  repeat (apply elem_of_cons in Hname as [->|Hname]; [done|]).
  by apply elem_of_nil in Hname.
Qed.

(** X18: the parts of a dashboard agree with one another.  There is one
    alert per FAIL and one per critical budget, and one recommendation per
    FAIL; [overall_status] is "HEALTHY" exactly when there is no alert,
    and then there is no recommendation either; the timestamp is the clock
    reading and the window text is "30 days"; and the recorded metrics are
    not changed by looking at the dashboard. *)
Theorem X18_dashboard_is_consistent a utcnow a' d :
  get_dashboard_data a utcnow = Ok (a', d) ->
  (slos d).*1 = ["availability"; "latency_p95"; "error_rate"; "freshness"]
  /\ length (alerts d)
     = (length (List.filter (fun nr => failed (snd nr)) (slos d))
        + length (List.filter (fun nr => is_critical (snd nr)) (slos d)))%nat
  /\ length (recommendations d)
     = length (List.filter (fun nr => failed (snd nr)) (slos d))
  /\ (overall_status d = "HEALTHY" <-> alerts d = [])
  /\ (overall_status d = "HEALTHY" -> recommendations d = [])
  /\ dd_timestamp d = utcnow /\ dd_window d = "30 days"
  /\ sli_calculator a' = sli_calculator a.
Proof.
  unfold get_dashboard_data.
  destruct (evaluate_slos a (utcnow - timedelta 30 0) utcnow)
    as [[a1 results]|e] eqn:Hev; [|done].
  simpl. intros [= <- <-]. simpl.
  destruct (evaluate_slos_spec _ _ _ _ _ Hev) as (Hc & _ & Hk & _).
  assert (Hrec : length (_get_recommendations results)
                 = length (List.filter (fun nr => failed (snd nr)) results)).
  { apply recommendations_length. intros name r Hin. rewrite <- Hk.
    apply list_elem_of_fmap. by exists (name, r). }
  split; [done|]. split; [apply should_alert_length|]. split; [done|].
  pose proof (should_alert_length results) as Hal.
  split; [|split; [|done]].
  - destruct (should_alert results); split; done.
  - destruct (should_alert results) as [|al als] eqn:Hsa; [|done].
    intros _. simpl in Hal.
    destruct (_get_recommendations results); [done|]. simpl in Hrec. lia.
Qed.
End Evaluation_more.

(* ===================================================================== *)
(** * Properties of the health checks of sre/dashboard.py                 *)
(* ===================================================================== *)

Section Health_properties.
Context {W : Type} `{Clock W}.
Implicit Types (manager : CircuitBreakerManager) (w : W) (aws : AwsAnswers).

(** X19: in the dict of [_check_circuit_breakers] and in the summary of
    the [/sre/circuit-breakers] endpoint,
    [0 <= critical <= open <= total] and [total] is the number of
    registered breakers; the status is "HEALTHY" exactly when no breaker
    is open, "CRITICAL" exactly when some breaker is critical, and
    "DEGRADED" exactly when some breaker is open and none is critical. *)
Theorem X19_circuit_health manager w :
  let h := _check_circuit_breakers manager w in
  let s := circuit_breakers_status manager w in
  0 <= ch_critical_circuits h <= ch_open_circuits h
  /\ ch_open_circuits h <= ch_total_circuits h
  /\ ch_total_circuits h = Z.of_nat (length manager)
  /\ (ch_status h = "HEALTHY" <-> ch_open_circuits h = 0)
  /\ (ch_status h = "CRITICAL" <-> 0 < ch_critical_circuits h)
  /\ (ch_status h = "DEGRADED" <->
      ch_critical_circuits h = 0 /\ 0 < ch_open_circuits h)
  /\ cbs_total s = ch_total_circuits h /\ cbs_open s = ch_open_circuits h
  /\ cbs_critical s = ch_critical_circuits h
  /\ cbs_circuit_breakers s = ch_circuit_states h.
Proof.
  cbv zeta. unfold _check_circuit_breakers, circuit_breakers_status. simpl.
  pose proof (sublist_length _ _ (critical_sublist_open manager w)) as Hco.
  pose proof (sublist_length _ _ (open_sublist_names manager)) as Hon.
  rewrite length_map in Hon. unfold get_all_states. rewrite length_map.
  destruct (get_critical_circuits manager w) as [|c cs];
    destruct (get_open_circuits manager) as [|o os]; simpl in *;
    repeat split; try done; try lia.
Qed.

Lemma collect_alerts_nil (components : list (string * string)) :
  _collect_alerts components = []
  <-> ("CRITICAL" ∉ map snd components) /\ ("DEGRADED" ∉ map snd components).
Proof.
  unfold _collect_alerts. induction components as [|[c s] comps IH].
  - simpl. split; [|done]. intros _. split; by intros ?%elem_of_nil.
  - cbn [flat_map map snd]. rewrite !not_elem_of_cons.
    destruct (String.eqb s "CRITICAL") eqn:Hc.
    + apply String.eqb_eq in Hc as ->. split; [done|]. intros [[? _] _]. done.
    + apply String.eqb_neq in Hc.
      destruct (String.eqb s "DEGRADED") eqn:Hd.
      * apply String.eqb_eq in Hd as ->. split; [done|]. intros [_ [? _]]. done.
      * apply String.eqb_neq in Hd. simpl. rewrite IH.
        split; [intros [? ?]|intros [[_ ?] [_ ?]]]; repeat split; try done;
          by apply not_eq_sym.
Qed.

Lemma collect_alerts_critical (components : list (string * string)) :
  Exists (fun a => severity a = "CRITICAL") (_collect_alerts components)
  <-> "CRITICAL" ∈ map snd components.
Proof.
  unfold _collect_alerts. induction components as [|[c s] comps IH].
  - simpl. split; [by intros ?%Exists_nil|by intros ?%elem_of_nil].
  - cbn [flat_map map snd]. rewrite Exists_app, elem_of_cons, IH.
    destruct (String.eqb s "CRITICAL") eqn:Hc.
    + apply String.eqb_eq in Hc as ->. split; [by left|].
      intros _. left. by apply Exists_cons_hd.
    + apply String.eqb_neq in Hc.
      split.
      * intros [Hex|Hin]; [|by right].
        destruct (String.eqb s "DEGRADED");
          [apply Exists_cons in Hex as [Hsev|Hex%Exists_nil]; done
          |by apply Exists_nil in Hex].
      * intros [Heq|Hin]; [by symmetry in Heq|by right].
Qed.

Lemma collect_alerts_origin (components : list (string * string)) a :
  a ∈ _collect_alerts components ->
  exists s, (component a, s) ∈ components
            /\ ((s = "CRITICAL" /\ severity a = "CRITICAL")
                \/ (s = "DEGRADED" /\ severity a = "WARNING")).
Proof.
  unfold _collect_alerts. induction components as [|[c s] comps IH].
  - by intros ?%elem_of_nil.
  - cbn [flat_map]. rewrite elem_of_app. intros [Hhere|Hrest].
    + destruct (String.eqb s "CRITICAL") eqn:Hc.
      * apply String.eqb_eq in Hc as ->.
        apply list_elem_of_singleton in Hhere as ->. simpl.
        exists "CRITICAL". split; [by left|by left].
      * destruct (String.eqb s "DEGRADED") eqn:Hd;
          [|by apply elem_of_nil in Hhere].
        apply String.eqb_eq in Hd as ->.
        apply list_elem_of_singleton in Hhere as ->. simpl.
        exists "DEGRADED". split; [by left|by right].
    + destruct (IH Hrest) as (s' & Hin & Hs'). exists s'. split; [by right|done].
Qed.

(** X20: in the dict of [get_system_health] the overall status and the
    alerts agree: the status is "HEALTHY" exactly when there is no alert
    and "CRITICAL" exactly when some alert has severity CRITICAL; every
    alert comes from a component whose status is CRITICAL or DEGRADED and
    has severity CRITICAL or WARNING accordingly.  A check that failed
    (status "ERROR") raises no alert and does not lower the overall
    status: with every AWS call failing and no breaker open, the system is
    reported "HEALTHY" with no alert. *)
Theorem X20_system_health aws manager w :
  let h := get_system_health aws manager w in
  (sh_overall_status h = "HEALTHY" <-> sh_alerts h = [])
  /\ (sh_overall_status h = "CRITICAL"
      <-> Exists (fun a => severity a = "CRITICAL") (sh_alerts h))
  /\ (forall a, a ∈ sh_alerts h ->
        exists s, (component a, s) ∈ sh_components h
                  /\ ((s = "CRITICAL" /\ severity a = "CRITICAL")
                      \/ (s = "DEGRADED" /\ severity a = "WARNING")))
  /\ (ecs_services aws = None -> rds_instances aws = None ->
      alb_load_balancers aws = None -> get_open_circuits manager = [] ->
      sh_overall_status h = "HEALTHY" /\ sh_alerts h = []
      /\ map snd (sh_components h) = ["ERROR"; "ERROR"; "ERROR"; "HEALTHY"]).
Proof.
  cbv zeta. unfold get_system_health. cbn [sh_overall_status sh_alerts sh_components].
  set (components := [("ecs", _check_ecs_health aws);
                      ("rds", _check_rds_health aws);
                      ("alb", _check_alb_health aws);
                      ("circuit_breakers",
                       ch_status (_check_circuit_breakers manager w))]).
  split; [|split; [|split]].
  - rewrite collect_alerts_nil.
    repeat case_bool_decide; split; try done; intros [? ?]; done.
  - rewrite collect_alerts_critical.
    repeat case_bool_decide; split; try done.
  - intros a. apply collect_alerts_origin.
  - intros Hecs Hrds Halb Hopen.
    assert (Hcrit : get_critical_circuits manager w = []).
    { pose proof (critical_sublist_open manager w) as Hsub.
      rewrite Hopen in Hsub. by apply sublist_nil_r in Hsub. }
    subst components.
    unfold _check_ecs_health, _check_rds_health, _check_alb_health,
      _check_circuit_breakers.
    rewrite Hecs, Hrds, Halb, Hopen, Hcrit. by vm_compute.
Qed.

(** X21: the ECS check reports "CRITICAL" exactly when [runningCount] is
    0, whatever [desiredCount] is -- so also for a service scaled to zero
    on purpose -- and otherwise "DEGRADED" when fewer tasks run than are
    desired and "HEALTHY" if not; an empty list of services gives
    "ERROR".  The ALB check does the same with the healthy targets: with
    no target registered at all it reports "CRITICAL". *)
Theorem X21_nothing_running_is_critical aws :
  (forall service rest, ecs_services aws = Some (service :: rest) ->
     (_check_ecs_health aws = "CRITICAL" <-> runningCount service = 0)
     /\ (_check_ecs_health aws = "DEGRADED"
         <-> runningCount service <> 0
             /\ runningCount service < desiredCount service)
     /\ (_check_ecs_health aws = "HEALTHY"
         <-> runningCount service <> 0
             /\ desiredCount service <= runningCount service))
  /\ (ecs_services aws = Some [] -> _check_ecs_health aws = "ERROR")
  /\ (forall lb lbs tg tgs,
        alb_load_balancers aws = Some (lb :: lbs) ->
        alb_target_groups aws = Some (tg :: tgs) ->
        alb_target_health aws = Some [] ->
        _check_alb_health aws = "CRITICAL").
Proof.
  split; [|split].
  - intros service rest Hs. unfold _check_ecs_health. rewrite Hs.
    destruct (runningCount service =? 0) eqn:Hz;
      [apply Z.eqb_eq in Hz|apply Z.eqb_neq in Hz];
      destruct (runningCount service <? desiredCount service) eqn:Hlt;
      try (apply Z.ltb_lt in Hlt); try (apply Z.ltb_ge in Hlt);
      repeat split; try done; try lia; intros [? ?]; lia.
  - intros Hs. unfold _check_ecs_health. by rewrite Hs.
  - intros lb lbs tg tgs Hlb Htg Hth. unfold _check_alb_health.
    by rewrite Hlb, Htg, Hth.
Qed.

Lemma count_severities (l : list HealthAlert) :
  (forall a, a ∈ l -> severity a = "CRITICAL" \/ severity a = "WARNING") ->
  (length (List.filter (fun a => String.eqb (severity a) "CRITICAL") l)
   + length (List.filter (fun a => String.eqb (severity a) "WARNING") l))%nat
  = length l.
Proof.
  induction l as [|a l IH]; intros Hs; [done|].
  cbn [List.filter length].
  specialize (IH (fun a' Ha' => Hs a' (list_elem_of_further _ _ _ Ha'))).
  destruct (Hs a) as [-> | ->]; [by left| |]; simpl; lia.
Qed.

Lemma count_info (P : string) (l : list alert) :
  String.eqb "INFO" P = false ->
  List.filter (fun a => String.eqb (severity a) P)
    (map (fun a => mkHealthAlert "INFO" "SLO" (SLOMessage a)) l) = [].
Proof.
  intros HP. induction l as [|a l IH]; [done|].
  cbn [map List.filter severity]. by rewrite HP.
Qed.

(** X22: in the answer of the [/sre/alerts] endpoint the system's alerts
    come first and the dashboard's SLO alerts follow, each with severity
    INFO: an SLO violation or a critical error budget is never counted
    among [critical_alerts] or [warning_alerts], which together count the
    system's alerts only.  Answering the endpoint evaluates the dashboard,
    so it charges the error budgets like [get_dashboard_data]. *)
Theorem X22_sre_alerts aws manager w alerting utcnow alerting' p :
  sre_alerts aws manager w alerting utcnow = Ok (alerting', p) ->
  exists d,
    get_dashboard_data alerting utcnow = Ok (alerting', d)
    /\ ap_alerts p
       = sh_alerts (get_system_health aws manager w)
         ++ map (fun a => mkHealthAlert "INFO" "SLO" (SLOMessage a)) (alerts d)
    /\ ap_critical_alerts p + ap_warning_alerts p
       = Z.of_nat (length (sh_alerts (get_system_health aws manager w)))
    /\ ap_total_alerts p
       = ap_critical_alerts p + ap_warning_alerts p
         + Z.of_nat (length (alerts d)).
Proof.
  assert (Hsev : forall a, a ∈ sh_alerts (get_system_health aws manager w) ->
            severity a = "CRITICAL" \/ severity a = "WARNING").
  { intros a Ha. unfold get_system_health in Ha. cbn [sh_alerts] in Ha.
    destruct (collect_alerts_origin _ a Ha) as (s & _ & [[_ ?]|[_ ?]]); auto. }
  unfold sre_alerts.
  set (hs := sh_alerts (get_system_health aws manager w)) in *. clearbody hs.
  destruct (get_dashboard_data alerting utcnow) as [[a1 d]|e]; [|done].
  simpl. intros [= <- <-]. exists d. split; [done|]. simpl. split; [done|].
  rewrite !List.filter_app, !length_app, !count_info by done. simpl.
  rewrite length_map.
  pose proof (count_severities hs Hsev) as Hcount. lia.
Qed.
End Health_properties.

(* ===================================================================== *)
(** * Properties of the handlers of app.py                                *)
(* ===================================================================== *)

Section Handler_properties.
Context {W : Type} `{Clock W} `{Calendar W} `{Elapse W}.
Implicit Types (b : CircuitBreaker) (store : metrics_store) (w : W).

Lemma record_request_agree_other store endpoint status_code response_time
    timestamp now :
  endpoint <> "all" ->
  agree_all store
    (record_request store endpoint status_code response_time timestamp now).
Proof. intros Hne t. by rewrite record_request_other_scope. Qed.

(** X23: while the database breaker is OPEN and its timeout has not
    elapsed, [health_check] answers 200 with status "healthy" and database
    "connected": the query is not run, the breaker is unchanged, and the
    request is recorded as a success under "health".  And whatever the
    breaker and the query do, a health check changes no bucket of the
    scope "all", so no SLI. *)
Theorem X23_health_check_with_open_breaker {V : Type} b store
    (query : @callable W V) w t :
  state b = OPEN -> last_failure_time b = Some t ->
  (time w - t < inject_Z (recovery_timeout b))%Q ->
  let response_time := ((time (later w) - time w) * 1000)%Q in
  health_check b store query w
  = (b,
     record_request store "health" 200 response_time None (utcnow (later w)),
     Returns (mkResponse (HealthBody "healthy" "connected" None response_time)
                200),
     later w)
  /\ forall b0 (query0 : @callable W V) w0,
       agree_all store (snd (fst (fst (health_check b0 store query0 w0)))).
Proof.
  intros Hs Ht Hlt response_time. split.
  - unfold health_check, execute_query.
    by rewrite (call_rejected b query w t Hs Ht Hlt).
  - intros b0 query0 w0. unfold health_check.
    destruct (execute_query b0 query0 w0) as [[b1 [v|e]] w1]; simpl.
    + by apply record_request_agree_other.
    + by apply record_request_agree_other.
Qed.

(** X24: while the database breaker is OPEN and its timeout has not
    elapsed, [get_users] answers 500 "Failed to fetch users": the fallback
    dict it is handed is not a list of rows, so building the answer
    raises after the request has been recorded as a success, and the
    [except] block records it again as an error.  The one request is in
    the "api_users_get" bucket twice.  When the query is let through and
    returns rows, the answer is 200 with these rows and the request is
    recorded once. *)
Theorem X24_get_users b store (query : @callable W (list User)) w :
  (forall t, state b = OPEN -> last_failure_time b = Some t ->
     (time w - t < inject_Z (recovery_timeout b))%Q ->
     let w2 := later w in
     let w3 := later w2 in
     get_users b store query w
     = (b,
        record_request
          (record_request store "api_users_get" 200
             ((time w2 - time w) * 1000) None (utcnow w2))
          "api_users_get" 500 ((time w3 - time w) * 1000) None (utcnow w3),
        Returns (mkResponse (ErrorBody "Failed to fetch users") 500),
        w3))
  /\ (forall b1 rows w1,
        admission b w = inr b1 -> query w = (Returns rows, w1) ->
        let w2 := later w1 in
        get_users b store query w
        = (_on_success b1,
           record_request store "api_users_get" 200
             ((time w2 - time w) * 1000) None (utcnow w2),
           Returns (mkResponse (UsersBody rows) 200),
           w2)).
Proof.
  split.
  - intros t Hs Ht Hlt w2 w3. unfold get_users, execute_query.
    by rewrite (call_rejected b query w t Hs Ht Hlt).
  - intros b1 rows w1 Ha Hq w2. unfold get_users, execute_query, call.
    rewrite Ha. unfold guarded_run. by rewrite Hq.
Qed.
End Handler_properties.

(* ===================================================================== *)
(** * The further properties on the scenarios                             *)
(* ===================================================================== *)

Section More_scenarios.

Lemma tripped_evolves :
  evolves (W:=World) (V:=unit) (CircuitBreaker_init 3 30 Exception "database")
    tripped.
Proof.
  unfold tripped, failed_twice, failed_once, database_breaker.
  do 3 apply evolves_call. apply evolves_refl.
Qed.

Lemma X1_witness :
  0 < 3
  /\ failure_threshold tripped = 3 /\ recovery_timeout tripped = 30
  /\ expected_exception tripped = Exception /\ name tripped = "database"
  /\ 0 <= failure_count tripped
  /\ (state tripped = CLOSED <-> failure_count tripped < 3)
  /\ (state tripped <> CLOSED -> last_failure_time tripped <> None).
Proof.
  assert (Hth : 0 < 3) by reflexivity.
  split; [exact Hth|].
  exact (X1_fresh_breaker_invariant 3 30 Exception "database" tripped Hth
           tripped_evolves).
Defined.

Lemma X2_witness :
  snd (fst (call tripped working_query (mkWorld 40 3))) = Returns tt
  /\ state (fst (fst (call tripped working_query (mkWorld 40 3)))) = CLOSED
  /\ failure_count (fst (fst (call tripped working_query (mkWorld 40 3)))) = 0
  /\ last_failure_time (fst (fst (call tripped working_query (mkWorld 40 3))))
     = last_failure_time tripped
  /\ failure_threshold (fst (fst (call tripped working_query (mkWorld 40 3))))
     = failure_threshold tripped
  /\ recovery_timeout (fst (fst (call tripped working_query (mkWorld 40 3))))
     = recovery_timeout tripped.
Proof.
  assert (Hr : snd (fst (call tripped working_query (mkWorld 40 3))) = Returns tt)
    by reflexivity.
  split; [exact Hr|].
  exact (X2_returning_call_closes tripped working_query (mkWorld 40 3) tt Hr).
Defined.

Lemma X3_witness :
  state database_breaker = CLOSED
  /\ failure_count database_breaker + Z.of_nat 2
     < failure_threshold database_breaker
  /\ state failed_twice = CLOSED
  /\ failure_count failed_twice = failure_count database_breaker + Z.of_nat 2
  /\ forall w : World, admission failed_twice w = inr failed_twice.
Proof.
  assert (Hs : state database_breaker = CLOSED) by reflexivity.
  assert (Hlt : failure_count database_breaker + Z.of_nat 2
                < failure_threshold database_breaker) by reflexivity.
  split; [exact Hs|]. split; [exact Hlt|].
  exact (X3_below_threshold_stays_closed database_breaker 2 failed_twice Hs
           failed_twice_by_two_failures Hlt).
Defined.

Lemma X4_witness :
  failing_query (mkWorld 40 3)
  = (Raises (OtherException "OperationalError" "connection refused"),
     mkWorld 41 4)
  /\ expected_exception picky_breaker
       (OtherException "OperationalError" "connection refused") = false
  /\ (inject_Z (recovery_timeout picky_breaker) <= time (mkWorld 40 3) - 3)%Q
  /\ call picky_breaker failing_query (mkWorld 40 3)
     = (set_state picky_breaker HALF_OPEN,
        Raises (OtherException "OperationalError" "connection refused"),
        mkWorld 41 4)
  /\ forall w0 : World,
       admission (set_state picky_breaker HALF_OPEN) w0
       = inr (set_state picky_breaker HALF_OPEN).
Proof.
  assert (Hf : failing_query (mkWorld 40 3)
               = (Raises (OtherException "OperationalError" "connection refused"),
                  mkWorld 41 4)) by reflexivity.
  assert (He : expected_exception picky_breaker
                 (OtherException "OperationalError" "connection refused")
               = false) by reflexivity.
  assert (Hle : (inject_Z (recovery_timeout picky_breaker)
                 <= time (mkWorld 40 3) - 3)%Q) by (vm_compute; discriminate).
  split; [exact Hf|]. split; [exact He|]. split; [exact Hle|].
  destruct (X4_uncounted_exception picky_breaker failing_query (mkWorld 40 3)
              _ _ Hf He) as [_ Hopen].
  exact (Hopen 3%Q eq_refl eq_refl Hle).
Defined.

Lemma X5_witness :
  get_critical_circuits watched (mkWorld 100 3) = ["database"]
  /\ sublist (get_critical_circuits watched (mkWorld 100 3))
             (get_open_circuits watched)
  /\ exists b t,
       ("database", b) ∈ watched /\ state b = OPEN
       /\ last_failure_time b = Some t /\ ~ (t == 0)%Q
       /\ (inject_Z (recovery_timeout b * 2) < time (mkWorld 100 3) - t)%Q
       /\ (0 <= recovery_timeout b ->
           admission b (mkWorld 100 3) = inr (set_state b HALF_OPEN)).
Proof.
  assert (Hc : get_critical_circuits watched (mkWorld 100 3) = ["database"])
    by reflexivity.
  destruct (X5_critical_circuits watched (mkWorld 100 3)) as (Hsub & _ & Hin).
  split; [exact Hc|]. split; [exact Hsub|].
  apply Hin. rewrite Hc. apply list_elem_of_here.
Defined.

Lemma X6_witness :
  let m := register_breaker CircuitBreakerManager_init "database"
             database_breaker in
  NoDup (map fst m)
  /\ NoDup (map fst (register_breaker m "database" tripped))
  /\ map fst (register_breaker m "database" tripped) = ["database"]
  /\ (forall b', ("database", b') ∈ register_breaker m "database" tripped
                 <-> b' = tripped)
  /\ ("database", get_state tripped)
     ∈ get_all_states (register_breaker m "database" tripped).
Proof.
  intros m.
  assert (Hnd : NoDup (map fst m)).
  { apply NoDup_cons_2; [apply not_elem_of_nil|apply NoDup_nil_2]. }
  destruct (X6_register_breaker m "database" tripped Hnd)
    as (Hnd' & Helem & Hnames & Hstate).
  split; [exact Hnd|]. split; [exact Hnd'|]. split; [exact Hnames|].
  split; [|exact Hstate].
  intros b'. split.
  - intros Hin. apply Helem in Hin as [[_ Hb]|[Hne _]];
      [exact Hb|exfalso; apply Hne; reflexivity].
  - intros Hb. apply Helem. left. split; [reflexivity|exact Hb].
Defined.

Lemma X7_witness :
  (time (mkWorld 10 3) - 3 < inject_Z (recovery_timeout tripped))%Q
  /\ execute_query tripped working_query (mkWorld 10 3)
     = (tripped, Returns (FallbackAnswer _get_fallback_data), mkWorld 10 3)
  /\ call_service "mail" tripped working_query (mkWorld 10 3)
     = (tripped, Returns (FallbackAnswer (_get_service_fallback "mail")),
        mkWorld 10 3).
Proof.
  assert (Hlt : (time (mkWorld 10 3) - 3
                 < inject_Z (recovery_timeout tripped))%Q) by reflexivity.
  split; [exact Hlt|].
  destruct (X7_fallback_wrappers tripped working_query (mkWorld 10 3) "mail")
    as (_ & Hrej & _).
  exact (Hrej 3%Q eq_refl eq_refl Hlt).
Defined.

Lemma X8_witness :
  store_inv SLICalculator_init
  /\ store_inv (replay SLICalculator_init (ten_requests "health" 50)).
Proof.
  destruct X8_bucket_invariant as [Hinit Hkeep].
  split; [exact Hinit|].
  exact (Hkeep SLICalculator_init (ten_requests "health" 50) Hinit).
Defined.

Lemma ten_requests_inv :
  store_inv (replay SLICalculator_init (ten_requests "all" 50)).
Proof. apply replay_inv, SLICalculator_init_inv. Qed.

Lemma X10_witness :
  let store := replay SLICalculator_init (ten_requests "all" 50) in
  store_inv store
  /\ calculate_availability_sli store ts ts = calculate_error_rate_sli store ts ts
  /\ (0 <= calculate_availability_sli store ts ts <= 100)%Q.
Proof.
  intros store. split; [exact ten_requests_inv|].
  exact (X10_availability_is_error_rate store ts ts ten_requests_inv).
Defined.

Lemma X11_witness :
  let store := replay SLICalculator_init (ten_requests "all" 50) in
  ordinary_percentile default_percentile = true
  /\ (exists v, calculate_latency_sli store ts ts default_percentile = Ok v)
  /\ calculate_latency_sli store ts ts default_percentile = Ok (0 # 10)%Q
  /\ (0 <= 0 # 10 <= 100)%Q
  /\ calculate_latency_sli store ts ts (float_of_Z (-200)) = Err IndexError
  /\ all_response_times store ts ts <> [].
Proof.
  intros store.
  assert (Hp : ordinary_percentile default_percentile = true) by reflexivity.
  assert (Hok : calculate_latency_sli store ts ts default_percentile
                = Ok (0 # 10)%Q) by (vm_compute; reflexivity).
  assert (Herr : calculate_latency_sli store ts ts (float_of_Z (-200))
                 = Err IndexError) by (vm_compute; reflexivity).
  destruct (X11_latency_sli_range store ts ts default_percentile)
    as (Hrange & _ & Hserved).
  destruct (X11_latency_sli_range store ts ts (float_of_Z (-200)))
    as (_ & Honly & _).
  destruct (Honly _ Herr) as [Hsamples _].
  split; [exact Hp|]. split; [exact (Hserved Hp)|]. split; [exact Hok|].
  split; [exact (Hrange _ Hok)|]. split; [exact Herr|exact Hsamples].
Defined.

Lemma X12_witness :
  half_past_ten <= quarter_past_twelve
  /\ ~ (half_past_ten mod timedelta 0 1 <= quarter_past_twelve mod timedelta 0 1)
  /\ Z.of_nat (length (window half_past_ten quarter_past_twelve)) = 2
  /\ ~ Exists (fun t => t / timedelta 0 1 = quarter_past_twelve / timedelta 0 1)
         (window half_past_ten quarter_past_twelve).
Proof.
  assert (Hle : half_past_ten <= quarter_past_twelve)
    by (vm_compute; discriminate).
  assert (Hmod : ~ (half_past_ten mod timedelta 0 1
                    <= quarter_past_twelve mod timedelta 0 1))
    by (vm_compute; intros Hc; apply Hc; reflexivity).
  destruct (X12_window_hours half_past_ten quarter_past_twelve)
    as (_ & _ & Hin).
  destruct (Hin Hle) as (Hlen & _ & Hex).
  split; [exact Hle|]. split; [exact Hmod|]. split; [exact Hlen|].
  intros Hsome. apply Hmod. apply Hex. exact Hsome.
Defined.

Lemma X13_witness :
  ordinary_percentile default_percentile = true
  /\ calculate_availability_sli
       (replay SLICalculator_init (ten_requests "all" 50)) ts ts
     = (inject_Z 9 / inject_Z 10 * 100)%Q
  /\ calculate_latency_sli
       (replay SLICalculator_init (ten_requests "all" 50)) ts ts
       default_percentile
     = Ok (threshold_compliance (replicate 10 50%Q)).
Proof.
  assert (Hp : ordinary_percentile default_percentile = true) by reflexivity.
  destruct (X13_one_hour_slis (ten_requests "all" 50) ts default_percentile)
    as (Hav & _ & _ & Hlat).
  split; [exact Hp|]. split; [exact Hav|exact (Hlat Hp)].
Defined.

Lemma X14_witness :
  let availability :=
    mkSLODefinition "Availability" "availability_sli" (999 # 10) 30 in
  let eb := consume_all (ErrorBudget_init availability) [99%Q] in
  is_budget_critical (ErrorBudget_init availability) (1 # 2) = false
  /\ is_budget_critical eb (1 # 2) = true
  /\ is_budget_critical (consume_all eb [100; 98]%Q) (1 # 2) = true
  /\ (0 <= get_budget_remaining (consume_all eb [100; 98]%Q)
      <= get_budget_remaining eb)%Q.
Proof.
  intros availability eb.
  assert (Hcrit : is_budget_critical eb (1 # 2) = true) by reflexivity.
  destruct (X14_budget_only_shrinks eb [100; 98]%Q (1 # 2))
    as (_ & _ & _ & Hrem & Hstay).
  split; [reflexivity|]. split; [exact Hcrit|].
  split; [exact (Hstay Hcrit)|exact Hrem].
Defined.

Lemma alerting_after_outage_complete : budgets_complete alerting_after_outage.
Proof. exact SREAlerting_init_complete. Qed.

Lemma X16_witness :
  exists a' results,
    evaluate_slos alerting_after_outage ts ts = Ok (a', results)
    /\ sli_calculator a' = sli_calculator alerting_after_outage
    /\ results.*1 = ["availability"; "latency_p95"; "error_rate"; "freshness"]
    /\ forall name r, (name, r) ∈ results ->
         exists slo eb v,
           (name, slo) ∈ SLO_DEFINITIONS
           /\ sli_for (sli_calculator alerting_after_outage) name ts ts
              = Ok (Some v)
           /\ error_budgets alerting_after_outage !! name = Some eb
           /\ error_budgets a' !! name = Some (fst (consume_budget eb v))
           /\ r = slo_result_of slo eb v
           /\ (status r = PASS <-> (target slo <= v)%Q).
Proof.
  destruct (evaluate_slos_total alerting_after_outage ts ts
              alerting_after_outage_complete) as (a' & results & Hev & _).
  exists a', results. split; [exact Hev|].
  destruct (X16_evaluate_slos alerting_after_outage ts ts a' results Hev)
    as (Hcalc & _ & Hnames & Hres).
  split; [exact Hcalc|]. split; [exact Hnames|exact Hres].
Defined.

Lemma SREAlerting_init_aligned : budgets_aligned SREAlerting_init.
Proof.
  intros name eb Hlook. unfold SREAlerting_init in Hlook. simpl in Hlook.
  repeat (apply lookup_insert_Some in Hlook as [[<- <-]|[_ Hlook]];
          [unfold SLO_DEFINITIONS; simpl;
           repeat first [apply list_elem_of_here|apply list_elem_of_further]|]).
  by rewrite lookup_empty in Hlook.
Qed.

Lemma X17_witness :
  budgets_aligned SREAlerting_init
  /\ exists a' results,
       evaluate_slos SREAlerting_init ts ts = Ok (a', results)
       /\ budgets_aligned a'
       /\ error_budgets a' !! "freshness"
          = error_budgets SREAlerting_init !! "freshness"
       /\ forall r, ("freshness", r) ∈ results ->
            status r = PASS /\ budget_consumed_now r = 0%Q
            /\ sli_value r = (995 # 10)%Q.
Proof.
  split; [exact SREAlerting_init_aligned|].
  destruct (evaluate_slos_total SREAlerting_init ts ts
              SREAlerting_init_complete) as (a' & results & Hev & _).
  exists a', results. split; [exact Hev|].
  exact (X17_freshness_never_fails SREAlerting_init ts ts a' results
           SREAlerting_init_aligned Hev).
Defined.

Lemma dashboard_after_outage :
  exists a' d, get_dashboard_data alerting_after_outage ts = Ok (a', d).
Proof.
  unfold get_dashboard_data.
  destruct (evaluate_slos_total alerting_after_outage (ts - timedelta 30 0) ts
              alerting_after_outage_complete) as (a' & results & -> & _).
  by eexists _, _.
Qed.

Lemma X18_witness :
  exists a' d,
    get_dashboard_data alerting_after_outage ts = Ok (a', d)
    /\ length (alerts d)
       = (length (List.filter (fun nr => failed (snd nr)) (slos d))
          + length (List.filter (fun nr => is_critical (snd nr)) (slos d)))%nat
    /\ length (recommendations d)
       = length (List.filter (fun nr => failed (snd nr)) (slos d))
    /\ (overall_status d = "HEALTHY" <-> alerts d = [])
    /\ dd_timestamp d = ts
    /\ sli_calculator a' = sli_calculator alerting_after_outage.
Proof.
  destruct dashboard_after_outage as (a' & d & Hd).
  exists a', d. split; [exact Hd|].
  destruct (X18_dashboard_is_consistent alerting_after_outage ts a' d Hd)
    as (_ & Hal & Hrec & Hst & _ & Hts & _ & Hcalc).
  split; [exact Hal|]. split; [exact Hrec|]. split; [exact Hst|].
  split; [exact Hts|exact Hcalc].
Defined.

Lemma X20_witness :
  let h := get_system_health aws_down CircuitBreakerManager_init (mkWorld 0 0) in
  sh_overall_status h = "HEALTHY" /\ sh_alerts h = []
  /\ map snd (sh_components h) = ["ERROR"; "ERROR"; "ERROR"; "HEALTHY"].
Proof.
  destruct (X20_system_health aws_down CircuitBreakerManager_init (mkWorld 0 0))
    as (_ & _ & _ & Hdown).
  exact (Hdown eq_refl eq_refl eq_refl eq_refl).
Defined.

Lemma X21_witness :
  runningCount (mkEcsService 0 0) = 0
  /\ _check_ecs_health aws_scaled_to_zero = "CRITICAL"
  /\ _check_alb_health aws_scaled_to_zero = "CRITICAL".
Proof.
  assert (Hz : runningCount (mkEcsService 0 0) = 0) by reflexivity.
  destruct (X21_nothing_running_is_critical aws_scaled_to_zero)
    as (Hecs & _ & Halb).
  destruct (Hecs (mkEcsService 0 0) [] eq_refl) as ([_ Hcrit] & _).
  split; [exact Hz|]. split; [exact (Hcrit Hz)|].
  exact (Halb "active" [] "arn:tg" [] eq_refl eq_refl eq_refl).
Defined.

Lemma alerts_after_outage :
  exists alerting' p,
    sre_alerts aws_down watched (mkWorld 100 3) alerting_after_outage ts
    = Ok (alerting', p).
Proof.
  unfold sre_alerts.
  destruct dashboard_after_outage as (a' & d & ->). by eexists _, _.
Qed.

Lemma X22_witness :
  exists alerting' p d,
    sre_alerts aws_down watched (mkWorld 100 3) alerting_after_outage ts
    = Ok (alerting', p)
    /\ get_dashboard_data alerting_after_outage ts = Ok (alerting', d)
    /\ ap_critical_alerts p + ap_warning_alerts p
       = Z.of_nat (length (sh_alerts (get_system_health aws_down watched
                                        (mkWorld 100 3))))
    /\ ap_total_alerts p
       = ap_critical_alerts p + ap_warning_alerts p
         + Z.of_nat (length (alerts d)).
Proof.
  destruct alerts_after_outage as (alerting' & p & Hp).
  destruct (X22_sre_alerts aws_down watched (mkWorld 100 3)
              alerting_after_outage ts alerting' p Hp)
    as (d & Hd & _ & Hsys & Htotal).
  exists alerting', p, d. split; [exact Hp|]. split; [exact Hd|].
  split; [exact Hsys|exact Htotal].
Defined.

Lemma X23_witness :
  state tripped = OPEN /\ last_failure_time tripped = Some 3%Q
  /\ (time (mkWorld 10 3) - 3 < inject_Z (recovery_timeout tripped))%Q
  /\ health_check tripped SLICalculator_init working_query (mkWorld 10 3)
     = (tripped,
        record_request SLICalculator_init "health" 200
          ((time (later (mkWorld 10 3)) - time (mkWorld 10 3)) * 1000) None
          (utcnow (later (mkWorld 10 3))),
        Returns (mkResponse
                   (HealthBody "healthy" "connected" None
                      ((time (later (mkWorld 10 3)) - time (mkWorld 10 3))
                       * 1000)) 200),
        later (mkWorld 10 3)).
Proof.
  assert (Hs : state tripped = OPEN) by reflexivity.
  assert (Ht : last_failure_time tripped = Some 3%Q) by reflexivity.
  assert (Hlt : (time (mkWorld 10 3) - 3
                 < inject_Z (recovery_timeout tripped))%Q) by reflexivity.
  split; [exact Hs|]. split; [exact Ht|]. split; [exact Hlt|].
  destruct (X23_health_check_with_open_breaker tripped SLICalculator_init
              working_query (mkWorld 10 3) 3%Q Hs Ht Hlt) as [Hanswer _].
  exact Hanswer.
Defined.

Lemma X24_witness :
  resp_status_code
    (match snd (fst (get_users tripped SLICalculator_init users_query
                       (mkWorld 10 3))) with
     | Returns r => r
     | Raises _ => mkResponse (ErrorBody "") 0
     end) = 500
  /\ get_users database_breaker SLICalculator_init users_query (mkWorld 10 0)
     = (_on_success database_breaker,
        record_request SLICalculator_init "api_users_get" 200
          ((time (later (mkWorld 11 1)) - time (mkWorld 10 0)) * 1000) None
          (utcnow (later (mkWorld 11 1))),
        Returns (mkResponse (UsersBody two_users) 200),
        later (mkWorld 11 1)).
Proof.
  destruct (X24_get_users tripped SLICalculator_init users_query (mkWorld 10 3))
    as [Hopen _].
  destruct (X24_get_users database_breaker SLICalculator_init users_query
              (mkWorld 10 0)) as [_ Hclosed].
  split.
  - rewrite (Hopen 3%Q eq_refl eq_refl eq_refl). reflexivity.
  - exact (Hclosed database_breaker two_users (mkWorld 11 1) eq_refl eq_refl).
Defined.
End More_scenarios.
